(** * hdPrman MaterialX material filter (matfiltMaterialX.cpp)

    A shallow embedding of the material-network rewrite that hdPrman runs
    on MaterialX networks: texture-node adaptation, per-connection OSL
    generation and compilation, pruning of the upstream node graph and the
    replacement of the surface terminal by an adapter node and a PxrSurface
    node.

    The Hydra network, the MaterialX document, the Sdr registry, the
    diagnostics issued through TF_WARN, the temporary files and a trace of
    the generator and compiler invocations are held in one explicit state
    that every operation threads. *)

From Stdlib Require Import String Ascii ZArith Lia.
From stdpp Require Import base gmap strings list sorting.

Local Open Scope string_scope.

#[local] Set Warnings "-clear-no-such-hyp".

(* ===================================================================== *)
(** ** Tokens *)
(* ===================================================================== *)

(** [TfToken] is an interned string with value equality; the empty token
    [TfToken()] is the empty string. *)
Module tokens.
Definition mtlx := "mtlx".
Definition ND_standard_surface_surfaceshader :=
  "ND_standard_surface_surfaceshader".
Definition ND_UsdPreviewSurface_surfaceshader :=
  "ND_UsdPreviewSurface_surfaceshader".
Definition SS_Adapter := "StandardSurfaceParameters".
Definition USD_Adapter := "UsdPreviewSurfaceParameters".
Definition PxrSurface := "PxrSurface".
Definition ND_geompropvalue_vector2 := "ND_geompropvalue_vector2".
Definition ND_remap_vector2 := "ND_remap_vector2".
Definition texcoord := "texcoord".
Definition geomprop := "geomprop".
Definition geompropvalue := "geompropvalue".
Definition in_ := "in".
Definition inhigh := "inhigh".
Definition inlow := "inlow".
Definition remap := "remap".
Definition vector2 := "vector2".
Definition float2 := "float2".
Definition string_type := "string".
Definition OSL := "OSL".
Definition RmanCpp := "RmanCpp".
Definition file := "file".
Definition filename := "filename".
Definition black := "black".
Definition clamp := "clamp".
Definition repeat := "repeat".
Definition uaddressmode := "uaddressmode".
Definition vaddressmode := "vaddressmode".
(** [HdMaterialTerminalTokens->surface] *)
Definition surface := "surface".
End tokens.

(** [TfToken::operator<] compares the token strings lexicographically; the
    ordered containers keyed by tokens ([std::map], [std::set]) are walked
    in that order. *)
Definition token_le (a b : string) : Prop := String.leb a b = true.

#[global] Instance token_le_dec a b : Decision (token_le a b).
Proof. unfold token_le. apply _. Defined.

Definition sorted_keys {A} (m : gmap string A) : list string :=
  merge_sort token_le (map fst (map_to_list m)).

Definition sorted_elements (s : gset string) : list string :=
  merge_sort token_le (elements s).

(* ===================================================================== *)
(** ** Hydra material network (HdMaterialNetwork2) *)
(* ===================================================================== *)

(** [VtValue]: a type-erased value.  The filter inspects three cases: the
    empty value, a held [std::string] and a held [SdfAssetPath]; every
    other held type is kept as an opaque payload. *)
Inductive VtValue : Type :=
| VtEmpty
| VtString (s : string)
| VtAssetPath (authoredPath resolvedPath : string)
| VtOther (typeName payload : string).

#[global] Instance VtValue_eq_dec : EqDecision VtValue.
Proof. solve_decision. Defined.

Definition VtValue_IsEmpty (v : VtValue) : bool :=
  match v with VtEmpty => true | _ => false end.

Record HdMaterialConnection2 : Type := mkConnection {
  upstreamNodeName : string;
  upstreamOutputName : string
}.

#[global] Instance HdMaterialConnection2_eq_dec : EqDecision HdMaterialConnection2.
Proof. solve_decision. Defined.

Record HdMaterialNode2 : Type := mkNode {
  nodeTypeId : string;
  parameters : gmap string VtValue;
  inputConnections : gmap string (list HdMaterialConnection2)
}.

Record HdMaterialNetwork2 : Type := mkNetwork {
  nodes : gmap string HdMaterialNode2;
  terminals : gmap string HdMaterialConnection2;
  (** the material prim path the interface was created with *)
  materialPrimPath : string
}.

Definition emptyNode : HdMaterialNode2 := mkNode "" ∅ ∅.

(** Modelled from the spec: the network accessor
    (HdMaterialNetwork2Interface), whose implementation is not part of the
    translated sources.  "Network: mutable mapping from node name to node
    record; supports get/set node type, get/set/delete parameter,
    get/set/delete input connection, get/set a small set of named terminal
    connections".  Getters on an absent node or entry return the empty
    value; setters create the node record when it is absent. *)
Module HdMaterialNetworkInterface.

Definition getOrCreate (net : HdMaterialNetwork2) (nodeName : string)
  : HdMaterialNode2 :=
  default emptyNode (nodes net !! nodeName).

Definition putNode (net : HdMaterialNetwork2) (nodeName : string)
    (n : HdMaterialNode2) : HdMaterialNetwork2 :=
  mkNetwork (<[nodeName := n]> (nodes net)) (terminals net)
            (materialPrimPath net).

Definition GetMaterialPrimPath (net : HdMaterialNetwork2) : string :=
  materialPrimPath net.

Definition GetNodeType (net : HdMaterialNetwork2) (nodeName : string)
  : string :=
  match nodes net !! nodeName with
  | Some n => nodeTypeId n
  | None => ""
  end.

Definition SetNodeType (net : HdMaterialNetwork2)
    (nodeName nodeType : string) : HdMaterialNetwork2 :=
  let n := getOrCreate net nodeName in
  putNode net nodeName (mkNode nodeType (parameters n) (inputConnections n)).

Definition DeleteNode (net : HdMaterialNetwork2) (nodeName : string)
  : HdMaterialNetwork2 :=
  mkNetwork (delete nodeName (nodes net)) (terminals net)
            (materialPrimPath net).

Definition GetAuthoredNodeParameterNames (net : HdMaterialNetwork2)
    (nodeName : string) : list string :=
  match nodes net !! nodeName with
  | Some n => sorted_keys (parameters n)
  | None => []
  end.

Definition GetNodeParameterValue (net : HdMaterialNetwork2)
    (nodeName paramName : string) : VtValue :=
  match nodes net !! nodeName with
  | Some n => default VtEmpty (parameters n !! paramName)
  | None => VtEmpty
  end.

Definition SetNodeParameterValue (net : HdMaterialNetwork2)
    (nodeName paramName : string) (value : VtValue) : HdMaterialNetwork2 :=
  let n := getOrCreate net nodeName in
  putNode net nodeName
    (mkNode (nodeTypeId n) (<[paramName := value]> (parameters n))
            (inputConnections n)).

Definition DeleteNodeParameter (net : HdMaterialNetwork2)
    (nodeName paramName : string) : HdMaterialNetwork2 :=
  match nodes net !! nodeName with
  | Some n =>
      putNode net nodeName
        (mkNode (nodeTypeId n) (delete paramName (parameters n))
                (inputConnections n))
  | None => net
  end.

Definition GetNodeInputConnectionNames (net : HdMaterialNetwork2)
    (nodeName : string) : list string :=
  match nodes net !! nodeName with
  | Some n => sorted_keys (inputConnections n)
  | None => []
  end.

Definition GetNodeInputConnection (net : HdMaterialNetwork2)
    (nodeName inputName : string) : list HdMaterialConnection2 :=
  match nodes net !! nodeName with
  | Some n => default [] (inputConnections n !! inputName)
  | None => []
  end.

Definition SetNodeInputConnection (net : HdMaterialNetwork2)
    (nodeName inputName : string) (conns : list HdMaterialConnection2)
  : HdMaterialNetwork2 :=
  let n := getOrCreate net nodeName in
  putNode net nodeName
    (mkNode (nodeTypeId n) (parameters n)
            (<[inputName := conns]> (inputConnections n))).

Definition DeleteNodeInputConnection (net : HdMaterialNetwork2)
    (nodeName inputName : string) : HdMaterialNetwork2 :=
  match nodes net !! nodeName with
  | Some n =>
      putNode net nodeName
        (mkNode (nodeTypeId n) (parameters n)
                (delete inputName (inputConnections n)))
  | None => net
  end.

(** [InputConnectionResult]: the [first] flag and the connection. *)
Definition GetTerminalConnection (net : HdMaterialNetwork2)
    (terminalName : string) : bool * HdMaterialConnection2 :=
  match terminals net !! terminalName with
  | Some c => (true, c)
  | None => (false, mkConnection "" "")
  end.

Definition SetTerminalConnection (net : HdMaterialNetwork2)
    (terminalName : string) (c : HdMaterialConnection2)
  : HdMaterialNetwork2 :=
  mkNetwork (nodes net) (<[terminalName := c]> (terminals net))
            (materialPrimPath net).

End HdMaterialNetworkInterface.

Import HdMaterialNetworkInterface.

(** Modelled from the spec: the path helpers of [SdfPath] ("resolve a node
    name to its owning-container/segment identifiers").  A prim path is a
    sequence of segments separated by '/'; [GetName] is the last segment
    and [GetParentPath().GetName()] the one before it. *)
Fixpoint path_segments_aux (s : string) (cur : string) : list string :=
  match s with
  | EmptyString => [cur]
  | String c rest =>
      if Ascii.eqb c "/"%char then cur :: path_segments_aux rest ""
      else path_segments_aux rest (cur +:+ String c "")
  end.

Definition path_segments (p : string) : list string :=
  path_segments_aux p "".

Definition SdfPath_GetName (p : string) : string :=
  default "" (last (path_segments p)).

Definition SdfPath_GetParentName (p : string) : string :=
  default "" (last (removelast (path_segments p))).

(* ===================================================================== *)
(** ** MaterialX document *)
(* ===================================================================== *)

(** The part of the MaterialX document API the filter drives: node graphs
    holding nodes, nodes holding inputs, an input holding a typed value
    and/or the name of the node it is connected to.  Element pointers
    ([mx::NodeGraphPtr], [mx::NodePtr], [mx::InputPtr]) are positions in
    the owning container; a null pointer is [None]. *)
Inductive MxValue : Type :=
| MxString (s : string)
| MxFloatVec (v : list Z).   (* mx::FloatVec; only whole components occur *)

#[global] Instance MxValue_eq_dec : EqDecision MxValue.
Proof. solve_decision. Defined.

Record MxInput : Type := mkInput {
  in_name : string;
  in_type : string;
  in_value : option MxValue;
  in_nodename : option string      (* the connected node, by name *)
}.

#[global] Instance MxInput_eq_dec : EqDecision MxInput.
Proof. solve_decision. Defined.

Record MxNode : Type := mkMxNode {
  nd_name : string;
  nd_category : string;
  nd_type : string;
  nd_nodedef : option string;
  nd_inputs : list MxInput
}.

#[global] Instance MxNode_eq_dec : EqDecision MxNode.
Proof. solve_decision. Defined.

Record MxNodeGraph : Type := mkGraph {
  ng_name : string;
  ng_nodes : list MxNode
}.

Record MxDocument : Type := mkDoc {
  doc_nodes : list MxNode;          (* top-level material and shader nodes *)
  doc_graphs : list MxNodeGraph
}.

(** Index of the first element satisfying [p]. *)
Fixpoint find_index {A} (p : A -> bool) (l : list A) : option nat :=
  match l with
  | [] => None
  | x :: r => if p x then Some 0 else S <$> find_index p r
  end.

Module mx.

Definition EMPTY_STRING : string := "".

(** [Document::getNodeGraph(name)] *)
Definition getNodeGraph (d : MxDocument) (name : string) : option nat :=
  find_index (fun g => bool_decide (ng_name g = name)) (doc_graphs d).

(** [GraphElement::getNode(name)] *)
Definition getNode (g : MxNodeGraph) (name : string) : option nat :=
  find_index (fun n => bool_decide (nd_name n = name)) (ng_nodes g).

(** [Document::removeNode(name)] on the top-level nodes. *)
Definition removeNode (d : MxDocument) (name : string) : MxDocument :=
  mkDoc (filter (fun n => nd_name n ≠ name) (doc_nodes d)) (doc_graphs d).

(** [Node::getInput(name)] *)
Definition getInput (n : MxNode) (name : string) : option nat :=
  find_index (fun i => bool_decide (in_name i = name)) (nd_inputs n).

(** [Node::addInput(name, type)]; called on names the node does not have. *)
Definition addInput (n : MxNode) (name type : string) : MxNode :=
  mkMxNode (nd_name n) (nd_category n) (nd_type n) (nd_nodedef n)
           (nd_inputs n ++ [mkInput name type None None]).

Definition setInputs (n : MxNode) (ins : list MxInput) : MxNode :=
  mkMxNode (nd_name n) (nd_category n) (nd_type n) (nd_nodedef n) ins.

(** [Node::setInputValue(name, value, type)]: the input is created when
    missing, then its type and value are set; a connection is kept. *)
Definition setInputValue (n : MxNode) (name : string) (v : MxValue)
    (type : string) : MxNode :=
  match getInput n name with
  | Some i =>
      setInputs n
        (alter (fun inp => mkInput (in_name inp) type (Some v) (in_nodename inp))
               i (nd_inputs n))
  | None => setInputs n (nd_inputs n ++ [mkInput name type (Some v) None])
  end.

(** [Input::setConnectedNode(node)]: stores the node's name, or clears the
    connection for a null node. *)
Definition setConnectedNode (n : MxNode) (input : nat)
    (target : option string) : MxNode :=
  setInputs n
    (alter (fun inp => mkInput (in_name inp) (in_type inp) (in_value inp) target)
           input (nd_inputs n)).

(** [Input::getConnectedNode()]: the node of the enclosing graph that the
    input names, null when there is none. *)
Definition getConnectedNode (g : MxNodeGraph) (n : MxNode) (input : nat)
    : option string :=
  match nd_inputs n !! input with
  | Some inp =>
      match in_nodename inp with
      | Some nm => match getNode g nm with Some _ => Some nm | None => None end
      | None => None
      end
  | None => None
  end.

Definition setNodeDefString (n : MxNode) (nodeDef : string) : MxNode :=
  mkMxNode (nd_name n) (nd_category n) (nd_type n) (Some nodeDef) (nd_inputs n).

(** [GraphElement::addNode(category, name, type)]: appends a node; the
    library throws when the name is already used in the graph, which is
    [None] here. *)
Definition addNode (g : MxNodeGraph) (category name type : string)
    : option MxNodeGraph :=
  match getNode g name with
  | Some _ => None
  | None =>
      Some (mkGraph (ng_name g)
                    (ng_nodes g ++ [mkMxNode name category type None []]))
  end.

Definition setNode (g : MxNodeGraph) (i : nat) (n : MxNode) : MxNodeGraph :=
  mkGraph (ng_name g) (<[i := n]> (ng_nodes g)).

Definition setGraph (d : MxDocument) (i : nat) (g : MxNodeGraph) : MxDocument :=
  mkDoc (doc_nodes d) (<[i := g]> (doc_graphs d)).

End mx.

(* ===================================================================== *)
(** ** Sdr registry *)
(* ===================================================================== *)

(** Modelled from the spec: the node-definition registry (SdrRegistry) and
    its entries, which live outside the translated sources.  "Lookup by
    type identifier (optionally filtered by source-language tag), lookup by
    type+source-language pair, registration of a new entry from a
    compiled-artifact path plus metadata, and per-entry queries: declared
    inputs, declared outputs (by name), arbitrary metadata (used for
    primary-coordinate hints)". *)
Record SdrShaderNode : Type := mkSdr {
  sdr_identifier : string;
  sdr_sourceType : string;
  sdr_inputNames : list string;
  sdr_outputNames : list string;
  sdr_primvars : string             (* metadata[SdrNodeMetadata->Primvars] *)
}.

#[global] Instance SdrShaderNode_eq_dec : EqDecision SdrShaderNode.
Proof. solve_decision. Defined.

Module SdrRegistry.

Definition GetShaderNodeByIdentifier (reg : list SdrShaderNode)
    (identifier : string) (typePriority : list string)
  : option SdrShaderNode :=
  match typePriority with
  | [] => List.find (fun e => bool_decide (sdr_identifier e = identifier)) reg
  | _ =>
      List.find
        (fun e => bool_decide (sdr_identifier e = identifier) &&
                  bool_decide (sdr_sourceType e ∈ typePriority)) reg
  end.

Definition GetShaderNodeByIdentifierAndType (reg : list SdrShaderNode)
    (identifier sourceType : string) : option SdrShaderNode :=
  List.find
    (fun e => bool_decide (sdr_identifier e = identifier) &&
              bool_decide (sdr_sourceType e = sourceType)) reg.

(** [SdrShaderNode::GetOutput] / [GetShaderOutput], tested for null. *)
Definition GetOutput (n : SdrShaderNode) (name : string) : bool :=
  bool_decide (name ∈ sdr_outputNames n).

(** [SdrShaderNode::GetShaderInput], tested for null. *)
Definition GetShaderInput (n : SdrShaderNode) (name : string) : bool :=
  bool_decide (name ∈ sdr_inputNames n).

(** Registration keeps an entry that is already there. *)
Definition register (reg : list SdrShaderNode) (n : SdrShaderNode)
  : list SdrShaderNode :=
  if bool_decide (n ∈ reg) then reg else reg ++ [n].

End SdrRegistry.

(* ===================================================================== *)
(** ** Execution state and the computation monad *)
(* ===================================================================== *)

(** Trace of the external tools the rewrite drives. *)
Inductive Event : Type :=
| EvGenerate (hdNodeName shaderName : string)  (* _GenMaterialXShaderCode called *)
| EvCompile (hdNodeName shaderName : string)   (* _CompileOslSource called *)
| EvOslc (shaderName oslSource : string).      (* OSLCompiler::compile_buffer run *)

#[global] Instance Event_eq_dec : EqDecision Event.
Proof. solve_decision. Defined.

Record World : Type := mkWorld {
  w_net : HdMaterialNetwork2;
  w_doc : MxDocument;
  w_registry : list SdrShaderNode;
  w_warnings : list string;          (* TF_WARN messages, oldest first *)
  w_trace : list Event;              (* oldest first *)
  w_tmpCalls : nat;                  (* calls of ArchMakeTmpFileName so far *)
  w_files : gmap string string       (* files written, by path *)
}.

(** What the filter takes from its surroundings: build configuration, the
    MaterialX generator, the OSL compiler, the file system, the asset
    resolver, the Ndr parser behind [GetShaderNodeFromAsset] and the HdMtlx
    document builder. *)
Record Env : Type := mkEnv {
  ARCH_LIBRARY_SUFFIX : string;
  PXR_OSL_SUPPORT_ENABLED : bool;
  HdMtlxSearchPaths : list string;
  FilePath_exists : string -> bool;
  (** [mx::createShader(shaderName, context, node)->getSourceCode()], null
      shader is [None] *)
  mx_createShader : string -> MxDocument -> nat -> nat -> option string;
  (** [OSLCompiler::compile_buffer]: success flag and the output buffer *)
  OSLCompiler_compile_buffer : string -> list string -> bool * string;
  (** [ArchMakeTmpFileName(prefix, suffix)] at the n-th call *)
  ArchMakeTmpFileName : nat -> string -> string -> string;
  fopen_succeeds : string -> bool;
  (** the parse behind [GetShaderNodeFromAsset]: asset path, file content,
      sub-identifier, source type *)
  Ndr_parseAsset : string -> string -> string -> string -> option SdrShaderNode;
  ArGetExtension : string -> string;
  (** [HdMtlxCreateMtlxDocumentFromHdMaterialNetworkInterface]: the
      document and the texture node paths, in set order *)
  HdMtlxCreateMtlxDocument :
    HdMaterialNetwork2 -> string -> list string -> MxDocument * list string
}.

(** A computation either completes or stops at a fault (a null pointer
    dereferenced, an exception of the MaterialX library, an unchecked
    [VtValue] access of the wrong type); the state reached is kept. *)
Inductive Outcome (A : Type) : Type :=
| Done (a : A)
| Fault (what : string).
Arguments Done {A} a.
Arguments Fault {A} what.

Definition M (A : Type) : Type := World -> Outcome A * World.

Definition ret {A} (a : A) : M A := fun w => (Done a, w).

Definition bind {A B} (m : M A) (k : A -> M B) : M B :=
  fun w =>
    match m w with
    | (Done a, w') => k a w'
    | (Fault s, w') => (Fault s, w')
    end.

Notation "'let*' x ':=' m 'in' k" := (bind m (fun x => k))
  (at level 10, x pattern, m at level 100, k at level 200).
Notation "m ';;;' k" := (bind m (fun _ => k))
  (at level 100, k at level 200, right associativity).

Definition fault {A} (what : string) : M A := fun w => (Fault what, w).

Definition get_net : M HdMaterialNetwork2 := fun w => (Done (w_net w), w).
Definition get_doc : M MxDocument := fun w => (Done (w_doc w), w).
Definition get_registry : M (list SdrShaderNode) :=
  fun w => (Done (w_registry w), w).

(** State updates, one component at a time. *)
Definition with_net (w : World) (net : HdMaterialNetwork2) : World :=
  mkWorld net (w_doc w) (w_registry w) (w_warnings w) (w_trace w)
          (w_tmpCalls w) (w_files w).

Definition with_doc (w : World) (d : MxDocument) : World :=
  mkWorld (w_net w) d (w_registry w) (w_warnings w) (w_trace w)
          (w_tmpCalls w) (w_files w).

Definition with_registry (w : World) (r : list SdrShaderNode) : World :=
  mkWorld (w_net w) (w_doc w) r (w_warnings w) (w_trace w)
          (w_tmpCalls w) (w_files w).

(** The state after the diagnostics [msgs] were issued. *)
Definition with_warnings (w : World) (msgs : list string) : World :=
  mkWorld (w_net w) (w_doc w) (w_registry w) (w_warnings w ++ msgs)
          (w_trace w) (w_tmpCalls w) (w_files w).

Definition with_events (w : World) (es : list Event) : World :=
  mkWorld (w_net w) (w_doc w) (w_registry w) (w_warnings w)
          (w_trace w ++ es) (w_tmpCalls w) (w_files w).

Definition with_tmpCalls (w : World) (n : nat) : World :=
  mkWorld (w_net w) (w_doc w) (w_registry w) (w_warnings w) (w_trace w)
          n (w_files w).

Definition with_file (w : World) (path content : string) : World :=
  mkWorld (w_net w) (w_doc w) (w_registry w) (w_warnings w) (w_trace w)
          (w_tmpCalls w) (<[path := content]> (w_files w)).

Definition set_net (net : HdMaterialNetwork2) : M unit :=
  fun w => (Done tt, with_net w net).

Definition modify_net (f : HdMaterialNetwork2 -> HdMaterialNetwork2) : M unit :=
  fun w => (Done tt, with_net w (f (w_net w))).

Definition set_doc (d : MxDocument) : M unit :=
  fun w => (Done tt, with_doc w d).

Definition set_registry (r : list SdrShaderNode) : M unit :=
  fun w => (Done tt, with_registry w r).

(** The line feed that ends some format strings. *)
Definition line_feed : string := String "010"%char "".

(** [TF_WARN(msg)] *)
Definition TF_WARN (msg : string) : M unit :=
  fun w => (Done tt, with_warnings w [msg]).

Definition TF_WARN_all (msgs : list string) : M unit :=
  fun w => (Done tt, with_warnings w msgs).

Definition trace (e : Event) : M unit :=
  fun w => (Done tt, with_events w [e]).

Definition next_tmp_call : M nat :=
  fun w => (Done (w_tmpCalls w), with_tmpCalls w (S (w_tmpCalls w))).

Definition write_file (path content : string) : M unit :=
  fun w => (Done tt, with_file w path content).

Definition read_file (path : string) : M string :=
  fun w => (Done (default "" (w_files w !! path)), w).

(** A range-based [for] whose body is run for its effects; [continue] is
    the body returning early. *)
Fixpoint for_each {A} (l : list A) (body : A -> M unit) : M unit :=
  match l with
  | [] => ret tt
  | x :: r => body x ;;; for_each r body
  end.

(** The same with local variables threaded through the iterations. *)
Fixpoint for_each_with {A S} (l : list A) (body : S -> A -> M S) (s : S)
  : M S :=
  match l with
  | [] => ret s
  | x :: r => let* s' := body s x in for_each_with r body s'
  end.

(** Element access through a MaterialX pointer. *)
Definition read_graph (g : nat) : M MxNodeGraph :=
  let* d := get_doc in
  match doc_graphs d !! g with
  | Some gr => ret gr
  | None => fault "dangling node graph pointer"
  end.

Definition read_node (g n : nat) : M MxNode :=
  let* gr := read_graph g in
  match ng_nodes gr !! n with
  | Some nd => ret nd
  | None => fault "dangling node pointer"
  end.

Definition update_node (g n : nat) (f : MxNode -> MxNode) : M unit :=
  let* gr := read_graph g in
  let* nd := read_node g n in
  let* d := get_doc in
  set_doc (mx.setGraph d g (mx.setNode gr n (f nd))).

(** [graph->addNode(category, name, type)], returning the new node. *)
Definition add_node (g : nat) (category name type : string) : M nat :=
  let* gr := read_graph g in
  match mx.addNode gr category name type with
  | None => fault "MaterialX: child name is not unique"
  | Some gr' =>
      let* d := get_doc in
      set_doc (mx.setGraph d g gr') ;;;
      ret (length (ng_nodes gr))
  end.

(* ===================================================================== *)
(** ** The filter *)
(* ===================================================================== *)

Record FoundNode : Type := mkFound {
  mxNodeGraph : option nat;          (* *mxNodeGraph on return *)
  mxNode : option nat                (* *mxNode on return, within that graph *)
}.

(** Walk of all graphs for the named node; the first hit wins. *)
Fixpoint scan_graphs (graphs : list MxNodeGraph) (mxNodeName : string)
    (i : nat) : option (nat * nat) :=
  match graphs with
  | [] => None
  | graph :: rest =>
      match mx.getNode graph mxNodeName with
      | Some n => Some (i, n)
      | None => scan_graphs rest mxNodeName (S i)
      end
  end.

Definition _FindGraphAndNodeByName (mxDoc : MxDocument)
    (mxNodeGraphName mxNodeName : string) : FoundNode :=
  let graph0 := mx.getNodeGraph mxDoc mxNodeGraphName in
  let node0 :=
    match graph0 with
    | Some g =>
        match doc_graphs mxDoc !! g with
        | Some gr => mx.getNode gr mxNodeName
        | None => None
        end
    | None => None
    end in
  match node0 with
  | Some n => mkFound graph0 (Some n)
  | None =>
      let graphs := doc_graphs mxDoc in
      (* first try last graph *)
      let viaLast :=
        match last graphs with
        | Some gr =>
            match mx.getNode gr mxNodeName with
            | Some n => Some (length graphs - 1, n)
            | None => None
            end
        | None => None
        end in
      match viaLast with
      | Some (g, n) => mkFound (Some g) (Some n)
      | None =>
          match scan_graphs graphs mxNodeName 0 with
          | Some (g, n) => mkFound (Some g) (Some n)
          | None => mkFound graph0 None
          end
      end
  end.

Section Filter.

Context (env : Env).

Definition _GenMaterialXShaderCode (searchPath : list string)
    (shaderName mxNodeName mxNodeGraphName : string) : M string :=
  let* mxDoc := get_doc in
  let found := _FindGraphAndNodeByName mxDoc mxNodeGraphName mxNodeName in
  match mxNodeGraph found with
  | None =>
      TF_WARN ("NodeGraph '" +:+ mxNodeGraphName +:+ "' not found in the mxDoc.") ;;;
      ret mx.EMPTY_STRING
  | Some g =>
      match mxNode found with
      | None =>
          TF_WARN ("Node '" +:+ mxNodeName +:+ "' not found in '" +:+
                   mxNodeGraphName +:+ "' nodeGraph.") ;;;
          ret mx.EMPTY_STRING
      | Some n =>
          match mx_createShader env shaderName mxDoc g n with
          | Some sourceCode => ret sourceCode
          | None =>
              TF_WARN ("Unable to create Shader for node '" +:+ mxNodeName +:+
                       "'.") ;;;
              ret mx.EMPTY_STRING
          end
      end
  end.

Definition _GetAdapterNodeType (hdNodeType : string) : M string :=
  if bool_decide (hdNodeType = tokens.ND_standard_surface_surfaceshader) then
    ret tokens.SS_Adapter
  else if bool_decide (hdNodeType = tokens.ND_UsdPreviewSurface_surfaceshader)
  then ret tokens.USD_Adapter
  else
    TF_WARN ("Unsupported Node Type '" +:+ hdNodeType +:+ "'") ;;;
    ret "".

Definition conflicts : list (string * string) :=
  [("emission", "emission_value");
   ("subsurface", "subsurface_value");
   ("normal", "input_normal")].

Definition _GetUpdatedInputToken (currInputName : string) : string :=
  match List.find (fun kv => bool_decide (fst kv = currInputName)) conflicts with
  | Some kv => snd kv
  | None => ""
  end.

Definition _HasNode (net : HdMaterialNetwork2) (nodeName : string) : bool :=
  negb (bool_decide (GetNodeType net nodeName = "")).

(** The sets [_GatherNodeGraphNodes] fills through its pointer arguments,
    with the warnings it issues. *)
Record Gathered : Type := mkGathered {
  upstreamNodeNames : gset string;
  visitedNodeNames : gset string;
  gatherWarnings : list string
}.

Fixpoint fold_opt {A S} (l : list A) (body : S -> A -> option S) (s : S)
  : option S :=
  match l with
  | [] => Some s
  | x :: r => match body s x with Some s' => fold_opt r body s' | None => None end
  end.

(** The recursion of [_GatherNodeGraphNodes], bounded by [fuel]; [None]
    when the bound is reached. *)
Fixpoint gatherNodeGraphNodes (fuel : nat) (net : HdMaterialNetwork2)
    (hdNodeName : string) (acc : Gathered) : option Gathered :=
  match fuel with
  | O => None
  | S fuel' =>
      let cNames := GetNodeInputConnectionNames net hdNodeName in
      fold_opt cNames
        (fun acc cName =>
           let inputConnections := GetNodeInputConnection net hdNodeName cName in
           fold_opt inputConnections
             (fun acc currConnection =>
                let upstream := upstreamNodeName currConnection in
                if negb (_HasNode net upstream) then
                  Some (mkGathered (upstreamNodeNames acc) (visitedNodeNames acc)
                          (gatherWarnings acc ++
                           ["Unknown material node '" +:+ upstream +:+ "'"]))
                else if bool_decide (upstream ∈ visitedNodeNames acc) then
                  Some acc
                else
                  let acc1 :=
                    mkGathered (upstreamNodeNames acc)
                               ({[upstream]} ∪ visitedNodeNames acc)
                               (gatherWarnings acc) in
                  match gatherNodeGraphNodes fuel' net upstream acc1 with
                  | Some acc2 =>
                      Some (mkGathered ({[upstream]} ∪ upstreamNodeNames acc2)
                                       (visitedNodeNames acc2)
                                       (gatherWarnings acc2))
                  | None => None
                  end)
             acc)
        acc
  end.

(** Every recursive call marks a node of the network that was not marked
    before, so the depth never exceeds the number of nodes. *)
Definition gather_fuel (net : HdMaterialNetwork2) : nat :=
  S (size (nodes net)).

Definition _GatherNodeGraphNodes (hdNodeName : string)
    (upstream visited : gset string) : M (gset string * gset string) :=
  let* net := get_net in
  match gatherNodeGraphNodes (gather_fuel net) net hdNodeName
          (mkGathered upstream visited []) with
  | Some r =>
      TF_WARN_all (gatherWarnings r) ;;;
      ret (upstreamNodeNames r, visitedNodeNames r)
  | None => fault "recursion bound reached"
  end.

Definition FilePath_join (a b : string) : string := a +:+ "/" +:+ b.

Definition _CompileOslSource (name oslSource : string)
    (searchPaths : list string) : M string :=
  if PXR_OSL_SUPPORT_ENABLED env then
    let stdlibOslPath := "stdlib/osl" in
    let oslArgs :=
      map (fun path =>
             let fullPath := FilePath_join path stdlibOslPath in
             if FilePath_exists env fullPath then "-I" +:+ fullPath
             else "-I" +:+ path) searchPaths in
    (* Compile oslSource; the result of compile_buffer is not looked at *)
    trace (EvOslc name oslSource) ;;;
    let oslCompiledSource :=
      snd (OSLCompiler_compile_buffer env oslSource oslArgs) in
    (* Save compiled shader *)
    let* n := next_tmp_call in
    let compiledFilePath := ArchMakeTmpFileName env n ("MX." +:+ name) ".oso" in
    if negb (fopen_succeeds env compiledFilePath) then
      TF_WARN ("Unable to save compiled MaterialX Osl shader at '" +:+
               compiledFilePath +:+ "'" +:+ line_feed) ;;;
      ret mx.EMPTY_STRING
    else
      write_file compiledFilePath oslCompiledSource ;;;
      ret compiledFilePath
  else
    TF_WARN ("Unable to compile MaterialX generated Osl shader, enable OSL " +:+
             "support for full MaterialX support in HdPrman." +:+ line_feed) ;;;
    ret mx.EMPTY_STRING.

Definition _DeleteAllInputConnections (nodeName : string) : M unit :=
  let* net := get_net in
  let cNames := GetNodeInputConnectionNames net nodeName in
  for_each cNames
    (fun cName =>
       modify_net (fun net => DeleteNodeInputConnection net nodeName cName)).

Definition _DeleteAllParameters (nodeName : string) : M unit :=
  let* net := get_net in
  let pNames := GetAuthoredNodeParameterNames net nodeName in
  for_each pNames
    (fun pName => modify_net (fun net => DeleteNodeParameter net nodeName pName)).

(** [SdrRegistry::GetShaderNodeFromAsset]: parse the artifact and enter it
    in the registry; null when the artifact does not parse. *)
Definition GetShaderNodeFromAsset (assetPath subIdentifier sourceType : string)
  : M (option SdrShaderNode) :=
  let* content := read_file assetPath in
  match Ndr_parseAsset env assetPath content subIdentifier sourceType with
  | Some n =>
      let* reg := get_registry in
      set_registry (SdrRegistry.register reg n) ;;;
      ret (Some n)
  | None => ret None
  end.

(** The three local sets of [_UpdateNetwork]. *)
Record RewriteSets : Type := mkSets {
  nodesToKeep : gset string;     (* nodes directly connected to the terminal *)
  nodesToRemove : gset string;   (* nodes further removed from the terminal *)
  visited : gset string
}.

(** Body of the inner loop of [_UpdateNetwork]: one connection
    [currConnection] of the terminal input [cName]. *)
Definition updateConnection (terminalNodeName : string)
    (searchPath : list string) (cName : string) (sets : RewriteSets)
    (currConnection : HdMaterialConnection2) : M RewriteSets :=
  let upstream := upstreamNodeName currConnection in
  let outputName := upstreamOutputName currConnection in
  let* net := get_net in
  if negb (_HasNode net upstream) then
    TF_WARN ("Unknown material node '" +:+ upstream +:+ "'") ;;;
    ret sets
  else
    let newNode := bool_decide (upstream ∉ visited sets) in
    if negb newNode then
      (* Re-using a node or node output, get the corresponding sdrNode *)
      let* reg := get_registry in
      match SdrRegistry.GetShaderNodeByIdentifier reg
              (GetNodeType net upstream) [] with
      | None => ret sets
      | Some sdrNode =>
          let inputName := cName in
          if SdrRegistry.GetOutput sdrNode outputName then
            modify_net (fun net =>
              SetNodeInputConnection net terminalNodeName inputName
                [mkConnection upstream outputName]) ;;;
            ret sets
          else
            TF_WARN ("Output '" +:+ outputName +:+ "' not found on node '" +:+
                     upstream +:+ "'.") ;;;
            ret sets
      end
    else
      (* Collect nodes further removed from the terminal in nodesToRemove *)
      let* gathered :=
        _GatherNodeGraphNodes upstream (nodesToRemove sets)
                              ({[upstream]} ∪ visited sets) in
      let sets' :=
        mkSets ({[upstream]} ∪ nodesToKeep sets) (fst gathered) (snd gathered) in
      (* Generate the oslSource code for the connected upstream node *)
      let mxNodeName := SdfPath_GetName upstream in
      let mxNodeGraphName := SdfPath_GetParentName upstream in
      let shaderName := mxNodeName +:+ "Shader" in
      trace (EvGenerate upstream shaderName) ;;;
      let* oslSource :=
        _GenMaterialXShaderCode searchPath shaderName mxNodeName
                                mxNodeGraphName in
      if bool_decide (oslSource = "") then ret sets'
      else
        (* Compile the oslSource *)
        trace (EvCompile upstream shaderName) ;;;
        let* compiledShaderPath :=
          _CompileOslSource shaderName oslSource searchPath in
        if bool_decide (compiledShaderPath = "") then ret sets'
        else
          (* Create a new SdrShaderNode with the compiled oslSource *)
          let* sdrNode :=
            GetShaderNodeFromAsset compiledShaderPath tokens.mtlx tokens.OSL in
          match sdrNode with
          | None => fault "null sdrNode dereferenced"
          | Some sdrNode =>
              (* Update node type to that of the Sdr node. *)
              modify_net (fun net =>
                SetNodeType net upstream (sdr_identifier sdrNode)) ;;;
              (if SdrRegistry.GetOutput sdrNode outputName then
                 let updatedInputName := _GetUpdatedInputToken cName in
                 let deletePreviousConnection :=
                   negb (bool_decide (updatedInputName = "")) in
                 let inputName :=
                   if deletePreviousConnection then updatedInputName
                   else cName in
                 modify_net (fun net =>
                   SetNodeInputConnection net terminalNodeName inputName
                     [mkConnection upstream outputName]) ;;;
                 if deletePreviousConnection then
                   modify_net (fun net =>
                     DeleteNodeInputConnection net terminalNodeName cName)
                 else ret tt
               else ret tt) ;;;
              _DeleteAllInputConnections upstream ;;;
              _DeleteAllParameters upstream ;;;
              ret sets'
          end.

Definition _UpdateNetwork (terminalNodeName : string)
    (searchPath : list string) : M unit :=
  let* net := get_net in
  let terminalConnectionNames :=
    GetNodeInputConnectionNames net terminalNodeName in
  let* sets :=
    for_each_with terminalConnectionNames
      (fun sets cName =>
         let* net := get_net in
         let inputConnections :=
           GetNodeInputConnection net terminalNodeName cName in
         for_each_with inputConnections
           (updateConnection terminalNodeName searchPath cName) sets)
      (mkSets ∅ ∅ ∅) in
  (* Remove the nodes not directly connected to the terminal *)
  for_each (sorted_elements (nodesToRemove sets))
    (fun nodeName =>
       if bool_decide (nodeName ∉ nodesToKeep sets) then
         modify_net (fun net => DeleteNode net nodeName)
       else ret tt).

Definition _TransformTerminalNode (terminalNodeName : string) : M unit :=
  let* net := get_net in
  let* adapterType := _GetAdapterNodeType (GetNodeType net terminalNodeName) in
  let* reg := get_registry in
  let sdrAdapter :=
    SdrRegistry.GetShaderNodeByIdentifier reg adapterType [tokens.OSL] in
  let sdrPxrSurface :=
    SdrRegistry.GetShaderNodeByIdentifier reg tokens.PxrSurface
                                          [tokens.RmanCpp] in
  match sdrAdapter with
  | None => TF_WARN ("No sdrAdater node of type '" +:+ adapterType +:+ "'")
  | Some sdrAdapter =>
      modify_net (fun net => SetNodeType net terminalNodeName adapterType) ;;;
      (if negb (bool_decide (adapterType = tokens.USD_Adapter)) then
         let* net := get_net in
         let pNames := GetAuthoredNodeParameterNames net terminalNodeName in
         for_each pNames
           (fun pName =>
              let updatedName := _GetUpdatedInputToken pName in
              if negb (bool_decide (updatedName = "")) then
                let* net := get_net in
                let val := GetNodeParameterValue net terminalNodeName pName in
                modify_net (fun net =>
                  SetNodeParameterValue net terminalNodeName updatedName val) ;;;
                modify_net (fun net =>
                  DeleteNodeParameter net terminalNodeName pName)
              else ret tt)
       else ret tt) ;;;
      (* Create a PxrSurface material node *)
      let pxrSurfaceNodeName := terminalNodeName +:+ "_PxrSurface" in
      modify_net (fun net =>
        SetNodeType net pxrSurfaceNodeName tokens.PxrSurface) ;;;
      (* Connect the PxrSurface inputs to the Adapter's outputs *)
      match sdrPxrSurface with
      | None => fault "null sdrPxrSurface dereferenced"
      | Some sdrPxrSurface =>
          for_each (sdr_inputNames sdrPxrSurface)
            (fun inParamName =>
               if SdrRegistry.GetShaderInput sdrPxrSurface inParamName then
                 let adapterOutParam := inParamName +:+ "Out" in
                 if SdrRegistry.GetOutput sdrAdapter adapterOutParam then
                   modify_net (fun net =>
                     SetNodeInputConnection net pxrSurfaceNodeName inParamName
                       [mkConnection terminalNodeName adapterOutParam])
                 else ret tt
               else ret tt) ;;;
          modify_net (fun net =>
            SetTerminalConnection net tokens.surface
              (mkConnection pxrSurfaceNodeName ""))
      end
  end.

Definition _GetHdWrapString (hdTextureNodeName mxInputValue : string)
  : M string :=
  if bool_decide (mxInputValue = "constant") then
    TF_WARN ("RtxHioImagePlugin: Texture '" +:+ hdTextureNodeName +:+
             "' has unsupported wrap mode 'constant' using 'black' instead.") ;;;
    ret tokens.black
  else if bool_decide (mxInputValue = "clamp") then
    ret tokens.clamp
  else if bool_decide (mxInputValue = "mirror") then
    TF_WARN ("RtxHioImagePlugin: Texture '" +:+ hdTextureNodeName +:+
             "' has unsupported wrap mode 'mirror' using 'repeat' instead.") ;;;
    ret tokens.repeat
  else ret tokens.repeat.

(** [VtValue::UncheckedGet<std::string>()]: defined only on a held string. *)
Definition UncheckedGet_string (v : VtValue) : M string :=
  match v with
  | VtString s => ret s
  | _ => fault "UncheckedGet<std::string> on another held type"
  end.

Definition _GetWrapModes (hdTextureNodeName : string) : M (string * string) :=
  let* net := get_net in
  (* For <tiledimage> nodes want to always use "repeat" *)
  let uWrap := tokens.repeat in
  let vWrap := tokens.repeat in
  (* For <image> nodes: *)
  let vUAddrMode :=
    GetNodeParameterValue net hdTextureNodeName tokens.uaddressmode in
  let* uWrap :=
    if negb (VtValue_IsEmpty vUAddrMode) then
      let* s := UncheckedGet_string vUAddrMode in
      _GetHdWrapString hdTextureNodeName s
    else ret uWrap in
  let vVAddrMode :=
    GetNodeParameterValue net hdTextureNodeName tokens.vaddressmode in
  let* vWrap :=
    if negb (VtValue_IsEmpty vVAddrMode) then
      let* s := UncheckedGet_string vVAddrMode in
      _GetHdWrapString hdTextureNodeName s
    else ret vWrap in
  ret (uWrap, vWrap).

(** Body of the loop of [_UpdateTextureNodes]: one texture node path. *)
Definition updateTextureNode (texturePath : string) : M unit :=
  let textureNodeName := texturePath in
  let* net := get_net in
  let nodeType := GetNodeType net textureNodeName in
  if bool_decide (nodeType = "") then
    TF_WARN ("Connot find texture node '" +:+ textureNodeName +:+
             "' in material network.")
  else
    let vFile := GetNodeParameterValue net textureNodeName tokens.file in
    if VtValue_IsEmpty vFile then
      TF_WARN ("File path missing for texture node '" +:+ textureNodeName +:+
               "'.")
    else
      match vFile with
      | VtAssetPath _ path =>
          let ext := ArGetExtension env path in
          let* mxDoc := get_doc in
          let found :=
            _FindGraphAndNodeByName mxDoc (SdfPath_GetParentName texturePath)
                                    (SdfPath_GetName texturePath) in
          match mxNode found with
          | None => ret tt
          | Some mxTextureNode =>
              match mxNodeGraph found with
              | None => fault "null mxNodeGraph dereferenced"
              | Some mxNodeGraph =>
                  (* Update texture nodes that use non-native texture formats
                     to read them via a Renderman texture plugin. *)
                  let* needInvertT :=
                    if negb (bool_decide (ext = "")) &&
                       negb (bool_decide (ext = "tex")) then
                      let pluginName :=
                        "RtxHioImage" +:+ ARCH_LIBRARY_SUFFIX env in
                      let* wraps := _GetWrapModes textureNodeName in
                      let mxInputValue :=
                        "rtxplugin:" +:+ pluginName +:+ "?filename=" +:+ path
                        +:+ "&wrapS=" +:+ fst wraps +:+ "&wrapT=" +:+ snd wraps in
                      update_node mxNodeGraph mxTextureNode
                        (fun n => mx.setInputValue n tokens.file
                                    (MxString mxInputValue) tokens.filename) ;;;
                      ret false
                    else
                      (* For tex files, update value with resolved path *)
                      update_node mxNodeGraph mxTextureNode
                        (fun n => mx.setInputValue n tokens.file
                                    (MxString path) tokens.filename) ;;;
                      ret true in
                  (* If texcoord param isn't connected, make a default
                     connection to a mtlx geompropvalue node. *)
                  let* textureNode := read_node mxNodeGraph mxTextureNode in
                  (match mx.getInput textureNode tokens.texcoord with
                   | Some _ => ret tt
                   | None =>
                       update_node mxNodeGraph mxTextureNode
                         (fun n => mx.addInput n tokens.texcoord tokens.vector2) ;;;
                       let texcoordInput := length (nd_inputs textureNode) in
                       let stNodeName := textureNodeName +:+ "__texcoord" in
                       let* reg := get_registry in
                       match SdrRegistry.GetShaderNodeByIdentifierAndType
                               reg nodeType tokens.mtlx with
                       | None => fault "null sdrTextureNode dereferenced"
                       | Some sdrTextureNode =>
                           let primvarName := sdr_primvars sdrTextureNode in
                           let* geompropNode :=
                             add_node mxNodeGraph tokens.geompropvalue
                                      stNodeName tokens.vector2 in
                           update_node mxNodeGraph geompropNode
                             (fun n => mx.setInputValue n tokens.geomprop
                                         (MxString primvarName)
                                         tokens.string_type) ;;;
                           update_node mxNodeGraph mxTextureNode
                             (fun n => mx.setConnectedNode n texcoordInput
                                         (Some stNodeName)) ;;;
                           update_node mxNodeGraph geompropNode
                             (fun n => mx.setNodeDefString n
                                         tokens.ND_geompropvalue_vector2)
                       end
                   end) ;;;
                  if needInvertT then
                    let* textureNode := read_node mxNodeGraph mxTextureNode in
                    match mx.getInput textureNode tokens.texcoord with
                    | None => ret tt
                    | Some texcoordInput =>
                        let remapNodeName := textureNodeName +:+ "__remap" in
                        let* remapNode :=
                          add_node mxNodeGraph tokens.remap remapNodeName
                                   tokens.vector2 in
                        update_node mxNodeGraph remapNode
                          (fun n => mx.setNodeDefString n tokens.ND_remap_vector2) ;;;
                        update_node mxNodeGraph remapNode
                          (fun n => mx.addInput n tokens.in_ tokens.vector2) ;;;
                        let inInput := 0 in
                        let inhigh := MxFloatVec [1; 0]%Z in
                        let inlow := MxFloatVec [0; 1]%Z in
                        update_node mxNodeGraph remapNode
                          (fun n => mx.setInputValue n tokens.inhigh inhigh
                                      tokens.float2) ;;;
                        update_node mxNodeGraph remapNode
                          (fun n => mx.setInputValue n tokens.inlow inlow
                                      tokens.float2) ;;;
                        let* graph := read_graph mxNodeGraph in
                        let primvarNode :=
                          mx.getConnectedNode graph textureNode texcoordInput in
                        update_node mxNodeGraph remapNode
                          (fun n => mx.setConnectedNode n inInput primvarNode) ;;;
                        update_node mxNodeGraph mxTextureNode
                          (fun n => mx.setConnectedNode n texcoordInput
                                      (Some remapNodeName))
                    end
                  else ret tt
              end
          end
      | _ => ret tt
      end.

Definition _UpdateTextureNodes (hdTextureNodePaths : list string) : M unit :=
  for_each hdTextureNodePaths updateTextureNode.

(** The network handle handed to the entry point: null, or the interface
    onto the network of the state. *)
Inductive NetInterfacePtr : Type := nullInterface | netInterface.

Definition MatfiltMaterialX (interface : NetInterfacePtr) : M unit :=
  match interface with
  | nullInterface => ret tt
  | netInterface =>
      let* net := get_net in
      (* Check presence of surface terminal *)
      let res := GetTerminalConnection net tokens.surface in
      if negb (fst res) then ret tt   (* "surface" terminal absent *)
      else
        let terminalNodeName := upstreamNodeName (snd res) in
        let terminalNodeType := GetNodeType net terminalNodeName in
        (* Check if the node connected to the terminal is a MaterialX node *)
        let* reg := get_registry in
        match SdrRegistry.GetShaderNodeByIdentifierAndType
                reg terminalNodeType tokens.mtlx with
        | None => ret tt
        | Some _ =>
            let cNames := GetNodeInputConnectionNames net terminalNodeName in
            (* If we have a nodegraph (i.e., input into the terminal node) *)
            (match cNames with
             | [] => ret tt
             | _ =>
                 let searchPath := HdMtlxSearchPaths env in
                 let built :=
                   HdMtlxCreateMtlxDocument env net terminalNodeName cNames in
                 set_doc (fst built) ;;;
                 _UpdateTextureNodes (snd built) ;;;
                 let materialPath := GetMaterialPrimPath net in
                 let* mxDoc := get_doc in
                 set_doc
                   (mx.removeNode
                      (mx.removeNode mxDoc ("SR_" +:+ SdfPath_GetName materialPath))
                      (SdfPath_GetName materialPath)) ;;;
                 _UpdateNetwork terminalNodeName searchPath
             end) ;;;
            (* Convert the terminal node to an AdapterNode + PxrSurfaceNode *)
            _TransformTerminalNode terminalNodeName
        end
  end.

End Filter.

(* ===================================================================== *)
(** ** Vocabulary of the properties *)
(* ===================================================================== *)

(** The loop bodies of [_TransformTerminalNode] as functions on the
    network: the renaming of one authored parameter, its effect on the
    parameter map of the terminal node, and the wiring of one PxrSurface
    input. *)
Definition rename_step (T : string) (net : HdMaterialNetwork2) (p : string)
  : HdMaterialNetwork2 :=
  if negb (bool_decide (_GetUpdatedInputToken p = "")) then
    DeleteNodeParameter
      (SetNodeParameterValue net T (_GetUpdatedInputToken p)
         (GetNodeParameterValue net T p)) T p
  else net.

Definition connect_step (pxr T : string) (sdrPxrSurface sdrAdapter : SdrShaderNode)
    (net : HdMaterialNetwork2) (inParamName : string) : HdMaterialNetwork2 :=
  if SdrRegistry.GetShaderInput sdrPxrSurface inParamName then
    if SdrRegistry.GetOutput sdrAdapter (inParamName +:+ "Out") then
      SetNodeInputConnection net pxr inParamName
        [mkConnection T (inParamName +:+ "Out")]
    else net
  else net.

Definition rename_params (ps : gmap string VtValue) (p : string)
  : gmap string VtValue :=
  if negb (bool_decide (_GetUpdatedInputToken p = ""))
  then delete p (<[_GetUpdatedInputToken p := default VtEmpty (ps !! p)]> ps)
  else ps.

(** The nodes the texture adaptor adds to a node graph: the remap node
    that flips the vertical coordinate, reading [source], and the default
    texture-coordinate source. *)
Definition remap_node (textureNodeName : string) (source : option string)
  : MxNode :=
  mkMxNode (textureNodeName +:+ "__remap") "remap" "vector2"
    (Some "ND_remap_vector2")
    [ mkInput "in" "vector2" None source;
      mkInput "inhigh" "float2" (Some (MxFloatVec [1; 0]%Z)) None;
      mkInput "inlow" "float2" (Some (MxFloatVec [0; 1]%Z)) None ].


(** The upstream nodes for which the rewrite called the generator and the
    compiler, in call order. *)
Definition generated (evs : list Event) : list string :=
  omap (fun e => match e with EvGenerate n _ => Some n | _ => None end) evs.

Definition compiled (evs : list Event) : list string :=
  omap (fun e => match e with EvCompile n _ => Some n | _ => None end) evs.

(** [w'] is reached from [w] without calling the generator or the
    compiler wrapper: the trace grew by events that are neither. *)
Definition quiet (w w' : World) : Prop :=
  exists evs, w_trace w' = (w_trace w ++ evs)%list /\
              generated evs = [] /\ compiled evs = [].

(** [m] moves every state along [R] and, when it completes, returns a
    value satisfying [Q]. *)
Definition hoare {A} (R : World -> World -> Prop) (Q : A -> Prop) (m : M A)
  : Prop :=
  forall w, R w (snd (m w)) /\ forall a, fst (m w) = Done a -> Q a.






(** The trace of [w'] extends that of [w]. *)
Definition extends (w w' : World) : Prop :=
  exists evs, w_trace w' = (w_trace w ++ evs)%list.

(** The node [nd] has an input [name] holding the value [v] of type
    [type]. *)
Definition has_input_value (nd : MxNode) (name : string) (v : MxValue)
    (type : string) : Prop :=
  exists i inp, mx.getInput nd name = Some i /\
                nd_inputs nd !! i = Some inp /\
                in_value inp = Some v /\ in_type inp = type.

(** Only the list of diagnostics changes. *)
Definition only_warns (w w' : World) : Prop :=
  exists msgs, w' = with_warnings w msgs.



(* ===================================================================== *)
(** ** Concrete surroundings and networks *)
(* ===================================================================== *)

(** Decimal rendering of a call counter. *)
Definition digit_string (n : nat) : string :=
  match n with
  | 0 => "0" | 1 => "1" | 2 => "2" | 3 => "3" | 4 => "4"
  | 5 => "5" | 6 => "6" | 7 => "7" | 8 => "8" | _ => "9"
  end.

Fixpoint decimal_aux (fuel n : nat) (acc : string) : string :=
  match fuel with
  | O => acc
  | S fuel' =>
      let acc' := digit_string (n mod 10) +:+ acc in
      if Nat.ltb n 10 then acc' else decimal_aux fuel' (n / 10) acc'
  end.

Definition decimal (n : nat) : string := decimal_aux (S n) n "".

(** Modelled from the spec: [ArchMakeTmpFileName], which is declared in
    pxr/base/arch/fileSystem.h and not part of the translated sources.
    "Persist the compiled binary to a uniquely named temporary file tagged
    with name"; "compiled-artifact files are written to a process-temporary
    location with unique names per invocation".  The name carries the
    number of the call. *)
Definition ArchMakeTmpFileName_unique (n : nat) (prefix suffix : string)
  : string :=
  "/tmp/" +:+ prefix +:+ "." +:+ decimal n +:+ suffix.

(** Modelled from the spec: the registry entry made from a compiled
    artifact ("registration of a new entry from a compiled-artifact path
    plus metadata (sub-identifier, source-language tag)").  Its identifier
    is derived from the artifact path.  The shaders declare one output,
    [out]. *)
Definition parseAsset_by_path (assetPath content subIdentifier sourceType : string)
  : option SdrShaderNode :=
  Some (mkSdr assetPath sourceType [] ["out"] "").

(** The extension of a resolved path: what follows its last dot. *)
Fixpoint extension_aux (s : string) (cur : option string) : string :=
  match s with
  | EmptyString => default "" cur
  | String c rest =>
      if Ascii.eqb c "."%char then extension_aux rest (Some "")
      else if Ascii.eqb c "/"%char then extension_aux rest None
      else extension_aux rest ((fun e => e +:+ String c "") <$> cur)
  end.

Definition extension_of (path : string) : string := extension_aux path None.

(** An OSL compiler that accepts every source except ["bad"]. *)
Definition compile_demo (oslSource : string) (oslArgs : list string)
  : bool * string :=
  if bool_decide (oslSource = "bad") then (false, "")
  else (true, "OpenShadingLanguage 1.00 " +:+ oslSource).

Definition demo_env (build : HdMaterialNetwork2 -> string -> list string ->
                             MxDocument * list string) : Env :=
  mkEnv ".so" true ["/mtlx"] (fun _ => true)
        (fun shaderName _ _ _ => Some ("shader " +:+ shaderName))
        compile_demo ArchMakeTmpFileName_unique (fun _ => true)
        parseAsset_by_path extension_of build.

Definition empty_doc : MxDocument := mkDoc [] [].

Definition world_of (net : HdMaterialNetwork2) (d : MxDocument)
    (reg : list SdrShaderNode) : World :=
  mkWorld net d reg [] [] 0 ∅.

(** Registry entries of the MaterialX node definitions and of the hdPrman
    adapter and closure nodes used by the examples. *)
Definition demo_registry : list SdrShaderNode :=
  [ mkSdr tokens.ND_standard_surface_surfaceshader tokens.mtlx
          ["base_color"; "specular_color"; "normal"] ["out"] "";
    mkSdr "ND_image_color3" tokens.mtlx ["file"; "texcoord"] ["out"] "st";
    mkSdr "ND_multiply_color3" tokens.mtlx ["in1"; "in2"] ["out"] "";
    mkSdr tokens.ND_UsdPreviewSurface_surfaceshader tokens.mtlx
          ["diffuseColor"; "normal"] ["out"] "";
    mkSdr tokens.SS_Adapter tokens.OSL []
          ["diffuseColorOut"; "specularFaceColorOut"] "";
    mkSdr tokens.USD_Adapter tokens.OSL [] ["diffuseColorOut"] "";
    mkSdr tokens.PxrSurface tokens.RmanCpp
          ["diffuseColor"; "specularFaceColor"; "bumpNormal"] ["out"] "" ].

Definition node_of (type : string) (params : list (string * VtValue))
    (conns : list (string * list HdMaterialConnection2)) : HdMaterialNode2 :=
  mkNode type (list_to_map params) (list_to_map conns).

(** A standard-surface terminal whose [base_color] reads the node
    [/Mat/NG/Mul] and whose [specular_color] reads the texture
    [/Mat/NG/Tex]; [/Mat/NG/Mul] itself reads [/Mat/NG/Tex]. *)
Definition shared_net : HdMaterialNetwork2 :=
  mkNetwork
    (list_to_map
       [ ("/Mat/Surf",
          node_of tokens.ND_standard_surface_surfaceshader []
            [ ("base_color", [mkConnection "/Mat/NG/Mul" "out"]);
              ("specular_color", [mkConnection "/Mat/NG/Tex" "out"]) ]);
         ("/Mat/NG/Mul",
          node_of "ND_multiply_color3" []
            [ ("in1", [mkConnection "/Mat/NG/Tex" "out"]) ]);
         ("/Mat/NG/Tex",
          node_of "ND_image_color3" [] []) ])
    {[ tokens.surface := mkConnection "/Mat/Surf" "" ]}
    "/Mat".

Definition shared_doc : MxDocument :=
  mkDoc [ mkMxNode "SR_Mat" "standard_surface" "surfaceshader" None [];
          mkMxNode "Mat" "surfacematerial" "material" None [] ]
        [ mkGraph "NG"
            [ mkMxNode "Mul" "multiply" "color3" None
                [mkInput "in1" "color3" None (Some "Tex")];
              mkMxNode "Tex" "image" "color3" None [] ] ].

(** A network whose surface terminal is a plain UsdPreviewSurface node,
    which has no MaterialX entry in the registry. *)
Definition plain_net : HdMaterialNetwork2 :=
  mkNetwork
    (list_to_map [("/Mat/Preview", node_of "UsdPreviewSurface" [] [])])
    {[ tokens.surface := mkConnection "/Mat/Preview" "" ]} "/Mat".

(** The nodes of [shared_net] with no terminal connection at all. *)
Definition unterminated_net : HdMaterialNetwork2 :=
  mkNetwork (nodes shared_net) ∅ "/Mat".

Definition demo_env0 : Env := demo_env (fun _ _ _ => (empty_doc, [])).

(** A generator that yields the source text ["bad"], which [compile_demo]
    rejects. *)
Definition bad_source_env : Env :=
  mkEnv ".so" true ["/mtlx"] (fun _ => true)
        (fun _ _ _ _ => Some "bad")
        compile_demo ArchMakeTmpFileName_unique (fun _ => true)
        parseAsset_by_path extension_of (fun _ _ _ => (shared_doc, [])).

(** A standard-surface terminal reading one upstream node, [/Mat/NG/Custom],
    whose type has no registry entry. *)
Definition custom_net : HdMaterialNetwork2 :=
  mkNetwork
    (list_to_map
       [ ("/Mat/Surf",
          node_of tokens.ND_standard_surface_surfaceshader []
            [ ("base_color", [mkConnection "/Mat/NG/Custom" "out"]) ]);
         ("/Mat/NG/Custom", node_of "ND_custom_color3" [] []) ])
    {[ tokens.surface := mkConnection "/Mat/Surf" "" ]}
    "/Mat".

Definition custom_doc : MxDocument :=
  mkDoc [] [ mkGraph "NG" [ mkMxNode "Custom" "custom" "color3" None [] ] ].

(** A terminal whose only input names a node that is not in the network. *)
Definition dangling_net : HdMaterialNetwork2 :=
  mkNetwork
    (list_to_map
       [ ("/Mat/Surf",
          node_of tokens.ND_standard_surface_surfaceshader []
            [ ("base_color", [mkConnection "/Mat/NG/Gone" "out"]) ]) ])
    {[ tokens.surface := mkConnection "/Mat/Surf" "" ]}
    "/Mat".

(** Standard-surface and preview-surface terminals with authored
    parameters and no inputs. *)
Definition params_net : HdMaterialNetwork2 :=
  mkNetwork
    (list_to_map
       [ ("/Mat/Surf",
          node_of tokens.ND_standard_surface_surfaceshader
            [ ("base", VtOther "float" "0.8");
              ("normal", VtOther "GfVec3f" "(0, 0, 1)") ] []) ])
    {[ tokens.surface := mkConnection "/Mat/Surf" "" ]}
    "/Mat".

Definition preview_net : HdMaterialNetwork2 :=
  mkNetwork
    (list_to_map
       [ ("/Mat/Surf",
          node_of tokens.ND_UsdPreviewSurface_surfaceshader
            [ ("normal", VtOther "GfVec3f" "(0, 0, 1)") ] []) ])
    {[ tokens.surface := mkConnection "/Mat/Surf" "" ]}
    "/Mat".

(** A terminal whose two inputs read the same output of the same upstream
    node. *)
Definition twice_net : HdMaterialNetwork2 :=
  mkNetwork
    (list_to_map
       [ ("/Mat/Surf",
          node_of tokens.ND_standard_surface_surfaceshader []
            [ ("base_color", [mkConnection "/Mat/NG/Tex" "out"]);
              ("specular_color", [mkConnection "/Mat/NG/Tex" "out"]) ]);
         ("/Mat/NG/Tex", node_of "ND_image_color3" [] []) ])
    {[ tokens.surface := mkConnection "/Mat/Surf" "" ]}
    "/Mat".

Definition twice_doc : MxDocument :=
  mkDoc [] [ mkGraph "NG" [ mkMxNode "Tex" "image" "color3" None [] ] ].

(** A MaterialX generator that creates no shader. *)
Definition nogen_env : Env :=
  mkEnv ".so" true ["/mtlx"] (fun _ => true)
        (fun _ _ _ _ => None)
        compile_demo ArchMakeTmpFileName_unique (fun _ => true)
        parseAsset_by_path extension_of (fun _ _ _ => (twice_doc, [])).

(** A network with one texture node reading the asset [resolved]. *)
Definition texture_net (resolved : string) : HdMaterialNetwork2 :=
  mkNetwork
    (list_to_map
       [ ("/Mat/Surf",
          node_of tokens.ND_standard_surface_surfaceshader []
            [ ("base_color", [mkConnection "/Mat/NG/Tex" "out"]) ]);
         ("/Mat/NG/Tex",
          node_of "ND_image_color3"
            [ ("file", VtAssetPath "wood" resolved) ] []) ])
    {[ tokens.surface := mkConnection "/Mat/Surf" "" ]}
    "/Mat".

(** Its document, the texture reading its coordinates from the node
    [coords], and the same with no texcoord input on the texture. *)
Definition texture_doc : MxDocument :=
  mkDoc []
    [ mkGraph "NG"
        [ mkMxNode "coords" "texcoord" "vector2" None [];
          mkMxNode "Tex" "image" "color3" None
            [ mkInput "file" "filename" (Some (MxString "wood")) None;
              mkInput "texcoord" "vector2" None (Some "coords") ] ] ].



(* ===================================================================== *)
(** ** Vocabulary of the further properties *)
(* ===================================================================== *)

(** The node graph named [graphName], when it exists, does not hold a
    node named [nodeName]. *)
Definition named_graph_lacks (mxDoc : MxDocument)
    (graphName nodeName : string) : Prop :=
  forall g gr, mx.getNodeGraph mxDoc graphName = Some g ->
    doc_graphs mxDoc !! g = Some gr -> mx.getNode gr nodeName = None.

(** Some node graph of the document holds a node named [nodeName]. *)
Definition document_holds (mxDoc : MxDocument) (nodeName : string) : Prop :=
  exists gr node, gr ∈ doc_graphs mxDoc /\ node ∈ ng_nodes gr /\
                  nd_name node = nodeName.

(** A document with two node graphs that both hold a node named [Tex]. *)
Definition two_graph_doc : MxDocument :=
  mkDoc []
    [ mkGraph "NG"
        [ mkMxNode "Tex" "image" "color3" None [] ];
      mkGraph "NG1"
        [ mkMxNode "Mul" "multiply" "color3" None [];
          mkMxNode "Tex" "tiledimage" "color3" None [] ] ].

(** The node [a] reads the node [b]: one of the input connections of [a]
    names [b] as its upstream node. *)
Definition reads (net : HdMaterialNetwork2) (a b : string) : Prop :=
  exists cName c, c ∈ GetNodeInputConnection net a cName /\
                  upstreamNodeName c = b.

(** The same for a node [b] of the network that is not marked in [V]. *)
Definition reads_fresh (net : HdMaterialNetwork2) (V : gset string)
    (a b : string) : Prop :=
  reads net a b /\ _HasNode net b = true /\ b ∉ V.

(** The diagnostic issued for a connection to a node the network lacks. *)
Definition unknown_node_message (b : string) : string :=
  "Unknown material node '" +:+ b +:+ "'".

(** What the traversal from [h], started with the marks [V0], has added
    when it went from [acc] to [r]: the set [N] of newly marked nodes, each
    reached from [h] through unmarked nodes of the network; every node that
    a node of [N] reads is marked or missing from the network, and the
    diagnostics added are those for the missing ones.  With [self] the
    node [h] itself counts among the nodes whose connections were all
    dealt with. *)
Definition gather_rel (net : HdMaterialNetwork2) (h : string)
    (V0 : gset string) (self : bool) (acc r : Gathered) : Prop :=
  exists N : gset string,
    visitedNodeNames r = visitedNodeNames acc ∪ N /\
    upstreamNodeNames r = upstreamNodeNames acc ∪ N /\
    N ## visitedNodeNames acc /\
    (forall n, n ∈ N -> tc (reads_fresh net V0) h n) /\
    (forall m b, m ∈ N \/ (self = true /\ m = h) -> reads net m b ->
                 _HasNode net b = true -> b ∈ visitedNodeNames r) /\
    exists ws,
      gatherWarnings r = (gatherWarnings acc ++ ws)%list /\
      (forall msg, msg ∈ ws ->
         exists a b, (a = h \/ a ∈ N) /\ reads net a b /\
                     _HasNode net b = false /\ msg = unknown_node_message b) /\
      (forall m b, m ∈ N \/ (self = true /\ m = h) -> reads net m b ->
                   _HasNode net b = false -> unknown_node_message b ∈ ws).

(** The connection [c] has been dealt with in [r], a state of the
    traversal that started from [acc0]. *)
Definition connection_done (net : HdMaterialNetwork2) (acc0 : Gathered)
    (c : HdMaterialConnection2) (r : Gathered) : Prop :=
  (_HasNode net (upstreamNodeName c) = true ->
   upstreamNodeName c ∈ visitedNodeNames r) /\
  (_HasNode net (upstreamNodeName c) = false ->
   exists ws, gatherWarnings r = (gatherWarnings acc0 ++ ws)%list /\
              unknown_node_message (upstreamNodeName c) ∈ ws).

(** The state [s] of the traversal started from [acc0] with marks [V0]. *)
Definition gather_state (V0 : gset string) (acc0 s : Gathered) : Prop :=
  V0 ⊆ visitedNodeNames s /\
  exists ws, gatherWarnings s = (gatherWarnings acc0 ++ ws)%list.

(** A network with a cycle: [/Mat/NG/A] and [/Mat/NG/B] read each other,
    and [/Mat/NG/B] also reads a node that the network lacks. *)
Definition cyclic_net : HdMaterialNetwork2 :=
  mkNetwork
    (list_to_map
       [ ("/Mat/Surf",
          node_of tokens.ND_standard_surface_surfaceshader []
            [ ("base_color", [mkConnection "/Mat/NG/A" "out"]) ]);
         ("/Mat/NG/A",
          node_of "ND_multiply_color3" []
            [ ("in1", [mkConnection "/Mat/NG/B" "out"]) ]);
         ("/Mat/NG/B",
          node_of "ND_multiply_color3" []
            [ ("in1", [mkConnection "/Mat/NG/A" "out"]);
              ("in2", [mkConnection "/Mat/NG/Gone" "out"]) ]) ])
    {[ tokens.surface := mkConnection "/Mat/Surf" "" ]}
    "/Mat".

(** The include arguments [_CompileOslSource] hands to the OSL compiler:
    for every search path its [stdlib/osl] folder when that exists, the
    path itself otherwise. *)
Definition oslArgs_of (env : Env) (searchPaths : list string) : list string :=
  map (fun path =>
         if FilePath_exists env (FilePath_join path "stdlib/osl")
         then "-I" +:+ FilePath_join path "stdlib/osl"
         else "-I" +:+ path) searchPaths.

(** The input connections of the terminal after one upstream node was
    rewritten: the generated node's output is read through the input
    [cName], or through its replacement when [cName] is a reserved word,
    provided the generated shader declares the output. *)
Definition rewired (cName : string) (conn : HdMaterialConnection2)
    (sdrNode : SdrShaderNode)
    (conns : gmap string (list HdMaterialConnection2))
  : gmap string (list HdMaterialConnection2) :=
  if SdrRegistry.GetOutput sdrNode (upstreamOutputName conn) then
    if bool_decide (_GetUpdatedInputToken cName = "") then
      <[cName := [conn]]> conns
    else
      delete cName (<[_GetUpdatedInputToken cName := [conn]]> conns)
  else conns.

(** A terminal whose reserved input [normal] reads a texture node. *)
Definition normal_net : HdMaterialNetwork2 :=
  mkNetwork
    (list_to_map
       [ ("/Mat/Surf",
          node_of tokens.ND_standard_surface_surfaceshader []
            [ ("normal", [mkConnection "/Mat/NG/Tex" "out"]) ]);
         ("/Mat/NG/Tex",
          node_of "ND_image_color3"
            [ ("file", VtAssetPath "wood" "/assets/wood.tex") ] []) ])
    {[ tokens.surface := mkConnection "/Mat/Surf" "" ]}
    "/Mat".

(** Footprints.  [l'] continues the list [l]. *)
Definition continues {A} (l l' : list A) : Prop := exists more, l' = (l ++ more)%list.

(** What a run of the whole filter may change: the registry, the
    diagnostics and the trace are only added to, temporary names are only
    drawn, the material path stays and so does every terminal other than
    the surface terminal. *)
Definition filter_footprint (w w' : World) : Prop :=
  continues (w_registry w) (w_registry w') /\
  continues (w_warnings w) (w_warnings w') /\
  continues (w_trace w) (w_trace w') /\
  w_tmpCalls w <= w_tmpCalls w' /\
  materialPrimPath (w_net w') = materialPrimPath (w_net w) /\
  forall t, t <> tokens.surface ->
            terminals (w_net w') !! t = terminals (w_net w) !! t.

(** [_UpdateNetwork] moreover keeps the document and every terminal. *)
Definition rewrite_footprint (w w' : World) : Prop :=
  w_doc w' = w_doc w /\
  terminals (w_net w') = terminals (w_net w) /\
  materialPrimPath (w_net w') = materialPrimPath (w_net w) /\
  continues (w_registry w) (w_registry w') /\
  continues (w_warnings w) (w_warnings w') /\
  continues (w_trace w) (w_trace w') /\
  w_tmpCalls w <= w_tmpCalls w'.

(** [_UpdateTextureNodes] changes the document and the diagnostics. *)
Definition texture_footprint (w w' : World) : Prop :=
  w_net w' = w_net w /\ w_registry w' = w_registry w /\
  w_trace w' = w_trace w /\ w_tmpCalls w' = w_tmpCalls w /\
  w_files w' = w_files w /\
  continues (w_warnings w) (w_warnings w').

(** [_TransformTerminalNode] changes the network and the diagnostics. *)
Definition transform_footprint (w w' : World) : Prop :=
  w_doc w' = w_doc w /\ w_registry w' = w_registry w /\
  w_trace w' = w_trace w /\ w_tmpCalls w' = w_tmpCalls w /\
  w_files w' = w_files w /\
  continues (w_warnings w) (w_warnings w') /\
  materialPrimPath (w_net w') = materialPrimPath (w_net w) /\
  forall t, t <> tokens.surface ->
            terminals (w_net w') !! t = terminals (w_net w) !! t.

(** One connection of the terminal [T] to the node [u] is processed:
    no node is removed, and no node is added except by the writes to [T]
    and [u]. *)
Definition keeps_nodes (T u : string) (w w' : World) : Prop :=
  dom (nodes (w_net w)) ⊆ dom (nodes (w_net w')) /\
  dom (nodes (w_net w')) ⊆ dom (nodes (w_net w)) ∪ {[T; u]}.

(** No node comes to read a node it did not read before, except that [T]
    may read [u]. *)
Definition keeps_reads (T u : string) (w w' : World) : Prop :=
  forall a b, reads (w_net w') a b ->
              reads (w_net w) a b \/ (a = T /\ b = u).

(** The node [k] is strictly upstream of [T]: a node that [T] reads
    reads it, directly or through other nodes. *)
Definition strictly_upstream (net : HdMaterialNetwork2) (T k : string) : Prop :=
  exists u, reads net T u /\ tc (reads net) u k.

(** Invariant of the loops of [_UpdateNetwork] run on the network [net0]
    with terminal [T]. *)
Definition prune_inv (net0 : HdMaterialNetwork2) (T : string)
    (s : RewriteSets) (w : World) : Prop :=
  (forall a b, reads (w_net w) a b -> reads net0 a b) /\
  dom (nodes (w_net w)) = dom (nodes net0) /\
  forall k, k ∈ nodesToRemove s -> strictly_upstream net0 T k.

(** The texture network of the examples, its texture being a native
    [.tex] file. *)
Definition texture_net_tex : HdMaterialNetwork2 :=
  texture_net "/assets/wood.tex".

(** The document [d'] extends [d]: the top-level nodes and the number and
    names of the node graphs are the same, and in every graph every node
    of [d] is still there, at the same place, with its name, category and
    type and with the inputs it had, in the same order; nodes and inputs
    may have been added behind them. *)
Definition node_extends (n n' : MxNode) : Prop :=
  nd_name n' = nd_name n /\ nd_category n' = nd_category n /\
  nd_type n' = nd_type n /\
  (in_name <$> nd_inputs n) `prefix_of` (in_name <$> nd_inputs n').

Definition graph_extends (gr gr' : MxNodeGraph) : Prop :=
  ng_name gr' = ng_name gr /\
  forall i n, ng_nodes gr !! i = Some n ->
    exists n', ng_nodes gr' !! i = Some n' /\ node_extends n n'.

Definition doc_extends (d d' : MxDocument) : Prop :=
  doc_nodes d' = doc_nodes d /\
  length (doc_graphs d') = length (doc_graphs d) /\
  forall g gr, doc_graphs d !! g = Some gr ->
    exists gr', doc_graphs d' !! g = Some gr' /\ graph_extends gr gr'.

Definition extends_doc (w w' : World) : Prop :=
  doc_extends (w_doc w) (w_doc w').

(** The wrap modes the Renderman texture plugin is given. *)
Definition plugin_wrap_modes : list string := ["black"; "clamp"; "repeat"].

(** A texture node with both address modes authored. *)
Definition wrapped_texture_net : HdMaterialNetwork2 :=
  mkNetwork
    (list_to_map
       [ ("/Mat/Surf",
          node_of tokens.ND_standard_surface_surfaceshader []
            [ ("base_color", [mkConnection "/Mat/NG/Tex" "out"]) ]);
         ("/Mat/NG/Tex",
          node_of "ND_image_color3"
            [ ("file", VtAssetPath "wood" "/assets/wood.png");
              ("uaddressmode", VtString "constant");
              ("vaddressmode", VtString "mirror") ] []) ])
    {[ tokens.surface := mkConnection "/Mat/Surf" "" ]}
    "/Mat".

(** A network whose standard-surface terminal has authored parameters and
    no input connection, and a surrounding in which there is no OSL
    support. *)
Definition no_osl_env : Env :=
  mkEnv ".so" false ["/mtlx"] (fun _ => true)
        (fun shaderName _ _ _ => Some ("shader " +:+ shaderName))
        compile_demo ArchMakeTmpFileName_unique (fun _ => true)
        parseAsset_by_path extension_of (fun _ _ _ => (shared_doc, [])).

(** Without OSL support nothing is compiled: the registry, the files and
    the count of temporary names stay as they are, and no node gets
    another type (a deleted node has none). *)
Definition no_osl_footprint (w w' : World) : Prop :=
  w_registry w' = w_registry w /\ w_files w' = w_files w /\
  w_tmpCalls w' = w_tmpCalls w /\
  forall k, GetNodeType (w_net w') k = GetNodeType (w_net w) k \/
            GetNodeType (w_net w') k = "".

(** The registry of the examples without the two adapter entries. *)
Definition registry_without_adapters : list SdrShaderNode :=
  [ mkSdr tokens.ND_standard_surface_surfaceshader tokens.mtlx
          ["base_color"; "specular_color"; "normal"] ["out"] "";
    mkSdr tokens.PxrSurface tokens.RmanCpp
          ["diffuseColor"; "specularFaceColor"; "bumpNormal"] ["out"] "" ].

(** The same without the PxrSurface entry. *)
Definition registry_without_PxrSurface : list SdrShaderNode :=
  [ mkSdr tokens.ND_standard_surface_surfaceshader tokens.mtlx
          ["base_color"; "specular_color"; "normal"] ["out"] "";
    mkSdr tokens.SS_Adapter tokens.OSL []
          ["diffuseColorOut"; "specularFaceColorOut"] "" ].


(** [m] maintains the invariant [J] of the state and, when it completes,
    returns a value satisfying [Q]. *)
Definition maintains {A} (J : World -> Prop) (Q : A -> Prop) (m : M A) : Prop :=
  forall w a w', J w -> m w = (Done a, w') -> J w' /\ Q a.

(** The document stays as it is. *)
Definition same_doc (w w' : World) : Prop := w_doc w' = w_doc w.

(** The names of the nodes of a graph, in order. *)
Definition node_names (gr : MxNodeGraph) : list string :=
  nd_name <$> ng_nodes gr.

(** The graph [gr'] has the name of [gr] and its node names, in order,
    followed by names that satisfy [E]. *)
Definition graph_grows (E : string -> Prop) (gr gr' : MxNodeGraph) : Prop :=
  ng_name gr' = ng_name gr /\
  exists extra, node_names gr' = (node_names gr ++ extra)%list /\ Forall E extra.









(** The value the plugin branch gives to the file input, and the texture
    node after that branch: a texcoord input that was missing is added and
    reads the synthesized coordinate node. *)
Definition plugin_file_value (env : Env) (path : string)
    (wraps : string * string) : string :=
  "rtxplugin:" +:+ ("RtxHioImage" +:+ ARCH_LIBRARY_SUFFIX env) +:+
  "?filename=" +:+ path +:+ "&wrapS=" +:+ fst wraps +:+ "&wrapT=" +:+ snd wraps.

Definition plugin_texture_node (env : Env) (node : MxNode) (path tex : string)
    (wraps : string * string) : MxNode :=
  let node1 :=
    mx.setInputValue node tokens.file (MxString (plugin_file_value env path wraps))
                     tokens.filename in
  match mx.getInput node tokens.texcoord with
  | Some _ => node1
  | None =>
      mx.setConnectedNode (mx.addInput node1 tokens.texcoord tokens.vector2)
        (length (nd_inputs node1)) (Some (tex +:+ "__texcoord"))
  end.










(* ===================================================================== *)
(** ** Properties *)
(* ===================================================================== *)

(** *** Running computations *)

Lemma bind_Done {A B} (m : M A) (k : A -> M B) w a w' :
  m w = (Done a, w') -> bind m k w = k a w'.
Proof. intros H. unfold bind. by rewrite H. Qed.

Lemma bind_Fault {A B} (m : M A) (k : A -> M B) w s w' :
  m w = (Fault s, w') -> bind m k w = (Fault s, w').
Proof. intros H. unfold bind. by rewrite H. Qed.

(** *** Ordered enumeration *)

Lemma sorted_keys_perm {A} (m : gmap string A) :
  sorted_keys m ≡ₚ map fst (map_to_list m).
Proof. apply merge_sort_Permutation. Qed.

Lemma elem_of_sorted_keys {A} (m : gmap string A) k :
  k ∈ sorted_keys m <-> is_Some (m !! k).
Proof.
  rewrite sorted_keys_perm. rewrite list_elem_of_fmap. split.
  - intros [[k' v] [-> Hin]]. apply elem_of_map_to_list in Hin. eauto.
  - intros [v Hv]. exists (k, v). split; [done|]. by apply elem_of_map_to_list.
Qed.

Lemma NoDup_sorted_keys {A} (m : gmap string A) : NoDup (sorted_keys m).
Proof.
  rewrite sorted_keys_perm. apply NoDup_fst_map_to_list.
Qed.

Lemma sorted_keys_empty {A} : sorted_keys (∅ : gmap string A) = [].
Proof. unfold sorted_keys. rewrite map_to_list_empty. reflexivity. Qed.

Lemma sorted_keys_singleton {A} k (v : A) :
  sorted_keys ({[k := v]} : gmap string A) = [k].
Proof. unfold sorted_keys. rewrite map_to_list_singleton. reflexivity. Qed.

Lemma sorted_elements_empty : sorted_elements ∅ = [].
Proof. unfold sorted_elements. rewrite elements_empty. reflexivity. Qed.

Lemma elem_of_sorted_elements (s : gset string) x :
  x ∈ sorted_elements s <-> x ∈ s.
Proof.
  unfold sorted_elements. rewrite merge_sort_Permutation.
  apply elem_of_elements.
Qed.

(** *** The upstream traversal terminates *)

Lemma fold_opt_invariant {A S} (P : S -> Prop) (l : list A)
    (body : S -> A -> option S) (s : S) :
  (forall s x, P s -> exists s', body s x = Some s' /\ P s') ->
  P s -> exists s', fold_opt l body s = Some s' /\ P s'.
Proof.
  intros Hbody. revert s. induction l as [|x l IH]; intros s Hs; simpl.
  - eauto.
  - destruct (Hbody s x Hs) as (s' & -> & Hs'). eauto.
Qed.

Lemma HasNode_in_network net nodeName :
  _HasNode net nodeName = true -> nodeName ∈ dom (nodes net).
Proof.
  unfold _HasNode, GetNodeType. intros H. apply elem_of_dom.
  destruct (nodes net !! nodeName); [eauto|]. simpl in H. done.
Qed.

(** With more fuel than there are unmarked nodes the traversal returns,
    and it only ever adds to the visited set. *)
Lemma gatherNodeGraphNodes_total fuel net hdNodeName acc :
  size (dom (nodes net) ∖ visitedNodeNames acc) < fuel ->
  exists r, gatherNodeGraphNodes fuel net hdNodeName acc = Some r /\
            visitedNodeNames acc ⊆ visitedNodeNames r.
Proof.
  revert hdNodeName acc. induction fuel as [|fuel IH]; intros name acc Hlt.
  - lia.
  - simpl.
    apply (fold_opt_invariant
             (fun r => visitedNodeNames acc ⊆ visitedNodeNames r)); [|done].
    intros acc1 cName Hacc1.
    apply (fold_opt_invariant
             (fun r => visitedNodeNames acc ⊆ visitedNodeNames r)); [|done].
    clear acc1 Hacc1. intros acc1 conn Hacc1.
    destruct (_HasNode net (upstreamNodeName conn)) eqn:Hhas; simpl.
    + case_bool_decide as Hvis.
      * eauto.
      * destruct (IH (upstreamNodeName conn)
                    (mkGathered (upstreamNodeNames acc1)
                       ({[upstreamNodeName conn]} ∪ visitedNodeNames acc1)
                       (gatherWarnings acc1))) as (r & Hr & Hsub).
        { simpl. apply HasNode_in_network in Hhas.
          assert (dom (nodes net) ∖
                    ({[upstreamNodeName conn]} ∪ visitedNodeNames acc1)
                  ⊂ dom (nodes net) ∖ visitedNodeNames acc) as Hss.
          { split; [set_solver|]. intros Hsub.
            assert (upstreamNodeName conn
                    ∈ dom (nodes net) ∖ visitedNodeNames acc)
              as Hin by set_solver.
            apply Hsub in Hin. set_solver. }
          apply subset_size in Hss. lia. }
        rewrite Hr. eexists. split; [reflexivity|]. simpl. simpl in Hsub.
        set_solver.
    + eexists. split; [reflexivity|]. done.
Qed.

(** [_GatherNodeGraphNodes] never reaches its recursion bound. *)
Lemma GatherNodeGraphNodes_runs hdNodeName upstream visited w :
  exists r,
    gatherNodeGraphNodes (gather_fuel (w_net w)) (w_net w) hdNodeName
       (mkGathered upstream visited []) = Some r /\
    visited ⊆ visitedNodeNames r /\
    _GatherNodeGraphNodes hdNodeName upstream visited w =
      (Done (upstreamNodeNames r, visitedNodeNames r),
       with_warnings w (gatherWarnings r)).
Proof.
  destruct (gatherNodeGraphNodes_total (gather_fuel (w_net w)) (w_net w)
              hdNodeName (mkGathered upstream visited [])) as (r & Hr & Hsub).
  { unfold gather_fuel. simpl.
    assert (size (dom (nodes (w_net w)) ∖ visited)
            <= size (dom (nodes (w_net w)))) as Hle.
    { apply subseteq_size. set_solver. }
    rewrite size_dom in Hle. lia. }
  exists r. split; [done|]. split; [done|].
  unfold _GatherNodeGraphNodes, bind, get_net. cbv beta iota.
  rewrite Hr. reflexivity.
Qed.

(** *** Wrap modes *)

(** C4: the wrap-mode mapping.  [_GetHdWrapString] maps "constant" to
    "black" with one diagnostic, "clamp" to "clamp" with none, "mirror" to
    "repeat" with one diagnostic and every other value to "repeat" with
    none; [_GetWrapModes] yields "repeat" for an axis whose address-mode
    parameter is unset, the other axis being unset as well or mapped
    through [_GetHdWrapString]. *)
Theorem C4_wrap_mode_mapping (hdTextureNodeName : string) (w : World) :
  _GetHdWrapString hdTextureNodeName "constant" w =
    (Done "black",
     with_warnings w
       ["RtxHioImagePlugin: Texture '" +:+ hdTextureNodeName +:+
        "' has unsupported wrap mode 'constant' using 'black' instead."]) /\
  _GetHdWrapString hdTextureNodeName "clamp" w = (Done "clamp", w) /\
  _GetHdWrapString hdTextureNodeName "mirror" w =
    (Done "repeat",
     with_warnings w
       ["RtxHioImagePlugin: Texture '" +:+ hdTextureNodeName +:+
        "' has unsupported wrap mode 'mirror' using 'repeat' instead."]) /\
  (forall s, s <> "constant" -> s <> "clamp" -> s <> "mirror" ->
     _GetHdWrapString hdTextureNodeName s w = (Done "repeat", w)) /\
  (forall vAddr,
     GetNodeParameterValue (w_net w) hdTextureNodeName tokens.uaddressmode
       = VtEmpty ->
     GetNodeParameterValue (w_net w) hdTextureNodeName tokens.vaddressmode
       = vAddr ->
     match vAddr with
     | VtEmpty =>
         _GetWrapModes hdTextureNodeName w = (Done ("repeat", "repeat"), w)
     | VtString s =>
         _GetWrapModes hdTextureNodeName w =
         bind (_GetHdWrapString hdTextureNodeName s)
              (fun vWrap => ret ("repeat", vWrap)) w
     | _ => True
     end) /\
  (forall uAddr,
     GetNodeParameterValue (w_net w) hdTextureNodeName tokens.vaddressmode
       = VtEmpty ->
     GetNodeParameterValue (w_net w) hdTextureNodeName tokens.uaddressmode
       = uAddr ->
     match uAddr with
     | VtEmpty =>
         _GetWrapModes hdTextureNodeName w = (Done ("repeat", "repeat"), w)
     | VtString s =>
         _GetWrapModes hdTextureNodeName w =
         bind (_GetHdWrapString hdTextureNodeName s)
              (fun uWrap => ret (uWrap, "repeat")) w
     | _ => True
     end).
Proof.
  repeat split.
  - intros s H1 H2 H3. unfold _GetHdWrapString.
    rewrite !bool_decide_eq_false_2 by done. reflexivity.
  - intros vAddr Hu Hv. unfold _GetWrapModes, bind, get_net. simpl.
    rewrite Hu, Hv. destruct vAddr; simpl; done.
  - intros uAddr Hv Hu. unfold _GetWrapModes, bind, get_net. simpl.
    rewrite Hu, Hv. destruct uAddr; simpl; done.
Qed.

Lemma C4_wrap_mode_mapping_witness :
  _GetHdWrapString "/Mat/NG/Tex" "periodic"
     (world_of shared_net shared_doc demo_registry)
    = (Done "repeat", world_of shared_net shared_doc demo_registry) /\
  _GetWrapModes "/Mat/NG/Tex" (world_of shared_net shared_doc demo_registry)
    = (Done ("repeat", "repeat"), world_of shared_net shared_doc demo_registry).
Proof.
  destruct (C4_wrap_mode_mapping "/Mat/NG/Tex"
              (world_of shared_net shared_doc demo_registry))
    as (_ & _ & _ & Hother & Hu & _).
  split.
  - apply Hother; discriminate.
  - apply (Hu VtEmpty); reflexivity.
Defined.

(** *** Entry point *)

(** C3: for a null network handle, for a network without a "surface"
    terminal and for a network whose terminal node's type has no
    mtlx-sourced registry entry, [MatfiltMaterialX] returns with the whole
    state unchanged: same network, no diagnostic. *)
Theorem C3_no_terminal_is_noop (env : Env) (w : World) :
  MatfiltMaterialX env nullInterface w = (Done tt, w) /\
  (terminals (w_net w) !! tokens.surface = None ->
   MatfiltMaterialX env netInterface w = (Done tt, w)) /\
  (forall terminal,
     terminals (w_net w) !! tokens.surface = Some terminal ->
     SdrRegistry.GetShaderNodeByIdentifierAndType (w_registry w)
       (GetNodeType (w_net w) (upstreamNodeName terminal)) tokens.mtlx = None ->
     MatfiltMaterialX env netInterface w = (Done tt, w)).
Proof.
  split; [reflexivity|]. split.
  - intros H. unfold MatfiltMaterialX, bind, get_net, GetTerminalConnection.
    simpl. rewrite H. reflexivity.
  - intros terminal H Hreg.
    unfold MatfiltMaterialX, bind, get_net, get_registry, GetTerminalConnection.
    simpl. rewrite H. simpl. rewrite Hreg. reflexivity.
Qed.

Lemma C3_no_terminal_is_noop_witness :
  MatfiltMaterialX demo_env0 netInterface
                   (world_of unterminated_net empty_doc demo_registry)
    = (Done tt, world_of unterminated_net empty_doc demo_registry) /\
  MatfiltMaterialX demo_env0 netInterface
                   (world_of plain_net empty_doc demo_registry)
    = (Done tt, world_of plain_net empty_doc demo_registry).
Proof.
  split.
  - apply (C3_no_terminal_is_noop demo_env0
             (world_of unterminated_net empty_doc demo_registry)).
    reflexivity.
  - apply (proj2 (proj2 (C3_no_terminal_is_noop demo_env0
                           (world_of plain_net empty_doc demo_registry)))
                 (mkConnection "/Mat/Preview" "")).
    + reflexivity.
    + vm_compute. reflexivity.
Defined.

(** *** Shader compilation *)

(** Without OSL support [_CompileOslSource] returns the empty string after
    one diagnostic and does not run the compiler. *)
Lemma CompileOslSource_without_osl (env : Env) name oslSource searchPaths w :
  PXR_OSL_SUPPORT_ENABLED env = false ->
  _CompileOslSource env name oslSource searchPaths w =
    (Done "",
     with_warnings w
       ["Unable to compile MaterialX generated Osl shader, enable OSL " +:+
        "support for full MaterialX support in HdPrman." +:+ line_feed]).
Proof. intros H. unfold _CompileOslSource. rewrite H. reflexivity. Qed.

(** When the artifact file cannot be opened it returns the empty string
    after one diagnostic. *)
Lemma CompileOslSource_unwritable (env : Env) name oslSource searchPaths w :
  PXR_OSL_SUPPORT_ENABLED env = true ->
  fopen_succeeds env
    (ArchMakeTmpFileName env (w_tmpCalls w) ("MX." +:+ name) ".oso") = false ->
  exists w',
    _CompileOslSource env name oslSource searchPaths w = (Done "", w') /\
    w_warnings w' =
      (w_warnings w ++
       ["Unable to save compiled MaterialX Osl shader at '" +:+
        ArchMakeTmpFileName env (w_tmpCalls w) ("MX." +:+ name) ".oso" +:+
        "'" +:+ line_feed])%list /\
    w_net w' = w_net w /\ w_registry w' = w_registry w.
Proof.
  intros Hosl Hopen. unfold _CompileOslSource. rewrite Hosl.
  unfold bind, trace, next_tmp_call. simpl. rewrite Hopen. simpl.
  eexists. split; [reflexivity|]. done.
Qed.

(** C7 (as the code behaves): when the OSL compiler rejects the source,
    [_CompileOslSource] does not look at the compiler's result; provided
    the artifact file can be opened it writes the compiler's output buffer
    to the temporary file and returns that file's path, issuing no
    diagnostic. *)
Theorem C7_compile_error_not_reported (env : Env) (name oslSource : string)
    (searchPaths : list string) (w : World) :
  PXR_OSL_SUPPORT_ENABLED env = true ->
  let oslArgs :=
    map (fun path =>
           if FilePath_exists env (FilePath_join path "stdlib/osl")
           then "-I" +:+ FilePath_join path "stdlib/osl"
           else "-I" +:+ path) searchPaths in
  let compiledFilePath :=
    ArchMakeTmpFileName env (w_tmpCalls w) ("MX." +:+ name) ".oso" in
  fst (OSLCompiler_compile_buffer env oslSource oslArgs) = false ->
  fopen_succeeds env compiledFilePath = true ->
  exists w',
    _CompileOslSource env name oslSource searchPaths w
      = (Done compiledFilePath, w') /\
    w_warnings w' = w_warnings w /\
    w_files w' !! compiledFilePath
      = Some (snd (OSLCompiler_compile_buffer env oslSource oslArgs)).
Proof.
  intros Hosl oslArgs path Hfail Hopen.
  unfold _CompileOslSource. rewrite Hosl.
  unfold bind, trace, next_tmp_call. simpl.
  fold path. rewrite Hopen. simpl.
  eexists. split; [reflexivity|]. split; [reflexivity|].
  simpl. apply lookup_insert_eq.
Qed.

Lemma C7_compile_error_not_reported_witness :
  exists w',
    _CompileOslSource bad_source_env "MulShader" "bad" ["/mtlx"]
       (world_of shared_net shared_doc demo_registry)
      = (Done "/tmp/MX.MulShader.0.oso", w') /\
    w_warnings w' = [] /\
    w_files w' !! "/tmp/MX.MulShader.0.oso" = Some "".
Proof.
  apply (C7_compile_error_not_reported bad_source_env "MulShader" "bad"
           ["/mtlx"] (world_of shared_net shared_doc demo_registry));
    reflexivity.
Defined.

(** The rewrite after a compiler error: with a generator whose source the
    compiler rejects, [_UpdateNetwork] issues no diagnostic, enters a new
    registry entry for the artifact and retypes the upstream node to it. *)
Example compile_error_run :
  let r := _UpdateNetwork bad_source_env "/Mat/Surf" ["/mtlx"]
             (world_of custom_net custom_doc demo_registry) in
  fst r = Done tt /\
  w_warnings (snd r) = [] /\
  w_trace (snd r) =
    [EvGenerate "/Mat/NG/Custom" "CustomShader";
     EvCompile "/Mat/NG/Custom" "CustomShader";
     EvOslc "CustomShader" "bad"] /\
  w_registry (snd r) =
    (demo_registry ++
     [mkSdr "/tmp/MX.CustomShader.0.oso" "OSL" [] ["out"] ""])%list /\
  GetNodeType (w_net (snd r)) "/Mat/NG/Custom" = "/tmp/MX.CustomShader.0.oso".
Proof. vm_compute. repeat split; reflexivity. Qed.

(** *** Unknown upstream nodes *)

(** C8 (amended): when the terminal node has exactly one input connection,
    to an upstream node [A] that is not a node of the network (its type
    identifier is empty), [_UpdateNetwork] skips the connection: neither
    the generator nor the compiler is called, the network, the registry and
    the document are unchanged, and exactly one diagnostic, naming [A], is
    issued. *)
Theorem C8_unknown_upstream_skipped (env : Env) (terminalNodeName : string)
    (searchPath : list string) (w : World) (terminal : HdMaterialNode2)
    (cName A outputName : string) :
  nodes (w_net w) !! terminalNodeName = Some terminal ->
  inputConnections terminal = {[ cName := [mkConnection A outputName] ]} ->
  GetNodeType (w_net w) A = "" ->
  _UpdateNetwork env terminalNodeName searchPath w =
    (Done tt, with_warnings w ["Unknown material node '" +:+ A +:+ "'"]).
Proof.
  intros HT Hc HA.
  unfold _UpdateNetwork, bind, get_net. simpl.
  unfold GetNodeInputConnectionNames, GetNodeInputConnection.
  rewrite HT, Hc, sorted_keys_singleton. simpl.
  unfold bind, get_net. simpl. rewrite HT, Hc, lookup_singleton_eq. simpl.
  unfold updateConnection, bind, get_net, _HasNode. simpl.
  rewrite HA. simpl. rewrite sorted_elements_empty. reflexivity.
Qed.

Lemma C8_unknown_upstream_skipped_witness :
  _UpdateNetwork demo_env0 "/Mat/Surf" ["/mtlx"]
     (world_of dangling_net empty_doc demo_registry) =
  (Done tt,
   with_warnings (world_of dangling_net empty_doc demo_registry)
     ["Unknown material node '/Mat/NG/Gone'"]).
Proof.
  apply (C8_unknown_upstream_skipped demo_env0 "/Mat/Surf" ["/mtlx"]
           (world_of dangling_net empty_doc demo_registry)
           (node_of tokens.ND_standard_surface_surfaceshader []
              [("base_color", [mkConnection "/Mat/NG/Gone" "out"])])
           "base_color" "/Mat/NG/Gone" "out"); reflexivity.
Defined.

(** C8 as stated fails: [/Mat/NG/Custom] is the only upstream node of the
    terminal and its type has no registry entry, yet the rewrite calls the
    generator and the compiler for it, retypes it and issues no
    diagnostic. *)
Lemma C8_counterexample :
  let w := world_of custom_net custom_doc demo_registry in
  let r := _UpdateNetwork (demo_env (fun _ _ _ => (custom_doc, [])))
             "/Mat/Surf" ["/mtlx"] w in
  GetNodeInputConnectionNames (w_net w) "/Mat/Surf" = ["base_color"] /\
  GetNodeInputConnection (w_net w) "/Mat/Surf" "base_color"
    = [mkConnection "/Mat/NG/Custom" "out"] /\
  SdrRegistry.GetShaderNodeByIdentifier (w_registry w)
    (GetNodeType (w_net w) "/Mat/NG/Custom") [] = None /\
  fst r = Done tt /\
  w_trace (snd r) =
    [EvGenerate "/Mat/NG/Custom" "CustomShader";
     EvCompile "/Mat/NG/Custom" "CustomShader";
     EvOslc "CustomShader" "shader CustomShader"] /\
  w_warnings (snd r) = [] /\
  GetNodeType (w_net (snd r)) "/Mat/NG/Custom" = "/tmp/MX.CustomShader.0.oso".
Proof. vm_compute. repeat split; reflexivity. Qed.

(** *** Terminal adapter *)

Lemma with_net_id w : with_net w (w_net w) = w.
Proof. by destruct w. Qed.

Lemma for_each_net {A} (f : HdMaterialNetwork2 -> A -> HdMaterialNetwork2)
    (body : A -> M unit) (l : list A) w :
  (forall x w, body x w = (Done tt, with_net w (f (w_net w) x))) ->
  for_each l body w = (Done tt, with_net w (foldl f (w_net w) l)).
Proof.
  intros Hbody. revert w. induction l as [|x l IH]; intros w; simpl.
  - by rewrite with_net_id.
  - unfold bind. rewrite Hbody, IH. reflexivity.
Qed.

Lemma append_empty_r (s : string) : s +:+ "" = s.
Proof.
  induction s as [|a s IH]; [reflexivity|].
  change (String a s +:+ "") with (String a (s +:+ "")). by rewrite IH.
Qed.

Lemma append_ne_self (s t : string) : t <> "" -> s +:+ t <> s.
Proof.
  intros Ht H. apply Ht.
  apply (String.app_inj s). by rewrite H, append_empty_r.
Qed.

(** The table of reserved words. *)
Lemma updated_token_spec p :
  _GetUpdatedInputToken p <> "" ->
  (p, _GetUpdatedInputToken p) ∈ conflicts.
Proof.
  unfold _GetUpdatedInputToken, conflicts. simpl.
  repeat case_bool_decide; subst; simpl; intros Hnz; try done; set_solver.
Qed.

Lemma conflicts_updated old new :
  (old, new) ∈ conflicts ->
  _GetUpdatedInputToken old = new /\ new <> "" /\ _GetUpdatedInputToken new = "".
Proof.
  unfold conflicts. rewrite !elem_of_cons, elem_of_nil.
  intros [H|[H|[H|[]]]]; injection H as -> ->; done.
Qed.

Lemma updated_token_inj p q :
  _GetUpdatedInputToken p <> "" ->
  _GetUpdatedInputToken p = _GetUpdatedInputToken q -> p = q.
Proof.
  intros Hp Heq.
  assert (_GetUpdatedInputToken q <> "") as Hq by congruence.
  apply updated_token_spec in Hp, Hq. rewrite <- Heq in Hq.
  revert Hp Hq. generalize (_GetUpdatedInputToken p). intros n.
  unfold conflicts. rewrite !elem_of_cons, !elem_of_nil.
  intros [H|[H|[H|[]]]] [H'|[H'|[H'|[]]]]; congruence.
Qed.

Lemma rename_params_stable l : forall ps old new V,
  (old, new) ∈ conflicts -> old ∉ l ->
  ps !! new = Some V -> ps !! old = None ->
  foldl rename_params ps l !! new = Some V /\
  foldl rename_params ps l !! old = None.
Proof.
  induction l as [|p l IH]; intros ps old new V Hc Hnin Hnew Hold; simpl.
  - done.
  - apply not_elem_of_cons in Hnin as [Hne Hnin].
    destruct (conflicts_updated _ _ Hc) as (Hu & Hnz & Hnn).
    apply (IH _ old new V Hc Hnin); unfold rename_params.
    + case_bool_decide as Hp; simpl; [done|].
      rewrite lookup_delete_ne by (intros ->; congruence).
      rewrite lookup_insert_ne; [done|].
      intros Heq. apply Hne. symmetry. apply updated_token_inj; congruence.
    + case_bool_decide as Hp; simpl; [done|].
      rewrite lookup_delete_ne by done.
      rewrite lookup_insert_ne; [done|]. intros Heq.
      destruct (conflicts_updated _ _ (updated_token_spec p Hp)) as (_ & _ & Hz).
      rewrite Heq, Hu in Hz. done.
Qed.

Lemma rename_params_renames l : forall ps old new V,
  NoDup l -> (old, new) ∈ conflicts -> old ∈ l ->
  ps !! old = Some V ->
  foldl rename_params ps l !! new = Some V /\
  foldl rename_params ps l !! old = None.
Proof.
  induction l as [|p l IH]; intros ps old new V Hnd Hc Hin Hold; simpl.
  - by apply elem_of_nil in Hin.
  - apply NoDup_cons in Hnd as [Hpl Hnd].
    destruct (conflicts_updated _ _ Hc) as (Hu & Hnz & Hnn).
    destruct (decide (p = old)) as [->|Hne].
    + apply (rename_params_stable l _ old new V Hc Hpl);
        unfold rename_params; rewrite Hu;
        rewrite bool_decide_eq_false_2 by done; simpl.
      * rewrite lookup_delete_ne by (intros ->; congruence).
        rewrite lookup_insert_eq, Hold. done.
      * apply lookup_delete_eq.
    + apply elem_of_cons in Hin as [Heq|Hin]; [congruence|].
      apply (IH _ old new V Hnd Hc Hin). unfold rename_params.
      case_bool_decide as Hp; simpl; [done|].
      rewrite lookup_delete_ne by done.
      rewrite lookup_insert_ne; [done|]. intros Heq.
      destruct (conflicts_updated _ _ (updated_token_spec p Hp)) as (_ & _ & Hz).
      rewrite Heq, Hu in Hz. done.
Qed.

Lemma SetNodeType_lookup net T ty tn :
  nodes net !! T = Some tn ->
  nodes (SetNodeType net T ty) !! T
    = Some (mkNode ty (parameters tn) (inputConnections tn)).
Proof.
  intros H. unfold SetNodeType, putNode, getOrCreate. simpl.
  rewrite lookup_insert_eq, H. reflexivity.
Qed.

Lemma SetNodeType_lookup_ne net T T' ty :
  T' <> T -> nodes (SetNodeType net T' ty) !! T = nodes net !! T.
Proof. intros H. unfold SetNodeType, putNode. simpl. by rewrite lookup_insert_ne. Qed.

Lemma SetNodeInputConnection_lookup_ne net T T' i c :
  T' <> T -> nodes (SetNodeInputConnection net T' i c) !! T = nodes net !! T.
Proof.
  intros H. unfold SetNodeInputConnection, putNode. simpl.
  by rewrite lookup_insert_ne.
Qed.

Lemma rename_step_lookup T l : forall net tn,
  nodes net !! T = Some tn ->
  nodes (foldl (rename_step T) net l) !! T
    = Some (mkNode (nodeTypeId tn) (foldl rename_params (parameters tn) l)
                   (inputConnections tn)).
Proof.
  induction l as [|p l IH]; intros net tn H; simpl.
  - rewrite H. by destruct tn.
  - rewrite (IH _ (mkNode (nodeTypeId tn) (rename_params (parameters tn) p)
                          (inputConnections tn))); [reflexivity|].
    unfold rename_step, rename_params.
    case_bool_decide as Hp; simpl.
    + rewrite H. by destruct tn.
    + unfold DeleteNodeParameter, SetNodeParameterValue, GetNodeParameterValue,
        putNode, getOrCreate. simpl.
      rewrite H. simpl. rewrite lookup_insert_eq. simpl.
      rewrite lookup_insert_eq. reflexivity.
Qed.

Lemma connect_step_lookup_ne pxr T a b l : forall net,
  pxr <> T ->
  nodes (foldl (connect_step pxr T a b) net l) !! T = nodes net !! T.
Proof.
  induction l as [|p l IH]; intros net H; simpl; [done|].
  rewrite IH by done. unfold connect_step.
  repeat case_match; try done. by apply SetNodeInputConnection_lookup_ne.
Qed.

(** *** Pruning *)

(** The final loop of [_UpdateNetwork] as a function on the network. *)
Lemma prune_loop (keep : gset string) (l : list string) w :
  for_each l
    (fun nodeName =>
       if bool_decide (nodeName ∉ keep) then
         modify_net (fun net => DeleteNode net nodeName)
       else ret tt) w
  = (Done tt,
     with_net w
       (foldl (fun net nodeName =>
                 if bool_decide (nodeName ∉ keep) then DeleteNode net nodeName
                 else net) (w_net w) l)).
Proof.
  apply (for_each_net
           (fun net nodeName =>
              if bool_decide (nodeName ∉ keep) then DeleteNode net nodeName
              else net)).
  intros x w0. case_bool_decide; [reflexivity|]. by rewrite with_net_id.
Qed.

(** It deletes the nodes of [nodesToRemove] that are not in [nodesToKeep]
    and no other node. *)
Lemma prune_loop_nodes (keep : gset string) (l : list string) net k :
  nodes (foldl (fun net nodeName =>
                  if bool_decide (nodeName ∉ keep) then DeleteNode net nodeName
                  else net) net l) !! k
  = if bool_decide (k ∈ l /\ k ∉ keep) then None else nodes net !! k.
Proof.
  revert net. induction l as [|x l IH]; intros net; cbn [foldl].
  - case_bool_decide as H; [|done]. destruct H as [H _].
    by apply elem_of_nil in H.
  - rewrite IH. case_bool_decide as Hl.
    + case_bool_decide as Hxl; [done|]. exfalso. apply Hxl.
      destruct Hl. split; [|done]. apply elem_of_cons. by right.
    + case_bool_decide as Hx; cbn [DeleteNode nodes].
      * destruct (decide (k = x)) as [->|Hne].
        -- rewrite lookup_delete_eq. case_bool_decide as Hxl; [done|].
           exfalso. apply Hxl. split; [|done]. apply elem_of_cons. by left.
        -- rewrite lookup_delete_ne by done.
           case_bool_decide as Hxl; [|done]. exfalso.
           destruct Hxl as [Hin Hk].
           apply elem_of_cons in Hin as [?|?]; [done|]. by apply Hl.
      * case_bool_decide as Hxl; [|done]. exfalso.
        destruct Hxl as [Hin Hk].
        apply elem_of_cons in Hin as [->|?]; [done|]. by apply Hl.
Qed.

(** C2 (as the code behaves): in [shared_net] the texture [/Mat/NG/Tex] is
    directly connected to the terminal input [specular_color] and is also
    upstream of [/Mat/NG/Mul], which the terminal reads through
    [base_color].  The connection to [/Mat/NG/Mul] is processed first and
    marks the texture as visited, so the texture is never entered in
    [nodesToKeep]: after [_UpdateNetwork] the terminal still reads
    [/Mat/NG/Tex], and the node is deleted. *)
Theorem C2_direct_node_deleted :
  let w := world_of shared_net shared_doc demo_registry in
  let r := _UpdateNetwork (demo_env (fun _ _ _ => (shared_doc, [])))
             "/Mat/Surf" ["/mtlx"] w in
  GetNodeInputConnectionNames (w_net w) "/Mat/Surf"
    = ["base_color"; "specular_color"] /\
  GetNodeInputConnection (w_net w) "/Mat/Surf" "specular_color"
    = [mkConnection "/Mat/NG/Tex" "out"] /\
  GetNodeInputConnection (w_net w) "/Mat/NG/Mul" "in1"
    = [mkConnection "/Mat/NG/Tex" "out"] /\
  fst r = Done tt /\
  GetNodeInputConnection (w_net (snd r)) "/Mat/Surf" "specular_color"
    = [mkConnection "/Mat/NG/Tex" "out"] /\
  nodes (w_net (snd r)) !! "/Mat/NG/Tex" = None /\
  w_warnings (snd r) = [].
Proof. vm_compute. repeat split; reflexivity. Qed.

(** *** MaterialX element access *)

Lemma with_doc_with_doc w d1 d2 : with_doc (with_doc w d1) d2 = with_doc w d2.
Proof. reflexivity. Qed.

Lemma setGraph_setGraph d g a b :
  mx.setGraph (mx.setGraph d g a) g b = mx.setGraph d g b.
Proof. unfold mx.setGraph. simpl. by rewrite list_insert_insert_eq. Qed.

Lemma setGraph_lookup d g gr a :
  doc_graphs d !! g = Some gr -> doc_graphs (mx.setGraph d g a) !! g = Some a.
Proof.
  intros H. unfold mx.setGraph. simpl. apply list_lookup_insert_eq.
  by eapply lookup_lt_Some.
Qed.

Lemma read_graph_run g gr w :
  doc_graphs (w_doc w) !! g = Some gr -> read_graph g w = (Done gr, w).
Proof. intros H. unfold read_graph, bind, get_doc. by rewrite H. Qed.

Lemma read_node_run g n gr nd w :
  doc_graphs (w_doc w) !! g = Some gr -> ng_nodes gr !! n = Some nd ->
  read_node g n w = (Done nd, w).
Proof.
  intros Hg Hn. unfold read_node, bind. rewrite (read_graph_run g gr) by done.
  by rewrite Hn.
Qed.

Lemma update_node_run g n gr nd f w :
  doc_graphs (w_doc w) !! g = Some gr -> ng_nodes gr !! n = Some nd ->
  update_node g n f w =
    (Done tt, with_doc w (mx.setGraph (w_doc w) g (mx.setNode gr n (f nd)))).
Proof.
  intros Hg Hn. unfold update_node, bind.
  rewrite (read_graph_run g gr), (read_node_run g n gr nd) by done.
  reflexivity.
Qed.

Lemma add_node_run g gr category name type w :
  doc_graphs (w_doc w) !! g = Some gr -> mx.getNode gr name = None ->
  add_node g category name type w =
    (Done (length (ng_nodes gr)),
     with_doc w
       (mx.setGraph (w_doc w) g
          (mkGraph (ng_name gr)
             (ng_nodes gr ++ [mkMxNode name category type None []])))).
Proof.
  intros Hg Hn. unfold add_node, bind.
  rewrite (read_graph_run g gr) by done. unfold mx.addNode. rewrite Hn.
  reflexivity.
Qed.

Lemma find_index_congr {A} (p : A -> bool) (l l' : list A) :
  p <$> l = p <$> l' -> find_index p l = find_index p l'.
Proof.
  revert l'. induction l as [|x l IH]; intros [|x' l']; simpl; try done.
  intros [= Hx Hl]. rewrite Hx. by rewrite (IH l').
Qed.

Lemma find_index_app {A} (p : A -> bool) (l l' : list A) :
  find_index p (l ++ l') =
  match find_index p l with
  | Some i => Some i
  | None => (fun i => length l + i) <$> find_index p l'
  end.
Proof.
  induction l as [|x l IH]; simpl.
  - by destruct (find_index p l').
  - destruct (p x); [done|]. rewrite IH.
    destruct (find_index p l); simpl; [done|].
    by destruct (find_index p l').
Qed.

Lemma find_index_Some {A} (p : A -> bool) (l : list A) i :
  find_index p l = Some i -> exists x, l !! i = Some x /\ p x = true.
Proof.
  revert i. induction l as [|x l IH]; intros i; simpl; [done|].
  destruct (p x) eqn:Hp.
  - intros [= <-]. eauto.
  - destruct (find_index p l) as [j|]; simpl; [|done].
    intros [= <-]. simpl. eauto.
Qed.

(** Replacing a node by one of the same name does not change lookups by
    name. *)
Lemma getNode_setNode gr n nd nd' name :
  ng_nodes gr !! n = Some nd -> nd_name nd' = nd_name nd ->
  mx.getNode (mx.setNode gr n nd') name = mx.getNode gr name.
Proof.
  intros Hn Hname. unfold mx.getNode, mx.setNode. simpl.
  apply find_index_congr. rewrite list_fmap_insert, Hname.
  apply list_insert_id. by rewrite list_lookup_fmap, Hn.
Qed.

Lemma getInput_setInputValue node name v type name' :
  name <> name' ->
  mx.getInput (mx.setInputValue node name v type) name' = mx.getInput node name'.
Proof.
  intros Hne. unfold mx.setInputValue.
  destruct (mx.getInput node name) as [i|] eqn:Hi; unfold mx.getInput; simpl.
  - apply find_index_congr. apply list_eq. intros j.
    rewrite !list_lookup_fmap.
    destruct (decide (i = j)) as [->|Hij].
    + rewrite list_lookup_alter_eq. by destruct (nd_inputs node !! j).
    + by rewrite list_lookup_alter_ne.
  - rewrite find_index_app. simpl.
    rewrite bool_decide_eq_false_2 by done.
    by destruct (find_index _ (nd_inputs node)).
Qed.

Lemma setInputValue_name node name v type :
  nd_name (mx.setInputValue node name v type) = nd_name node.
Proof. unfold mx.setInputValue. by destruct (mx.getInput node name). Qed.

(** [setInputValue] keeps the connection of every input the node had. *)
Lemma setInputValue_nodename node name v type i inp :
  nd_inputs node !! i = Some inp ->
  exists inp', nd_inputs (mx.setInputValue node name v type) !! i = Some inp' /\
               in_nodename inp' = in_nodename inp.
Proof.
  intros Hi. unfold mx.setInputValue.
  destruct (mx.getInput node name) as [j|]; simpl.
  - destruct (decide (j = i)) as [->|Hij].
    + rewrite list_lookup_alter_eq, Hi. simpl. eauto.
    + rewrite list_lookup_alter_ne by done. eauto.
  - rewrite lookup_app_l by (by eapply lookup_lt_Some). eauto.
Qed.

Lemma setNode_tail name l x y i :
  i = length l ->
  mx.setNode (mkGraph name (l ++ [x])) i y = mkGraph name (l ++ [y]).
Proof.
  intros ->. unfold mx.setNode. simpl. f_equal.
  rewrite insert_app_r_alt by lia. by rewrite Nat.sub_diag.
Qed.

Lemma setNode_front name l t n y :
  n < length l ->
  mx.setNode (mkGraph name (l ++ t)) n y = mkGraph name (<[n := y]> l ++ t).
Proof.
  intros H. unfold mx.setNode. simpl. f_equal. by rewrite insert_app_l.
Qed.

Lemma remap_node_build name source :
  mx.setConnectedNode
    (mx.setInputValue
       (mx.setInputValue
          (mx.addInput
             (mx.setNodeDefString
                (mkMxNode name tokens.remap tokens.vector2 None [])
                tokens.ND_remap_vector2)
             tokens.in_ tokens.vector2)
          tokens.inhigh (MxFloatVec [1; 0]%Z) tokens.float2)
       tokens.inlow (MxFloatVec [0; 1]%Z) tokens.float2)
    0 source
  = mkMxNode name "remap" "vector2" (Some "ND_remap_vector2")
      [ mkInput "in" "vector2" None source;
        mkInput "inhigh" "float2" (Some (MxFloatVec [1; 0]%Z)) None;
        mkInput "inlow" "float2" (Some (MxFloatVec [0; 1]%Z)) None ].
Proof. reflexivity. Qed.

Lemma w_doc_with_doc w d : w_doc (with_doc w d) = d.
Proof. reflexivity. Qed.

Lemma w_net_with_doc w d : w_net (with_doc w d) = w_net w.
Proof. reflexivity. Qed.



Lemma setNode_lookup gr n nd nd' :
  ng_nodes gr !! n = Some nd -> ng_nodes (mx.setNode gr n nd') !! n = Some nd'.
Proof.
  intros H. unfold mx.setNode. simpl. apply list_lookup_insert_eq.
  by eapply lookup_lt_Some.
Qed.

Lemma remap_node_unwired name :
  mx.setInputValue
    (mx.setInputValue
       (mx.addInput
          (mx.setNodeDefString
             (mkMxNode name tokens.remap tokens.vector2 None [])
             tokens.ND_remap_vector2)
          tokens.in_ tokens.vector2)
       tokens.inhigh (MxFloatVec [1; 0]%Z) tokens.float2)
    tokens.inlow (MxFloatVec [0; 1]%Z) tokens.float2
  = mkMxNode name "remap" "vector2" (Some "ND_remap_vector2")
      [ mkInput "in" "vector2" None None;
        mkInput "inhigh" "float2" (Some (MxFloatVec [1; 0]%Z)) None;
        mkInput "inlow" "float2" (Some (MxFloatVec [0; 1]%Z)) None ].
Proof. reflexivity. Qed.

Section Texture.
Context (env : Env).

(** The part of [updateTextureNode] that inserts the remap node, run from a
    state in which the texture node [node1] sits at position [n] of graph
    [g] and has its texcoord input at [ti]. *)
Lemma insert_remap_run tex w g n gr node1 ti source :
  doc_graphs (w_doc w) !! g = Some gr ->
  ng_nodes gr !! n = Some node1 ->
  mx.getInput node1 tokens.texcoord = Some ti ->
  mx.getNode gr (tex +:+ "__remap") = None ->
  mx.getConnectedNode
    (mkGraph (ng_name gr) (ng_nodes gr ++ [remap_node tex None])) node1 ti
    = source ->
  (let* textureNode := read_node g n in
   match mx.getInput textureNode tokens.texcoord with
   | None => ret tt
   | Some texcoordInput =>
       let remapNodeName := tex +:+ "__remap" in
       let* remapNode :=
         add_node g tokens.remap remapNodeName tokens.vector2 in
       update_node g remapNode
         (fun n => mx.setNodeDefString n tokens.ND_remap_vector2) ;;;
       update_node g remapNode
         (fun n => mx.addInput n tokens.in_ tokens.vector2) ;;;
       let inInput := 0 in
       let inhigh := MxFloatVec [1; 0]%Z in
       let inlow := MxFloatVec [0; 1]%Z in
       update_node g remapNode
         (fun n => mx.setInputValue n tokens.inhigh inhigh tokens.float2) ;;;
       update_node g remapNode
         (fun n => mx.setInputValue n tokens.inlow inlow tokens.float2) ;;;
       let* graph := read_graph g in
       let primvarNode := mx.getConnectedNode graph textureNode texcoordInput in
       update_node g remapNode
         (fun n => mx.setConnectedNode n inInput primvarNode) ;;;
       update_node g n
         (fun n => mx.setConnectedNode n texcoordInput (Some remapNodeName))
   end) w
  = (Done tt,
     with_doc w
       (mx.setGraph (w_doc w) g
          (mkGraph (ng_name gr)
             (<[n := mx.setConnectedNode node1 ti (Some (tex +:+ "__remap"))]>
                (ng_nodes gr) ++ [remap_node tex source])))).
Proof.
  intros Hg Hn Hti Hfresh Hsrc.
  assert (n < length (ng_nodes gr)) as Hlt by (by eapply lookup_lt_Some).
  rewrite (bind_Done _ _ _ node1 w) by (by eapply read_node_run).
  rewrite Hti. cbv zeta.
  erewrite bind_Done by (by eapply add_node_run).
  (* setNodeDefString *)
  erewrite bind_Done.
  2:{ eapply update_node_run.
      - rewrite w_doc_with_doc. by eapply setGraph_lookup.
      - simpl. by apply list_lookup_middle. }
  rewrite with_doc_with_doc, w_doc_with_doc, setGraph_setGraph, setNode_tail by done.
  (* addInput *)
  erewrite bind_Done.
  2:{ eapply update_node_run.
      - rewrite w_doc_with_doc. by eapply setGraph_lookup.
      - simpl. by apply list_lookup_middle. }
  rewrite with_doc_with_doc, w_doc_with_doc, setGraph_setGraph, setNode_tail by done.
  (* inhigh *)
  erewrite bind_Done.
  2:{ eapply update_node_run.
      - rewrite w_doc_with_doc. by eapply setGraph_lookup.
      - simpl. by apply list_lookup_middle. }
  rewrite with_doc_with_doc, w_doc_with_doc, setGraph_setGraph, setNode_tail by done.
  (* inlow *)
  erewrite bind_Done.
  2:{ eapply update_node_run.
      - rewrite w_doc_with_doc. by eapply setGraph_lookup.
      - simpl. by apply list_lookup_middle. }
  rewrite with_doc_with_doc, w_doc_with_doc, setGraph_setGraph, setNode_tail by done.
  rewrite remap_node_unwired.
  (* the coordinate source *)
  erewrite bind_Done.
  2:{ eapply read_graph_run. rewrite w_doc_with_doc. by eapply setGraph_lookup. }
  fold (remap_node tex None). rewrite Hsrc.
  erewrite bind_Done.
  2:{ eapply update_node_run.
      - rewrite w_doc_with_doc. by eapply setGraph_lookup.
      - simpl. by apply list_lookup_middle. }
  rewrite with_doc_with_doc, w_doc_with_doc, setGraph_setGraph, setNode_tail by done.
  erewrite update_node_run.
  2:{ rewrite w_doc_with_doc. by eapply setGraph_lookup. }
  2:{ simpl. rewrite lookup_app_l by done. exact Hn. }
  rewrite with_doc_with_doc, w_doc_with_doc, setGraph_setGraph.
  rewrite setNode_front by done.
  reflexivity.
Qed.

End Texture.


Lemma getNode_app_Some gr name nd i :
  mx.getNode gr name = Some i ->
  mx.getNode (mkGraph (ng_name gr) (ng_nodes gr ++ [nd])) name = Some i.
Proof.
  unfold mx.getNode. simpl. intros H. by rewrite find_index_app, H.
Qed.

Lemma getConnectedNode_Some gr node ti src :
  mx.getConnectedNode gr node ti = Some src ->
  exists inp i, nd_inputs node !! ti = Some inp /\ in_nodename inp = Some src /\
              mx.getNode gr src = Some i.
Proof.
  unfold mx.getConnectedNode. intros H.
  destruct (nd_inputs node !! ti) as [inp|]; [|done].
  destruct (in_nodename inp) as [nm|] eqn:Hnm; [|done].
  destruct (mx.getNode gr nm) as [i|] eqn:Hi; [|done].
  injection H as <-. eauto.
Qed.

Lemma bind_ret {A B} (a : A) (k : A -> M B) w : bind (ret a) k w = k a w.
Proof. reflexivity. Qed.

Section Texture.
Context (env : Env).

(** Native branch, texcoord input present and connected. *)
Lemma native_present_run tex w authored path g n gr node ti src :
  GetNodeType (w_net w) tex <> "" ->
  GetNodeParameterValue (w_net w) tex tokens.file = VtAssetPath authored path ->
  negb (bool_decide (ArGetExtension env path = "")) &&
    negb (bool_decide (ArGetExtension env path = "tex")) = false ->
  _FindGraphAndNodeByName (w_doc w) (SdfPath_GetParentName tex)
    (SdfPath_GetName tex) = mkFound (Some g) (Some n) ->
  doc_graphs (w_doc w) !! g = Some gr ->
  ng_nodes gr !! n = Some node ->
  mx.getInput node tokens.texcoord = Some ti ->
  mx.getConnectedNode gr node ti = Some src ->
  mx.getNode gr (tex +:+ "__remap") = None ->
  updateTextureNode env tex w =
    (Done tt,
     with_doc w
       (mx.setGraph (w_doc w) g
          (mkGraph (ng_name gr)
             (<[n := mx.setConnectedNode
                       (mx.setInputValue node "file" (MxString path) "filename")
                       ti (Some (tex +:+ "__remap"))]> (ng_nodes gr)
              ++ [remap_node tex (Some src)])))).
Proof.
  intros Hty Hfile Hext Hfound Hg Hn Hti Hsrc Hfresh.
  assert (n < length (ng_nodes gr)) as Hlt by (by eapply lookup_lt_Some).
  unfold updateTextureNode.
  rewrite (bind_Done _ _ _ (w_net w) w) by reflexivity.
  rewrite bool_decide_eq_false_2 by done. rewrite Hfile.
  cbn [VtValue_IsEmpty].
  rewrite (bind_Done _ _ _ (w_doc w) w) by reflexivity.
  rewrite Hfound. cbn [mxNode mxNodeGraph]. rewrite Hext.
  erewrite bind_Done.
  2:{ erewrite bind_Done by (by eapply update_node_run). reflexivity. }
  set (node1 := mx.setInputValue node tokens.file (MxString path) tokens.filename).
  assert (mx.getInput node1 tokens.texcoord = Some ti) as Hti1.
  { unfold node1. by rewrite getInput_setInputValue. }
  erewrite bind_Done.
  2:{ eapply read_node_run.
      - rewrite w_doc_with_doc. by eapply setGraph_lookup.
      - by eapply setNode_lookup. }
  rewrite Hti1. cbv iota. rewrite bind_ret.
  erewrite (insert_remap_run tex _ g n (mx.setNode gr n node1) node1 ti (Some src)).
  - rewrite with_doc_with_doc, w_doc_with_doc, setGraph_setGraph.
    unfold mx.setNode. cbn [ng_name ng_nodes].
    by rewrite list_insert_insert_eq.
  - rewrite w_doc_with_doc. by eapply setGraph_lookup.
  - by eapply setNode_lookup.
  - done.
  - rewrite (getNode_setNode gr n node); [done|done|].
    apply setInputValue_name.
  - apply getConnectedNode_Some in Hsrc as (inp & i & Hinp & Hnm & Hi).
    destruct (setInputValue_nodename node tokens.file (MxString path)
                tokens.filename ti inp Hinp) as (inp' & Hinp' & Hnm').
    unfold mx.getConnectedNode. fold node1 in Hinp'. rewrite Hinp', Hnm', Hnm.
    erewrite (getNode_app_Some (mx.setNode gr n node1)); [done|].
    rewrite (getNode_setNode gr n node); [exact Hi|done|].
    apply setInputValue_name.
Qed.

End Texture.



Lemma getInput_setConnectedNode node i target name :
  mx.getInput (mx.setConnectedNode node i target) name = mx.getInput node name.
Proof.
  unfold mx.getInput, mx.setConnectedNode. simpl.
  apply find_index_congr. apply list_eq. intros j.
  rewrite !list_lookup_fmap.
  destruct (decide (i = j)) as [->|Hij].
  - rewrite list_lookup_alter_eq. by destruct (nd_inputs node !! j).
  - by rewrite list_lookup_alter_ne.
Qed.



Section Texture.
Context (env : Env).


End Texture.




Section Texture.
Context (env : Env).


End Texture.

(** *** Footprints: what a computation may change *)

Lemma generated_app a b : generated (a ++ b) = (generated a ++ generated b)%list.
Proof. apply omap_app. Qed.

Lemma compiled_app a b : compiled (a ++ b) = (compiled a ++ compiled b)%list.
Proof. apply omap_app. Qed.



#[global] Instance quiet_preorder : PreOrder quiet.
Proof.
  split.
  - intros w. exists []. by rewrite app_nil_r.
  - intros w1 w2 w3 (e1 & H1 & G1 & C1) (e2 & H2 & G2 & C2).
    exists (e1 ++ e2)%list. rewrite H2, H1, app_assoc.
    by rewrite generated_app, compiled_app, G1, G2, C1, C2.
Qed.

Section Hoare.
Context (R : World -> World -> Prop) `{!PreOrder R}.

Lemma hoare_ret {A} (Q : A -> Prop) (a : A) : Q a -> hoare R Q (ret a).
Proof. intros H w. split; [reflexivity|]. simpl. by intros ? [= <-]. Qed.

Lemma hoare_fault {A} (Q : A -> Prop) s : hoare R Q (fault s).
Proof. intros w. split; [reflexivity|]. simpl. done. Qed.

Lemma hoare_bind {A B} (QA : A -> Prop) (QB : B -> Prop) (m : M A)
    (k : A -> M B) :
  hoare R QA m -> (forall a, QA a -> hoare R QB (k a)) ->
  hoare R QB (bind m k).
Proof.
  intros Hm Hk w. unfold bind. destruct (Hm w) as [Hw Ha].
  destruct (m w) as [[a|s] w1]; simpl in *; [|done].
  destruct (Hk a (Ha a eq_refl) w1) as [Hw1 Hb].
  split; [by etrans|done].
Qed.

Lemma hoare_weaken {A} (Q Q' : A -> Prop) (m : M A) :
  hoare R Q m -> (forall a, Q a -> Q' a) -> hoare R Q' m.
Proof. intros H HQ w. destruct (H w). split; [done|]. eauto. Qed.

Lemma hoare_for_each {A} (l : list A) (body : A -> M unit) :
  (forall x, hoare R (fun _ => True) (body x)) ->
  hoare R (fun _ => True) (for_each l body).
Proof.
  intros Hb. induction l as [|x l IH]; simpl.
  - by apply hoare_ret.
  - eapply hoare_bind; [apply Hb|]. intros _ _. apply IH.
Qed.

Lemma hoare_for_each_with {A S} (I : S -> Prop) (l : list A)
    (body : S -> A -> M S) s :
  (forall s x, I s -> hoare R I (body s x)) -> I s ->
  hoare R I (for_each_with l body s).
Proof.
  intros Hb. revert s. induction l as [|x l IH]; intros s Hs; simpl.
  - by apply hoare_ret.
  - eapply hoare_bind; [by apply Hb|]. intros s' Hs'. by apply IH.
Qed.

Lemma hoare_get_net : hoare R (fun _ => True) get_net.
Proof. intros w. split; [reflexivity|done]. Qed.
Lemma hoare_get_doc : hoare R (fun _ => True) get_doc.
Proof. intros w. split; [reflexivity|done]. Qed.
Lemma hoare_get_registry : hoare R (fun _ => True) get_registry.
Proof. intros w. split; [reflexivity|done]. Qed.
Lemma hoare_read_file p : hoare R (fun _ => True) (read_file p).
Proof. intros w. split; [reflexivity|done]. Qed.

End Hoare.

Lemma quiet_same_trace w w' : w_trace w' = w_trace w -> quiet w w'.
Proof. intros H. exists []. by rewrite app_nil_r. Qed.

Ltac quiet_prim :=
  intros ?; split; [apply quiet_same_trace; reflexivity|done].

Lemma quiet_modify_net f : hoare quiet (fun _ => True) (modify_net f).
Proof. quiet_prim. Qed.
Lemma quiet_set_net n : hoare quiet (fun _ => True) (set_net n).
Proof. quiet_prim. Qed.
Lemma quiet_set_doc d : hoare quiet (fun _ => True) (set_doc d).
Proof. quiet_prim. Qed.
Lemma quiet_set_registry r : hoare quiet (fun _ => True) (set_registry r).
Proof. quiet_prim. Qed.
Lemma quiet_TF_WARN s : hoare quiet (fun _ => True) (TF_WARN s).
Proof. quiet_prim. Qed.
Lemma quiet_TF_WARN_all s : hoare quiet (fun _ => True) (TF_WARN_all s).
Proof. quiet_prim. Qed.
Lemma quiet_next_tmp_call : hoare quiet (fun _ => True) next_tmp_call.
Proof. quiet_prim. Qed.
Lemma quiet_write_file p c : hoare quiet (fun _ => True) (write_file p c).
Proof. quiet_prim. Qed.
Lemma quiet_trace_oslc n s : hoare quiet (fun _ => True) (trace (EvOslc n s)).
Proof. intros w. split; [|done]. exists [EvOslc n s]. done. Qed.

(** One structural step of a footprint proof. *)
Ltac hoare_struct prims :=
  first
    [ solve [apply hoare_ret; [apply _|done]]
    | solve [apply hoare_fault; apply _]
    | solve [apply hoare_get_net; apply _]
    | solve [apply hoare_get_doc; apply _]
    | solve [apply hoare_get_registry; apply _]
    | solve [apply hoare_read_file; apply _]
    | solve [prims]
    | apply hoare_for_each; [apply _|intros]
    | apply (hoare_bind _ (fun _ => True)); [|intros ? _]
    | match goal with
      | |- hoare _ _ (match ?x with _ => _ end) => destruct x
      | |- hoare _ _ (if ?b then _ else _) => destruct b
      end ].

Ltac quiet_prims :=
  first
    [ apply quiet_modify_net | apply quiet_set_net | apply quiet_set_doc
    | apply quiet_set_registry | apply quiet_TF_WARN | apply quiet_TF_WARN_all
    | apply quiet_next_tmp_call | apply quiet_write_file
    | apply quiet_trace_oslc ].

Ltac quiet_tac := repeat hoare_struct quiet_prims.

Section Quiet.
Context (env : Env).


Lemma quiet_CompileOslSource a b c :
  hoare quiet (fun _ => True) (_CompileOslSource env a b c).
Proof. unfold _CompileOslSource. quiet_tac. Qed.

Lemma quiet_GetShaderNodeFromAsset a b c :
  hoare quiet (fun _ => True) (GetShaderNodeFromAsset env a b c).
Proof. unfold GetShaderNodeFromAsset. quiet_tac. Qed.

Lemma quiet_DeleteAllInputConnections n :
  hoare quiet (fun _ => True) (_DeleteAllInputConnections n).
Proof. unfold _DeleteAllInputConnections. quiet_tac. Qed.

Lemma quiet_DeleteAllParameters n :
  hoare quiet (fun _ => True) (_DeleteAllParameters n).
Proof. unfold _DeleteAllParameters. quiet_tac. Qed.

End Quiet.

Section Rewrite.
Context (env : Env).

(** What is left of [updateConnection] once the source was generated. *)
Lemma quiet_after_generate terminalNodeName searchPath cName upstream
    outputName shaderName oslSource (sets' : RewriteSets) :
  hoare quiet (fun s => s = sets')
    (let* compiledShaderPath :=
       _CompileOslSource env shaderName oslSource searchPath in
     if bool_decide (compiledShaderPath = "") then ret sets'
     else
       let* sdrNode :=
         GetShaderNodeFromAsset env compiledShaderPath tokens.mtlx tokens.OSL in
       match sdrNode with
       | None => fault "null sdrNode dereferenced"
       | Some sdrNode =>
           modify_net (fun net =>
             SetNodeType net upstream (sdr_identifier sdrNode)) ;;;
           (if SdrRegistry.GetOutput sdrNode outputName then
              let updatedInputName := _GetUpdatedInputToken cName in
              let deletePreviousConnection :=
                negb (bool_decide (updatedInputName = "")) in
              let inputName :=
                if deletePreviousConnection then updatedInputName
                else cName in
              modify_net (fun net =>
                SetNodeInputConnection net terminalNodeName inputName
                  [mkConnection upstream outputName]) ;;;
              if deletePreviousConnection then
                modify_net (fun net =>
                  DeleteNodeInputConnection net terminalNodeName cName)
              else ret tt
            else ret tt) ;;;
           _DeleteAllInputConnections upstream ;;;
           _DeleteAllParameters upstream ;;;
           ret sets'
       end).
Proof.
  repeat hoare_struct
    ltac:(first [ quiet_prims
                | apply quiet_CompileOslSource
                | apply quiet_GetShaderNodeFromAsset
                | apply quiet_DeleteAllInputConnections
                | apply quiet_DeleteAllParameters ]).
Qed.


End Rewrite.






Section Rewrite.
Context (env : Env).



End Rewrite.

#[global] Instance extends_preorder : PreOrder extends.
Proof.
  split.
  - intros w. exists []. by rewrite app_nil_r.
  - intros w1 w2 w3 [e1 H1] [e2 H2]. exists (e1 ++ e2)%list.
    by rewrite H2, H1, app_assoc.
Qed.


Section Rewrite.
Context (env : Env).











End Rewrite.

(** *** Shared upstream nodes *)




(** The same network with a generator and a compiler that succeed: one
    generation, one compilation, both inputs on the generated node. *)
Example twice_net_run :
  let w := world_of twice_net twice_doc demo_registry in
  let r := _UpdateNetwork (demo_env (fun _ _ _ => (twice_doc, [])))
             "/Mat/Surf" ["/mtlx"] w in
  fst r = Done tt /\
  w_trace (snd r) =
    [EvGenerate "/Mat/NG/Tex" "TexShader"; EvCompile "/Mat/NG/Tex" "TexShader";
     EvOslc "TexShader" "shader TexShader"] /\
  GetNodeType (w_net (snd r)) "/Mat/NG/Tex" = "/tmp/MX.TexShader.0.oso" /\
  GetNodeInputConnection (w_net (snd r)) "/Mat/Surf" "base_color"
    = [mkConnection "/Mat/NG/Tex" "out"] /\
  GetNodeInputConnection (w_net (snd r)) "/Mat/Surf" "specular_color"
    = [mkConnection "/Mat/NG/Tex" "out"].
Proof. vm_compute. repeat split; reflexivity. Qed.

(** *** Texture nodes: the plugin branch *)

Lemma with_warnings_nil w : with_warnings w [] = w.
Proof. destruct w. unfold with_warnings. simpl. by rewrite app_nil_r. Qed.

#[global] Instance only_warns_preorder : PreOrder only_warns.
Proof.
  split.
  - intros w. exists []. by rewrite with_warnings_nil.
  - intros w1 w2 w3 [m1 ->] [m2 ->]. exists (m1 ++ m2)%list.
    unfold with_warnings. simpl. by rewrite app_assoc.
Qed.

Lemma only_warns_TF_WARN s : hoare only_warns (fun _ => True) (TF_WARN s).
Proof. intros w. split; [|done]. by exists [s]. Qed.

Lemma only_warns_GetWrapModes tex :
  hoare only_warns (fun _ => True) (_GetWrapModes tex).
Proof.
  unfold _GetWrapModes, _GetHdWrapString, UncheckedGet_string.
  repeat hoare_struct ltac:(apply only_warns_TF_WARN).
Qed.

Section Texture.
Context (env : Env).



End Texture.

(** *** Texture nodes: the file input *)

Lemma has_input_value_setInputValue node name v type :
  has_input_value (mx.setInputValue node name v type) name v type.
Proof.
  unfold has_input_value, mx.setInputValue.
  destruct (mx.getInput node name) as [i|] eqn:Hi.
  - pose proof Hi as Hi'. unfold mx.getInput in Hi'.
    apply find_index_Some in Hi' as (inp & Hinp & Hname).
    apply bool_decide_eq_true in Hname.
    exists i, (mkInput (in_name inp) type (Some v) (in_nodename inp)).
    split; [|split; [|done]].
    + rewrite <- Hi. unfold mx.getInput. simpl.
      apply find_index_congr. apply list_eq. intros j.
      rewrite !list_lookup_fmap.
      destruct (decide (i = j)) as [->|Hij].
      * rewrite list_lookup_alter_eq. by destruct (nd_inputs node !! j).
      * by rewrite list_lookup_alter_ne.
    + simpl. by rewrite list_lookup_alter_eq, Hinp.
  - exists (length (nd_inputs node)), (mkInput name type (Some v) None).
    split; [|split; [|done]].
    + unfold mx.getInput in *. simpl. rewrite find_index_app, Hi. simpl.
      rewrite bool_decide_eq_true_2 by done. simpl. f_equal. lia.
    + simpl. by apply list_lookup_middle.
Qed.

Lemma has_input_value_setConnectedNode node j target name v type :
  has_input_value node name v type ->
  (forall i, mx.getInput node name = Some i -> i <> j) ->
  has_input_value (mx.setConnectedNode node j target) name v type.
Proof.
  intros (i & inp & Hi & Hinp & Hv & Hty) Hne.
  exists i, inp. rewrite getInput_setConnectedNode. split; [done|].
  split; [|done]. unfold mx.setConnectedNode. simpl.
  rewrite list_lookup_alter_ne; [done|]. intros ->. by eapply Hne.
Qed.

Lemma has_input_value_addInput node name' type' name v type :
  has_input_value node name v type ->
  has_input_value (mx.addInput node name' type') name v type.
Proof.
  intros (i & inp & Hi & Hinp & Hv & Hty).
  exists i, inp. split; [|split; [|done]].
  - unfold mx.getInput, mx.addInput in *. simpl.
    by rewrite find_index_app, Hi.
  - unfold mx.addInput. simpl.
    rewrite lookup_app_l; [done|]. by eapply lookup_lt_Some.
Qed.

Lemma getInput_lt node name i :
  mx.getInput node name = Some i -> i < length (nd_inputs node).
Proof.
  unfold mx.getInput. intros H.
  apply find_index_Some in H as (inp & Hinp & _). by eapply lookup_lt_Some.
Qed.


(** *** The graph locator *)

Lemma scan_graphs_Some graphs name i g n :
  scan_graphs graphs name i = Some (g, n) ->
  exists gr, i <= g /\ graphs !! (g - i) = Some gr /\ mx.getNode gr name = Some n.
Proof.
  revert i. induction graphs as [|gr graphs IH]; intros i; simpl; [done|].
  destruct (mx.getNode gr name) as [k|] eqn:Hk.
  - intros [= <- <-]. exists gr. rewrite Nat.sub_diag. done.
  - intros H. apply IH in H as (gr' & Hle & Hgr & Hn).
    exists gr'. split; [lia|]. split; [|done].
    replace (g - i) with (S (g - S i)) by lia. done.
Qed.


(** *** Texture nodes: an unconnected texcoord input *)

Section Texture.
Context (env : Env).

(** Native branch, texcoord input present but not connected. *)
Lemma native_unconnected_run tex w authored path g n gr node ti inp :
  GetNodeType (w_net w) tex <> "" ->
  GetNodeParameterValue (w_net w) tex tokens.file = VtAssetPath authored path ->
  negb (bool_decide (ArGetExtension env path = "")) &&
    negb (bool_decide (ArGetExtension env path = "tex")) = false ->
  _FindGraphAndNodeByName (w_doc w) (SdfPath_GetParentName tex)
    (SdfPath_GetName tex) = mkFound (Some g) (Some n) ->
  doc_graphs (w_doc w) !! g = Some gr ->
  ng_nodes gr !! n = Some node ->
  mx.getInput node tokens.texcoord = Some ti ->
  nd_inputs node !! ti = Some inp ->
  in_nodename inp = None ->
  mx.getNode gr (tex +:+ "__remap") = None ->
  updateTextureNode env tex w =
    (Done tt,
     with_doc w
       (mx.setGraph (w_doc w) g
          (mkGraph (ng_name gr)
             (<[n := mx.setConnectedNode
                       (mx.setInputValue node "file" (MxString path) "filename")
                       ti (Some (tex +:+ "__remap"))]> (ng_nodes gr)
              ++ [remap_node tex None])))).
Proof.
  intros Hty Hfile Hext Hfound Hg Hn Hti Hinp Hnm Hfresh.
  assert (n < length (ng_nodes gr)) as Hlt by (by eapply lookup_lt_Some).
  unfold updateTextureNode.
  rewrite (bind_Done _ _ _ (w_net w) w) by reflexivity.
  rewrite bool_decide_eq_false_2 by done. rewrite Hfile.
  cbn [VtValue_IsEmpty].
  rewrite (bind_Done _ _ _ (w_doc w) w) by reflexivity.
  rewrite Hfound. cbn [mxNode mxNodeGraph]. rewrite Hext.
  erewrite bind_Done.
  2:{ erewrite bind_Done by (by eapply update_node_run). reflexivity. }
  set (node1 := mx.setInputValue node tokens.file (MxString path) tokens.filename).
  assert (mx.getInput node1 tokens.texcoord = Some ti) as Hti1.
  { unfold node1. by rewrite getInput_setInputValue. }
  erewrite bind_Done.
  2:{ eapply read_node_run.
      - rewrite w_doc_with_doc. by eapply setGraph_lookup.
      - by eapply setNode_lookup. }
  rewrite Hti1. cbv iota. rewrite bind_ret.
  erewrite (insert_remap_run tex _ g n (mx.setNode gr n node1) node1 ti None).
  - rewrite with_doc_with_doc, w_doc_with_doc, setGraph_setGraph.
    unfold mx.setNode. cbn [ng_name ng_nodes].
    by rewrite list_insert_insert_eq.
  - rewrite w_doc_with_doc. by eapply setGraph_lookup.
  - by eapply setNode_lookup.
  - done.
  - rewrite (getNode_setNode gr n node); [done|done|].
    apply setInputValue_name.
  - destruct (setInputValue_nodename node tokens.file (MxString path)
                tokens.filename ti inp Hinp) as (inp' & Hinp' & Hnm').
    unfold mx.getConnectedNode. fold node1 in Hinp'.
    by rewrite Hinp', Hnm', Hnm.
Qed.

End Texture.

(** *** Texture nodes: the remap node *)

(** *** Texture nodes: a resolved path without extension *)

(** *** Dependence on the temporary file names *)












Section Blind.
Context (env : Env).
Hypothesis same_names :
  forall n m prefix suffix,
    ArchMakeTmpFileName env n prefix suffix
    = ArchMakeTmpFileName env m prefix suffix.




















End Blind.




(* ===================================================================== *)
(** ** Further properties of the routines *)
(* ===================================================================== *)

(** *** The graph locator: which node is found *)

Lemma find_index_None {A} (p : A -> bool) (l : list A) :
  find_index p l = None <-> forall x, x ∈ l -> p x = false.
Proof.
  induction l as [|y l IH]; simpl.
  - split; [intros _ x Hx; by apply elem_of_nil in Hx|done].
  - destruct (p y) eqn:Hy.
    + split; [done|]. intros H. specialize (H y (list_elem_of_here _ _)).
      congruence.
    + destruct (find_index p l) as [i|]; simpl.
      * split; [done|]. intros H. exfalso.
        assert (@None nat = None) as Hn by done.
        destruct IH as [_ IH]. discriminate IH.
        intros x Hx. apply H. by right.
      * split; [|done]. intros _ x [->|Hx]%elem_of_cons; [done|].
        by apply IH.
Qed.

Lemma getNode_None gr name :
  mx.getNode gr name = None <->
  forall node, node ∈ ng_nodes gr -> nd_name node <> name.
Proof.
  unfold mx.getNode. rewrite find_index_None.
  split; intros H node Hn; specialize (H node Hn).
  - by apply bool_decide_eq_false in H.
  - by apply bool_decide_eq_false.
Qed.

Lemma getNode_Some_name gr name k :
  mx.getNode gr name = Some k ->
  exists node, ng_nodes gr !! k = Some node /\ nd_name node = name.
Proof.
  unfold mx.getNode. intros Hk.
  apply find_index_Some in Hk as (node & Hl & Hname).
  apply bool_decide_eq_true in Hname. eauto.
Qed.

Lemma scan_graphs_None graphs name i :
  scan_graphs graphs name i = None <->
  forall gr, gr ∈ graphs -> mx.getNode gr name = None.
Proof.
  revert i. induction graphs as [|gr graphs IH]; intros i; simpl.
  - split; [intros _ x Hx; by apply elem_of_nil in Hx|done].
  - destruct (mx.getNode gr name) as [k|] eqn:Hk.
    + split; [done|]. intros H. specialize (H gr (list_elem_of_here _ _)).
      congruence.
    + rewrite IH. split.
      * intros H x [->|Hx]%elem_of_cons; [done|by apply H].
      * intros H x Hx. apply H. by right.
Qed.

Lemma scan_graphs_first graphs name i g gr n :
  graphs !! g = Some gr -> mx.getNode gr name = Some n ->
  (forall g' gr', g' < g -> graphs !! g' = Some gr' ->
                  mx.getNode gr' name = None) ->
  scan_graphs graphs name i = Some (i + g, n).
Proof.
  revert i g. induction graphs as [|gr0 graphs IH]; intros i g Hg Hn Hbefore;
    [done|].
  destruct g as [|g]; simpl in *.
  - injection Hg as ->. rewrite Hn. by rewrite Nat.add_0_r.
  - rewrite (Hbefore 0 gr0); [|lia|done].
    rewrite (IH (S i) g Hg Hn).
    + f_equal. f_equal. lia.
    + intros g' gr' Hlt Hg'. apply (Hbefore (S g') gr'); [lia|done].
Qed.

Lemma FindGraphAndNodeByName_fallback mxDoc graphName nodeName :
  named_graph_lacks mxDoc graphName nodeName ->
  _FindGraphAndNodeByName mxDoc graphName nodeName =
  match
    match last (doc_graphs mxDoc) with
    | Some gr =>
        match mx.getNode gr nodeName with
        | Some n => Some (length (doc_graphs mxDoc) - 1, n)
        | None => None
        end
    | None => None
    end
  with
  | Some (g, n) => mkFound (Some g) (Some n)
  | None =>
      match scan_graphs (doc_graphs mxDoc) nodeName 0 with
      | Some (g, n) => mkFound (Some g) (Some n)
      | None => mkFound (mx.getNodeGraph mxDoc graphName) None
      end
  end.
Proof.
  intros Hlacks. unfold _FindGraphAndNodeByName.
  destruct (mx.getNodeGraph mxDoc graphName) as [g0|] eqn:Hg0; [|done].
  destruct (doc_graphs mxDoc !! g0) as [gr0|] eqn:Hgr0; [|done].
  by rewrite (Hlacks g0 gr0 Hg0 Hgr0).
Qed.

Lemma document_holds_None mxDoc nodeName :
  ~ document_holds mxDoc nodeName <->
  forall gr, gr ∈ doc_graphs mxDoc -> mx.getNode gr nodeName = None.
Proof.
  split.
  - intros H gr Hgr. apply getNode_None. intros node Hnode Hname.
    apply H. by exists gr, node.
  - intros H (gr & node & Hgr & Hnode & Hname).
    specialize (H gr Hgr). rewrite getNode_None in H. by apply (H node).
Qed.

Lemma FindGraphAndNodeByName_named mxDoc graphName nodeName g gr n :
  mx.getNodeGraph mxDoc graphName = Some g ->
  doc_graphs mxDoc !! g = Some gr -> mx.getNode gr nodeName = Some n ->
  _FindGraphAndNodeByName mxDoc graphName nodeName = mkFound (Some g) (Some n).
Proof.
  intros Hg Hgr Hn. unfold _FindGraphAndNodeByName. by rewrite Hg, Hgr, Hn.
Qed.

Lemma named_graph_cases mxDoc graphName nodeName :
  (exists g gr n,
     mx.getNodeGraph mxDoc graphName = Some g /\
     doc_graphs mxDoc !! g = Some gr /\ mx.getNode gr nodeName = Some n) \/
  named_graph_lacks mxDoc graphName nodeName.
Proof.
  unfold named_graph_lacks.
  destruct (mx.getNodeGraph mxDoc graphName) as [g0|] eqn:Hg0; [|by right].
  destruct (doc_graphs mxDoc !! g0) as [gr0|] eqn:Hgr0;
    [|right; intros; simplify_eq].
  destruct (mx.getNode gr0 nodeName) as [k|] eqn:Hk.
  - left. by exists g0, gr0, k.
  - right. intros; simplify_eq. done.
Qed.

Lemma last_graph_lookup (graphs : list MxNodeGraph) gr :
  last graphs = Some gr -> graphs !! (length graphs - 1) = Some gr.
Proof.
  rewrite last_lookup.
  by replace (length graphs - 1) with (pred (length graphs)) by lia.
Qed.

Lemma FindGraphAndNodeByName_first mxDoc graphName nodeName n :
  mxNode (_FindGraphAndNodeByName mxDoc graphName nodeName) = Some n ->
  exists g gr node,
    mxNodeGraph (_FindGraphAndNodeByName mxDoc graphName nodeName) = Some g /\
    doc_graphs mxDoc !! g = Some gr /\
    mx.getNode gr nodeName = Some n /\
    ng_nodes gr !! n = Some node /\ nd_name node = nodeName.
Proof.
  assert (forall g gr n,
            doc_graphs mxDoc !! g = Some gr ->
            mx.getNode gr nodeName = Some n ->
            exists g' gr' node,
              Some g = Some g' /\ doc_graphs mxDoc !! g' = Some gr' /\
              mx.getNode gr' nodeName = Some n /\
              ng_nodes gr' !! n = Some node /\ nd_name node = nodeName)
    as Hpack.
  { intros g gr k Hg Hn. destruct (getNode_Some_name _ _ _ Hn) as (node & ? & ?).
    by exists g, gr, node. }
  destruct (named_graph_cases mxDoc graphName nodeName)
    as [(g0 & gr0 & k & Hg0 & Hgr0 & Hk)|Hlacks].
  - rewrite (FindGraphAndNodeByName_named _ _ _ _ _ _ Hg0 Hgr0 Hk). simpl.
    intros [= <-]. by apply (Hpack g0 gr0).
  - rewrite (FindGraphAndNodeByName_fallback _ _ _ Hlacks).
    destruct (last (doc_graphs mxDoc)) as [grl|] eqn:Hlast.
    + destruct (mx.getNode grl nodeName) as [kl|] eqn:Hkl.
      * simpl. intros [= <-].
        apply (Hpack _ grl); [by apply last_graph_lookup|done].
      * destruct (scan_graphs _ _ _) as [[g k']|] eqn:Hscan; [|done].
        simpl. intros [= <-].
        apply scan_graphs_Some in Hscan as (gr & _ & Hgr & Hn).
        rewrite Nat.sub_0_r in Hgr. by apply (Hpack g gr).
    + destruct (scan_graphs _ _ _) as [[g k']|] eqn:Hscan; [|done].
      simpl. intros [= <-].
      apply scan_graphs_Some in Hscan as (gr & _ & Hgr & Hn).
      rewrite Nat.sub_0_r in Hgr. by apply (Hpack g gr).
Qed.

Lemma FindGraphAndNodeByName_missing mxDoc graphName nodeName :
  ~ document_holds mxDoc nodeName ->
  _FindGraphAndNodeByName mxDoc graphName nodeName
    = mkFound (mx.getNodeGraph mxDoc graphName) None.
Proof.
  intros Hnone. rewrite document_holds_None in Hnone.
  rewrite FindGraphAndNodeByName_fallback.
  - assert (scan_graphs (doc_graphs mxDoc) nodeName 0 = None) as ->
      by by apply scan_graphs_None.
    destruct (last (doc_graphs mxDoc)) as [grl|] eqn:Hlast; [|done].
    rewrite (Hnone grl); [done|].
    apply last_graph_lookup in Hlast. by eapply list_elem_of_lookup_2.
  - intros g gr _ Hgr. apply Hnone. by eapply list_elem_of_lookup_2.
Qed.

Lemma FindGraphAndNodeByName_holds mxDoc graphName nodeName :
  document_holds mxDoc nodeName ->
  exists g n,
    _FindGraphAndNodeByName mxDoc graphName nodeName = mkFound (Some g) (Some n).
Proof.
  intros Hholds.
  destruct (_FindGraphAndNodeByName mxDoc graphName nodeName)
    as [og [n|]] eqn:Hres.
  - destruct (FindGraphAndNodeByName_first mxDoc graphName nodeName n)
      as (g & _ & _ & Hg & _); [by rewrite Hres|].
    rewrite Hres in Hg. simpl in Hg. subst og. by exists g, n.
  - exfalso. revert Hholds. apply document_holds_None.
    apply (scan_graphs_None _ _ 0).
    destruct (named_graph_cases mxDoc graphName nodeName)
      as [(g0 & gr0 & k & Hg0 & Hgr0 & Hk)|Hlacks].
    + by rewrite (FindGraphAndNodeByName_named _ _ _ _ _ _ Hg0 Hgr0 Hk) in Hres.
    + rewrite (FindGraphAndNodeByName_fallback _ _ _ Hlacks) in Hres.
      destruct (scan_graphs (doc_graphs mxDoc) nodeName 0) as [[g k]|] eqn:Hscan;
        [|done].
      repeat (case_match; simpl in *; try done); simplify_eq.
Qed.

(** X1: [_FindGraphAndNodeByName] reports a node exactly when some node
    graph of the document holds a node of the requested name, whatever the
    graph name asked for.  A reported node comes with a graph pointer that
    designates a graph of the document, and is the first node of that name
    in this graph. *)
Theorem FindGraphAndNodeByName_finds_iff (mxDoc : MxDocument)
    (graphName nodeName : string) :
  let found := _FindGraphAndNodeByName mxDoc graphName nodeName in
  (is_Some (mxNode found) <-> document_holds mxDoc nodeName) /\
  (forall n, mxNode found = Some n ->
     exists g gr node,
       mxNodeGraph found = Some g /\ doc_graphs mxDoc !! g = Some gr /\
       mx.getNode gr nodeName = Some n /\
       ng_nodes gr !! n = Some node /\ nd_name node = nodeName).
Proof.
  cbv zeta. split; [|apply FindGraphAndNodeByName_first].
  split.
  - intros [n Hn].
    destruct (FindGraphAndNodeByName_first _ _ _ _ Hn)
      as (g & gr & node & _ & Hg & _ & Hk & Hname).
    exists gr, node. split; [by eapply list_elem_of_lookup_2|].
    split; [by eapply list_elem_of_lookup_2|done].
  - intros Hholds.
    destruct (FindGraphAndNodeByName_holds _ graphName _ Hholds)
      as (g & n & ->).
    by eexists.
Qed.

Lemma FindGraphAndNodeByName_finds_iff_witness :
  is_Some (mxNode (_FindGraphAndNodeByName shared_doc "Elsewhere" "Tex")) /\
  exists g gr node,
    mxNodeGraph (_FindGraphAndNodeByName shared_doc "Elsewhere" "Tex") = Some g /\
    doc_graphs shared_doc !! g = Some gr /\
    mx.getNode gr "Tex" = Some 1 /\
    ng_nodes gr !! 1 = Some node /\ nd_name node = "Tex".
Proof.
  destruct (FindGraphAndNodeByName_finds_iff shared_doc "Elsewhere" "Tex")
    as [Hiff Hsound].
  split.
  - apply Hiff.
    exists (mkGraph "NG"
              [ mkMxNode "Mul" "multiply" "color3" None
                  [mkInput "in1" "color3" None (Some "Tex")];
                mkMxNode "Tex" "image" "color3" None [] ]),
           (mkMxNode "Tex" "image" "color3" None []).
    split; [apply list_elem_of_here|].
    split; [|reflexivity]. right. apply list_elem_of_here.
  - apply Hsound. reflexivity.
Defined.

(** X2: the order in which [_FindGraphAndNodeByName] looks.  The graph of
    the requested name wins when it holds the node; otherwise the last
    graph of the document is tried before the others, so that it wins over
    an earlier graph holding a node of the same name; otherwise the first
    graph in document order that holds the node is taken.  When no graph
    holds the node, the graph pointer is that of the requested name, null
    when there is no such graph. *)
Theorem FindGraphAndNodeByName_order (mxDoc : MxDocument)
    (graphName nodeName : string) :
  (forall g gr n,
     mx.getNodeGraph mxDoc graphName = Some g ->
     doc_graphs mxDoc !! g = Some gr -> mx.getNode gr nodeName = Some n ->
     _FindGraphAndNodeByName mxDoc graphName nodeName
       = mkFound (Some g) (Some n)) /\
  (named_graph_lacks mxDoc graphName nodeName ->
   (forall gr n,
      last (doc_graphs mxDoc) = Some gr -> mx.getNode gr nodeName = Some n ->
      _FindGraphAndNodeByName mxDoc graphName nodeName
        = mkFound (Some (length (doc_graphs mxDoc) - 1)) (Some n)) /\
   (forall grl g gr n,
      last (doc_graphs mxDoc) = Some grl -> mx.getNode grl nodeName = None ->
      doc_graphs mxDoc !! g = Some gr -> mx.getNode gr nodeName = Some n ->
      (forall g' gr', g' < g -> doc_graphs mxDoc !! g' = Some gr' ->
                      mx.getNode gr' nodeName = None) ->
      _FindGraphAndNodeByName mxDoc graphName nodeName
        = mkFound (Some g) (Some n)) /\
   (~ document_holds mxDoc nodeName ->
    _FindGraphAndNodeByName mxDoc graphName nodeName
      = mkFound (mx.getNodeGraph mxDoc graphName) None)).
Proof.
  split; [apply FindGraphAndNodeByName_named|].
  intros Hlacks. rewrite (FindGraphAndNodeByName_fallback _ _ _ Hlacks).
  split; [|split].
  - intros gr n -> ->. done.
  - intros grl g gr n -> -> Hg Hn Hfirst.
    by rewrite (scan_graphs_first _ _ 0 g gr n Hg Hn Hfirst).
  - intros Hnone.
    rewrite <- (FindGraphAndNodeByName_fallback _ _ _ Hlacks).
    by apply FindGraphAndNodeByName_missing.
Qed.

Lemma FindGraphAndNodeByName_order_witness :
  _FindGraphAndNodeByName two_graph_doc "NG" "Tex" = mkFound (Some 0) (Some 0) /\
  _FindGraphAndNodeByName two_graph_doc "NG2" "Tex" = mkFound (Some 1) (Some 1) /\
  _FindGraphAndNodeByName two_graph_doc "NG1" "Gone" = mkFound (Some 1) None.
Proof.
  split; [|split].
  - destruct (FindGraphAndNodeByName_order two_graph_doc "NG" "Tex")
      as [Hnamed _].
    apply (Hnamed 0 (mkGraph "NG" [mkMxNode "Tex" "image" "color3" None []]) 0);
      reflexivity.
  - destruct (FindGraphAndNodeByName_order two_graph_doc "NG2" "Tex")
      as [_ Hrest].
    destruct Hrest as [Hlast _]; [intros g gr Hg; discriminate Hg|].
    apply (Hlast (mkGraph "NG1"
                    [ mkMxNode "Mul" "multiply" "color3" None [];
                      mkMxNode "Tex" "tiledimage" "color3" None [] ]) 1);
      reflexivity.
  - destruct (FindGraphAndNodeByName_order two_graph_doc "NG1" "Gone")
      as [_ Hrest].
    destruct Hrest as (_ & _ & Hnone).
    + intros g gr Hg Hgr. injection Hg as <-. injection Hgr as <-. reflexivity.
    + apply Hnone. intros (gr & node & Hgr & Hnode & Hname).
      apply elem_of_cons in Hgr as [->|Hgr].
      * apply elem_of_cons in Hnode as [->|Hnode]; [discriminate Hname|].
        by apply elem_of_nil in Hnode.
      * apply elem_of_cons in Hgr as [->|Hgr]; [|by apply elem_of_nil in Hgr].
        apply elem_of_cons in Hnode as [->|Hnode]; [discriminate Hname|].
        apply elem_of_cons in Hnode as [->|Hnode]; [discriminate Hname|].
        by apply elem_of_nil in Hnode.
Defined.

(** *** The generator wrapper *)

Section Generate.
Context (env : Env).

(** X3: the diagnostics of [_GenMaterialXShaderCode].  When no node graph
    of the document holds the node, the result is the empty string with
    one diagnostic: the missing node graph is reported when no graph has
    the requested name, the missing node otherwise.  When a graph holds
    the node, the generator runs on the located node: its source code is
    returned with no diagnostic, and a null shader gives the empty string
    with one diagnostic.  Nothing but the diagnostics changes. *)
Theorem GenMaterialXShaderCode_diagnostics (searchPath : list string)
    (shaderName mxNodeName mxNodeGraphName : string) (w : World) :
  (~ document_holds (w_doc w) mxNodeName ->
   _GenMaterialXShaderCode env searchPath shaderName mxNodeName
                           mxNodeGraphName w =
   (Done "",
    with_warnings w
      [match mx.getNodeGraph (w_doc w) mxNodeGraphName with
       | None => "NodeGraph '" +:+ mxNodeGraphName +:+ "' not found in the mxDoc."
       | Some _ => "Node '" +:+ mxNodeName +:+ "' not found in '" +:+
                   mxNodeGraphName +:+ "' nodeGraph."
       end])) /\
  (document_holds (w_doc w) mxNodeName ->
   exists g n,
     _FindGraphAndNodeByName (w_doc w) mxNodeGraphName mxNodeName
       = mkFound (Some g) (Some n) /\
     _GenMaterialXShaderCode env searchPath shaderName mxNodeName
                             mxNodeGraphName w =
     match mx_createShader env shaderName (w_doc w) g n with
     | Some sourceCode => (Done sourceCode, w)
     | None =>
         (Done "",
          with_warnings w
            ["Unable to create Shader for node '" +:+ mxNodeName +:+ "'."])
     end).
Proof.
  split.
  - intros Hnone. unfold _GenMaterialXShaderCode, bind, get_doc.
    rewrite (FindGraphAndNodeByName_missing _ mxNodeGraphName _ Hnone).
    simpl. by destruct (mx.getNodeGraph (w_doc w) mxNodeGraphName).
  - intros Hholds.
    destruct (FindGraphAndNodeByName_holds _ mxNodeGraphName _ Hholds)
      as (g & n & Hfound).
    exists g, n. split; [done|].
    unfold _GenMaterialXShaderCode, bind, get_doc. rewrite Hfound. simpl.
    by destruct (mx_createShader env shaderName (w_doc w) g n).
Qed.

End Generate.

Lemma GenMaterialXShaderCode_diagnostics_witness :
  _GenMaterialXShaderCode nogen_env ["/mtlx"] "GoneShader" "Gone" "NG"
     (world_of twice_net twice_doc demo_registry) =
  (Done "",
   with_warnings (world_of twice_net twice_doc demo_registry)
     ["Node 'Gone' not found in 'NG' nodeGraph."]) /\
  _GenMaterialXShaderCode nogen_env ["/mtlx"] "TexShader" "Tex" "Other"
     (world_of twice_net twice_doc demo_registry) =
  (Done "",
   with_warnings (world_of twice_net twice_doc demo_registry)
     ["Unable to create Shader for node 'Tex'."]).
Proof.
  split.
  - destruct (GenMaterialXShaderCode_diagnostics nogen_env ["/mtlx"]
                "GoneShader" "Gone" "NG"
                (world_of twice_net twice_doc demo_registry)) as [Hnone _].
    apply Hnone. intros (gr & node & Hgr & Hnode & Hname).
    apply elem_of_cons in Hgr as [->|Hgr]; [|by apply elem_of_nil in Hgr].
    apply elem_of_cons in Hnode as [->|Hnode]; [discriminate Hname|].
    by apply elem_of_nil in Hnode.
  - destruct (GenMaterialXShaderCode_diagnostics nogen_env ["/mtlx"]
                "TexShader" "Tex" "Other"
                (world_of twice_net twice_doc demo_registry)) as [_ Hholds].
    destruct Hholds as (g & n & Hfound & Hrun).
    + exists (mkGraph "NG" [mkMxNode "Tex" "image" "color3" None []]),
             (mkMxNode "Tex" "image" "color3" None []).
      split; [apply list_elem_of_here|]. split; [apply list_elem_of_here|done].
    + exact Hrun.
Defined.

(** *** The upstream traversal: what it gathers *)

Lemma fold_opt_rel {A S} (I : S -> Prop) (R : S -> S -> Prop)
    (Q : A -> S -> Prop) (l : list A) (body : S -> A -> option S) (s r : S) :
  Reflexive R -> Transitive R ->
  (forall s s', I s -> R s s' -> I s') ->
  (forall x s s', Q x s -> R s s' -> Q x s') ->
  (forall s x s', x ∈ l -> I s -> body s x = Some s' -> R s s' /\ Q x s') ->
  I s -> fold_opt l body s = Some r -> R s r /\ forall x, x ∈ l -> Q x r.
Proof.
  intros Hrefl Htrans HI Hmono Hbody. revert s.
  induction l as [|x l IH]; intros s Hs; simpl.
  - intros [= <-]. split; [reflexivity|]. intros x Hx.
    by apply elem_of_nil in Hx.
  - destruct (body s x) as [s1|] eqn:Hs1; [|done]. intros Hr.
    destruct (Hbody s x s1 (list_elem_of_here _ _) Hs Hs1) as [HR1 HQ1].
    destruct IH with (s := s1) as [HR HQ].
    + intros s2 y s3 Hy. apply Hbody. by right.
    + by apply (HI s).
    + done.
    + split; [by etrans|].
      intros y [->|Hy]%elem_of_cons; [by apply (Hmono _ s1)|by apply HQ].
Qed.

Lemma gather_rel_refl net h V0 : Reflexive (gather_rel net h V0 false).
Proof.
  intros acc. exists ∅. split; [set_solver|]. split; [set_solver|].
  split; [set_solver|]. split; [set_solver|]. split.
  { intros m b [Hm|[? _]]; [set_solver|done]. }
  exists []. split; [by rewrite app_nil_r|]. split.
  - intros msg Hmsg. by apply elem_of_nil in Hmsg.
  - intros m b [Hm|[? _]]; [set_solver|done].
Qed.

Lemma gather_rel_trans net h V0 : Transitive (gather_rel net h V0 false).
Proof.
  intros a b c (N1 & Hv1 & Hu1 & Hd1 & Hr1 & Hc1 & ws1 & Hw1 & Hm1 & Hg1)
               (N2 & Hv2 & Hu2 & Hd2 & Hr2 & Hc2 & ws2 & Hw2 & Hm2 & Hg2).
  exists (N1 ∪ N2).
  split; [rewrite Hv2, Hv1; set_solver|].
  split; [rewrite Hu2, Hu1; set_solver|].
  split; [rewrite Hv1 in Hd2; set_solver|].
  split.
  { intros n [Hn|Hn]%elem_of_union; [by apply Hr1|by apply Hr2]. }
  split.
  { intros m x [[Hm|Hm]%elem_of_union|[? _]] Hread Hhas; [| |done].
    - rewrite Hv2. apply elem_of_union_l. by apply (Hc1 m x); [left|..].
    - by apply (Hc2 m x); [left|..]. }
  exists (ws1 ++ ws2)%list.
  split; [by rewrite Hw2, Hw1, app_assoc|]. split.
  - intros msg [Hmsg|Hmsg]%elem_of_app.
    + destruct (Hm1 msg Hmsg) as (x & y & Hx & ?). exists x, y.
      split; [|done]. set_solver.
    + destruct (Hm2 msg Hmsg) as (x & y & Hx & ?). exists x, y.
      split; [|done]. set_solver.
  - intros m x [[Hm|Hm]%elem_of_union|[? _]] Hread Hhas; [| |done].
    + apply elem_of_app. left. by apply (Hg1 m x); [left|..].
    + apply elem_of_app. right. by apply (Hg2 m x); [left|..].
Qed.

Lemma reads_fresh_mono net (V V' : gset string) a b :
  V ⊆ V' -> reads_fresh net V' a b -> reads_fresh net V a b.
Proof. intros Hsub (Hr & Hh & Hn). split; [done|]. split; [done|]. set_solver. Qed.

Lemma reads_names net h cName c :
  c ∈ GetNodeInputConnection net h cName ->
  cName ∈ GetNodeInputConnectionNames net h.
Proof.
  unfold GetNodeInputConnection, GetNodeInputConnectionNames.
  destruct (nodes net !! h) as [n|]; [|by intros ?%elem_of_nil].
  destruct (inputConnections n !! cName) as [l|] eqn:Hl;
    [|by intros ?%elem_of_nil].
  intros _. apply elem_of_sorted_keys. eauto.
Qed.

Lemma connection_done_mono net h V0 acc0 c s s' :
  connection_done net acc0 c s -> gather_rel net h V0 false s s' ->
  connection_done net acc0 c s'.
Proof.
  intros [Hvis Hwarn] (N & Hv & _ & _ & _ & _ & ws & Hw & _).
  split.
  - intros Hhas. rewrite Hv. apply elem_of_union_l. by apply Hvis.
  - intros Hhas. destruct (Hwarn Hhas) as (ws0 & Hws0 & Hin).
    exists (ws0 ++ ws)%list. split; [by rewrite Hw, Hws0, app_assoc|].
    apply elem_of_app. by left.
Qed.

Lemma gather_state_step net h V0 acc0 s s' :
  gather_state V0 acc0 s -> gather_rel net h V0 false s s' ->
  gather_state V0 acc0 s'.
Proof.
  intros [Hsub (ws0 & Hws0)] (N & Hv & _ & _ & _ & _ & ws & Hw & _).
  split; [rewrite Hv; set_solver|].
  exists (ws0 ++ ws)%list. by rewrite Hw, Hws0, app_assoc.
Qed.

Lemma gatherNodeGraphNodes_spec net fuel : forall h acc r V0,
  V0 ⊆ visitedNodeNames acc ->
  gatherNodeGraphNodes fuel net h acc = Some r ->
  gather_rel net h V0 true acc r.
Proof.
  induction fuel as [|fuel IH]; intros h acc r V0 HV0; [done|]. simpl.
  intros Hrun.
  apply (fold_opt_rel (gather_state V0 acc) (gather_rel net h V0 false)
           (fun cName s =>
              forall c, c ∈ GetNodeInputConnection net h cName ->
                        connection_done net acc c s)) in Hrun.
  - destruct Hrun as [(N & Hv & Hu & Hd & Hr & Hc & ws & Hw & Hm & Hg) Hall].
    exists N. do 4 (split; [done|]). split.
    { intros m b [Hm'|[_ ->]] Hread Hhas; [by apply (Hc m b); [left|..]|].
      destruct Hread as (cName & c & Hin & <-).
      by apply (Hall cName (reads_names _ _ _ _ Hin) c Hin). }
    exists ws. split; [done|]. split; [done|].
    intros m b [Hm'|[_ ->]] Hread Hhas; [by apply (Hg m b); [left|..]|].
    destruct Hread as (cName & c & Hin & <-).
    destruct (Hall cName (reads_names _ _ _ _ Hin) c Hin) as [_ Hwarn].
    destruct (Hwarn Hhas) as (ws' & Hws' & Hin').
    rewrite Hw in Hws'. apply app_inv_head in Hws'. by subst ws'.
  - apply gather_rel_refl.
  - apply gather_rel_trans.
  - intros s s'. apply gather_state_step.
  - intros cName s s' Hdone Hrel c Hc.
    apply (connection_done_mono net h V0 acc c s); [by apply Hdone|done].
  - intros s cName s' HcName Hs Hinner.
    apply (fold_opt_rel (gather_state V0 acc) (gather_rel net h V0 false)
             (connection_done net acc)) in Hinner.
    + done.
    + apply gather_rel_refl.
    + apply gather_rel_trans.
    + intros s1 s2. apply gather_state_step.
    + intros c s1 s2. apply connection_done_mono.
    + clear s s' Hs Hinner. intros s c s' Hc [Hsub (ws0 & Hws0)].
      assert (reads net h (upstreamNodeName c)) as Hread
        by by exists cName, c.
      destruct (_HasNode net (upstreamNodeName c)) eqn:Hhas; simpl.
      * case_bool_decide as Hvis.
        -- intros [= <-]. split; [apply gather_rel_refl|].
           split; [done|]. intros ?; congruence.
        -- destruct (gatherNodeGraphNodes fuel net (upstreamNodeName c) _)
             as [acc2|] eqn:Hrec; [|done].
           intros [= <-].
           apply (IH _ _ _ V0) in Hrec; [|simpl; set_solver].
           destruct Hrec
             as (N & Hv & Hu & Hd & Hr & Hcl & ws & Hw & Hm & Hg).
           simpl in Hv, Hu, Hd, Hw.
           assert (reads_fresh net V0 h (upstreamNodeName c)) as Hedge.
           { split; [done|]. split; [done|]. set_solver. }
           split.
           ++ exists ({[upstreamNodeName c]} ∪ N). simpl.
              split; [rewrite Hv; set_solver|].
              split; [rewrite Hu; set_solver|].
              split; [set_solver|].
              split.
              { intros n [->%elem_of_singleton|Hn]%elem_of_union.
                - by apply tc_once.
                - eapply tc_l; [exact Hedge|]. by apply Hr. }
              split.
              { intros m b [[->%elem_of_singleton|Hn]%elem_of_union|[? _]];
                  [| |done]; intros Hrd Hb.
                - by apply (Hcl (upstreamNodeName c) b); [right|..].
                - by apply (Hcl m b); [left|..]. }
              exists ws. split; [done|]. split.
              { intros msg Hmsg. destruct (Hm msg Hmsg) as (a & b & Ha & ?).
                exists a, b. split; [|done]. right. set_solver. }
              intros m b [[->%elem_of_singleton|Hn]%elem_of_union|[? _]];
                [| |done]; intros Hrd Hb.
              ** by apply (Hg (upstreamNodeName c) b); [right|..].
              ** by apply (Hg m b); [left|..].
           ++ split; [|intros ?; congruence]. intros _. simpl.
              rewrite Hv. set_solver.
      * intros [= <-]. split.
        -- exists ∅. simpl. split; [set_solver|]. split; [set_solver|].
           split; [set_solver|]. split; [set_solver|]. split.
           { intros m b [Hm|[? _]]; [set_solver|done]. }
           exists [unknown_node_message (upstreamNodeName c)].
           split; [done|]. split.
           ++ intros msg ->%list_elem_of_singleton.
              exists h, (upstreamNodeName c). by split; [left|].
           ++ intros m b [Hm|[? _]]; [set_solver|done].
        -- split; [intros ?; congruence|]. intros _. simpl.
           exists (ws0 ++ [unknown_node_message (upstreamNodeName c)])%list.
           split; [by rewrite Hws0, app_assoc|].
           apply elem_of_app. right. apply list_elem_of_here.
    + done.
  - split; [done|]. exists []. by rewrite app_nil_r.
Qed.

Lemma gather_rel_complete net h V0 acc r :
  V0 = visitedNodeNames acc ->
  gather_rel net h V0 true acc r ->
  exists (N : gset string) ws,
    visitedNodeNames r = visitedNodeNames acc ∪ N /\
    upstreamNodeNames r = upstreamNodeNames acc ∪ N /\
    gatherWarnings r = (gatherWarnings acc ++ ws)%list /\
    N ## visitedNodeNames acc /\
    (forall n, n ∈ N <-> tc (reads_fresh net V0) h n) /\
    (forall msg, msg ∈ ws <->
       exists a b, (a = h \/ tc (reads_fresh net V0) h a) /\ reads net a b /\
                   _HasNode net b = false /\ msg = unknown_node_message b).
Proof.
  intros -> (N & Hv & Hu & Hd & Hr & Hc & ws & Hw & Hm & Hg).
  assert (forall a n, a = h \/ a ∈ N ->
            tc (reads_fresh net (visitedNodeNames acc)) a n -> n ∈ N)
    as Hclosed.
  { intros a n Ha Htc. induction Htc as [a n Hedge|a b n Hedge Htc IH].
    - destruct Hedge as (Hread & Hhas & Hfresh).
      assert (n ∈ visitedNodeNames r) as Hin.
      { apply (Hc a n); [|done..]. destruct Ha as [->|Ha]; [by right|by left]. }
      rewrite Hv in Hin. set_solver.
    - apply IH. right.
      destruct Hedge as (Hread & Hhas & Hfresh).
      assert (b ∈ visitedNodeNames r) as Hin.
      { apply (Hc a b); [|done..]. destruct Ha as [->|Ha]; [by right|by left]. }
      rewrite Hv in Hin. set_solver. }
  exists N, ws. do 4 (split; [done|]). split.
  - intros n. split; [apply Hr|]. apply Hclosed. by left.
  - intros msg. split.
    + intros Hmsg. destruct (Hm msg Hmsg) as (a & b & Ha & ?).
      exists a, b. split; [|done]. destruct Ha as [->|Ha]; [by left|].
      right. by apply Hr.
    + intros (a & b & Ha & Hread & Hhas & ->).
      apply (Hg a b); [|done..].
      destruct Ha as [->|Ha]; [by right|]. left. by apply (Hclosed h); [left|].
Qed.

(** The run of [_GatherNodeGraphNodes] in full. *)
Lemma GatherNodeGraphNodes_spec hdNodeName upstream visited w :
  exists (N : gset string) (msgs : list string),
    _GatherNodeGraphNodes hdNodeName upstream visited w =
      (Done (upstream ∪ N, visited ∪ N), with_warnings w msgs) /\
    N ## visited /\
    (forall n, n ∈ N <->
               tc (reads_fresh (w_net w) visited) hdNodeName n) /\
    (forall msg, msg ∈ msgs <->
       exists a b,
         (a = hdNodeName \/ tc (reads_fresh (w_net w) visited) hdNodeName a) /\
         reads (w_net w) a b /\ _HasNode (w_net w) b = false /\
         msg = unknown_node_message b).
Proof.
  destruct (GatherNodeGraphNodes_runs hdNodeName upstream visited w)
    as (r & Hr & _ & Hrun).
  apply (gatherNodeGraphNodes_spec _ _ _ _ _ visited) in Hr; [|done].
  apply gather_rel_complete in Hr; [|done].
  destruct Hr as (N & ws & Hv & Hu & Hw & Hd & HN & Hmsgs).
  simpl in *. exists N, ws. rewrite Hrun, Hv, Hu, Hw. done.
Qed.

(** X4: [_GatherNodeGraphNodes] returns on every network, cyclic ones
    included, and changes nothing but the diagnostics.  It adds the same
    set of nodes to both of its sets: the nodes of the network that can be
    reached from the start node along input connections through nodes of
    the network that were not marked as visited before the call. *)
Theorem GatherNodeGraphNodes_reachable (hdNodeName : string)
    (upstream visited : gset string) (w : World) :
  exists (N : gset string) (msgs : list string),
    _GatherNodeGraphNodes hdNodeName upstream visited w =
      (Done (upstream ∪ N, visited ∪ N), with_warnings w msgs) /\
    N ## visited /\
    (forall n, n ∈ N <->
               tc (reads_fresh (w_net w) visited) hdNodeName n).
Proof.
  destruct (GatherNodeGraphNodes_spec hdNodeName upstream visited w)
    as (N & msgs & Hrun & Hd & HN & _).
  by exists N, msgs.
Qed.

(** X5: the diagnostics of [_GatherNodeGraphNodes] are the "Unknown
    material node" messages for the connections that lead from the start
    node, or from a node gathered by the call, to a node the network
    lacks; a network in which every connection of those nodes leads to a
    node of the network gives none. *)
Theorem GatherNodeGraphNodes_diagnostics (hdNodeName : string)
    (upstream visited : gset string) (w : World) :
  exists (U V : gset string) (msgs : list string),
    _GatherNodeGraphNodes hdNodeName upstream visited w =
      (Done (U, V), with_warnings w msgs) /\
    (forall msg, msg ∈ msgs <->
       exists a b,
         (a = hdNodeName \/ a ∈ V ∖ visited) /\
         reads (w_net w) a b /\ _HasNode (w_net w) b = false /\
         msg = "Unknown material node '" +:+ b +:+ "'") /\
    ((forall a b, a = hdNodeName \/ a ∈ V ∖ visited ->
                  reads (w_net w) a b -> _HasNode (w_net w) b = true) ->
     msgs = []).
Proof.
  destruct (GatherNodeGraphNodes_spec hdNodeName upstream visited w)
    as (N & msgs & Hrun & Hd & HN & Hmsgs).
  exists (upstream ∪ N), (visited ∪ N), msgs. split; [done|].
  assert (forall a, a ∈ (visited ∪ N) ∖ visited <->
                    tc (reads_fresh (w_net w) visited) hdNodeName a) as Hnew.
  { intros a. rewrite <- HN. set_solver. }
  assert (forall msg, msg ∈ msgs <->
            exists a b,
              (a = hdNodeName \/ a ∈ (visited ∪ N) ∖ visited) /\
              reads (w_net w) a b /\ _HasNode (w_net w) b = false /\
              msg = "Unknown material node '" +:+ b +:+ "'") as Hchar.
  { intros msg. rewrite Hmsgs. split.
    - intros (a & b & Ha & Hrest). exists a, b. split; [|done].
      destruct Ha as [->|Ha]; [by left|]. right. by apply Hnew.
    - intros (a & b & Ha & Hrest). exists a, b. split; [|done].
      destruct Ha as [->|Ha]; [by left|]. right. by apply Hnew. }
  split; [done|].
  intros Hclosed. destruct msgs as [|msg msgs]; [done|]. exfalso.
  destruct (proj1 (Hchar msg) (list_elem_of_here _ _))
    as (a & b & Ha & Hread & Hhas & _).
  rewrite (Hclosed a b Ha Hread) in Hhas. done.
Qed.

(** The traversal on a cyclic network, started from [/Mat/NG/A]. *)
Example cyclic_net_gather_run :
  _GatherNodeGraphNodes "/Mat/NG/A" ∅ {["/Mat/NG/A"]}
     (world_of cyclic_net empty_doc demo_registry) =
  (Done ({["/Mat/NG/B"]}, {["/Mat/NG/A"; "/Mat/NG/B"]}),
   with_warnings (world_of cyclic_net empty_doc demo_registry)
     ["Unknown material node '/Mat/NG/Gone'"]).
Proof. vm_compute. reflexivity. Qed.

(** *** Stripping a node *)

Lemma fold_delete_lookup {A} (l : list string) : forall (m : gmap string A) k,
  foldl (fun m k => delete k m) m l !! k
  = if bool_decide (k ∈ l) then None else m !! k.
Proof.
  induction l as [|x l IH]; intros m k; cbn [foldl].
  - case_bool_decide as Hk; [by apply elem_of_nil in Hk|done].
  - rewrite IH. case_bool_decide as Hk.
    + by rewrite bool_decide_eq_true_2 by by right.
    + destruct (decide (k = x)) as [->|Hne].
      * rewrite bool_decide_eq_true_2 by apply list_elem_of_here.
        apply lookup_delete_eq.
      * rewrite bool_decide_eq_false_2
          by (intros [?|?]%elem_of_cons; done).
        by apply lookup_delete_ne.
Qed.

Lemma fold_delete_all {A} (m : gmap string A) :
  foldl (fun m k => delete k m) m (sorted_keys m) = ∅.
Proof.
  apply map_eq. intros k. rewrite fold_delete_lookup, lookup_empty.
  case_bool_decide as Hk; [done|].
  rewrite elem_of_sorted_keys in Hk.
  destruct (m !! k) eqn:Hm; [|done]. exfalso. apply Hk. eauto.
Qed.

Lemma putNode_putNode net k a b :
  putNode (putNode net k a) k b = putNode net k b.
Proof. unfold putNode. simpl. by rewrite insert_insert_eq. Qed.

Lemma putNode_id net k n :
  nodes net !! k = Some n -> putNode net k n = net.
Proof.
  intros H. destruct net as [ns ts p]. unfold putNode. simpl in *.
  by rewrite insert_id.
Qed.

Lemma fold_DeleteNodeInputConnection nodeName n l : forall net,
  nodes net !! nodeName = Some n ->
  foldl (fun net cName => DeleteNodeInputConnection net nodeName cName) net l
  = putNode net nodeName
      (mkNode (nodeTypeId n) (parameters n)
              (foldl (fun m k => delete k m) (inputConnections n) l)).
Proof.
  revert n. induction l as [|x l IH]; intros n net Hn; simpl.
  - symmetry. destruct n. by apply putNode_id.
  - rewrite (IH (mkNode (nodeTypeId n) (parameters n)
                        (delete x (inputConnections n)))).
    + unfold DeleteNodeInputConnection. rewrite Hn. simpl.
      by rewrite putNode_putNode.
    + unfold DeleteNodeInputConnection. rewrite Hn. simpl.
      apply lookup_insert_eq.
Qed.

Lemma fold_DeleteNodeParameter nodeName n l : forall net,
  nodes net !! nodeName = Some n ->
  foldl (fun net pName => DeleteNodeParameter net nodeName pName) net l
  = putNode net nodeName
      (mkNode (nodeTypeId n)
              (foldl (fun m k => delete k m) (parameters n) l)
              (inputConnections n)).
Proof.
  revert n. induction l as [|x l IH]; intros n net Hn; simpl.
  - symmetry. destruct n. by apply putNode_id.
  - rewrite (IH (mkNode (nodeTypeId n) (delete x (parameters n))
                        (inputConnections n))).
    + unfold DeleteNodeParameter. rewrite Hn. simpl.
      by rewrite putNode_putNode.
    + unfold DeleteNodeParameter. rewrite Hn. simpl.
      apply lookup_insert_eq.
Qed.

(** The network after [_DeleteAllInputConnections] and after
    [_DeleteAllParameters]. *)
Lemma DeleteAllInputConnections_run nodeName w :
  _DeleteAllInputConnections nodeName w =
  (Done tt,
   with_net w
     match nodes (w_net w) !! nodeName with
     | Some n =>
         putNode (w_net w) nodeName (mkNode (nodeTypeId n) (parameters n) ∅)
     | None => w_net w
     end).
Proof.
  unfold _DeleteAllInputConnections, bind, get_net. cbv beta iota.
  rewrite (for_each_net
             (fun net cName => DeleteNodeInputConnection net nodeName cName))
    by done.
  unfold GetNodeInputConnectionNames.
  destruct (nodes (w_net w) !! nodeName) as [n|] eqn:Hn; [|done].
  by rewrite (fold_DeleteNodeInputConnection _ n), fold_delete_all.
Qed.

Lemma DeleteAllParameters_run nodeName w :
  _DeleteAllParameters nodeName w =
  (Done tt,
   with_net w
     match nodes (w_net w) !! nodeName with
     | Some n =>
         putNode (w_net w) nodeName
                 (mkNode (nodeTypeId n) ∅ (inputConnections n))
     | None => w_net w
     end).
Proof.
  unfold _DeleteAllParameters, bind, get_net. cbv beta iota.
  rewrite (for_each_net
             (fun net pName => DeleteNodeParameter net nodeName pName))
    by done.
  unfold GetAuthoredNodeParameterNames.
  destruct (nodes (w_net w) !! nodeName) as [n|] eqn:Hn; [|done].
  by rewrite (fold_DeleteNodeParameter _ n), fold_delete_all.
Qed.

(** X6: [_DeleteAllInputConnections] leaves the node with no input
    connection and [_DeleteAllParameters] with no authored parameter; each
    keeps the type of the node and what the other one removes, touches no
    other node and no terminal, and does nothing, creating no node, when
    the network has no node of that name. *)
Theorem DeleteAll_strips_node (nodeName : string) (w : World) :
  (exists net',
     _DeleteAllInputConnections nodeName w = (Done tt, with_net w net') /\
     GetNodeInputConnectionNames net' nodeName = [] /\
     GetNodeType net' nodeName = GetNodeType (w_net w) nodeName /\
     GetAuthoredNodeParameterNames net' nodeName
       = GetAuthoredNodeParameterNames (w_net w) nodeName /\
     (forall p, GetNodeParameterValue net' nodeName p
                = GetNodeParameterValue (w_net w) nodeName p) /\
     (forall k, k <> nodeName -> nodes net' !! k = nodes (w_net w) !! k) /\
     dom (nodes net') = dom (nodes (w_net w)) /\
     terminals net' = terminals (w_net w)) /\
  (exists net',
     _DeleteAllParameters nodeName w = (Done tt, with_net w net') /\
     GetAuthoredNodeParameterNames net' nodeName = [] /\
     GetNodeType net' nodeName = GetNodeType (w_net w) nodeName /\
     GetNodeInputConnectionNames net' nodeName
       = GetNodeInputConnectionNames (w_net w) nodeName /\
     (forall c, GetNodeInputConnection net' nodeName c
                = GetNodeInputConnection (w_net w) nodeName c) /\
     (forall k, k <> nodeName -> nodes net' !! k = nodes (w_net w) !! k) /\
     dom (nodes net') = dom (nodes (w_net w)) /\
     terminals net' = terminals (w_net w)).
Proof.
  split.
  - eexists. split; [apply DeleteAllInputConnections_run|].
    unfold GetNodeInputConnectionNames, GetNodeType,
      GetAuthoredNodeParameterNames, GetNodeParameterValue.
    destruct (nodes (w_net w) !! nodeName) as [n|] eqn:Hn.
    + simpl. rewrite lookup_insert_eq. simpl.
      split; [apply sorted_keys_empty|]. do 3 (split; [done|]).
      split; [intros k Hk; by apply lookup_insert_ne|].
      split; [|done]. apply dom_insert_lookup_L. eauto.
    + rewrite Hn. done.
  - eexists. split; [apply DeleteAllParameters_run|].
    unfold GetNodeInputConnectionNames, GetNodeType,
      GetAuthoredNodeParameterNames, GetNodeInputConnection.
    destruct (nodes (w_net w) !! nodeName) as [n|] eqn:Hn.
    + simpl. rewrite lookup_insert_eq. simpl.
      split; [apply sorted_keys_empty|]. do 3 (split; [done|]).
      split; [intros k Hk; by apply lookup_insert_ne|].
      split; [|done]. apply dom_insert_lookup_L. eauto.
    + rewrite Hn. done.
Qed.

(** *** Rewriting one upstream node *)

Section RewriteOne.
Context (env : Env).

Lemma GenMaterialXShaderCode_run searchPath shaderName mxNodeName
    mxNodeGraphName w g n sourceCode :
  _FindGraphAndNodeByName (w_doc w) mxNodeGraphName mxNodeName
    = mkFound (Some g) (Some n) ->
  mx_createShader env shaderName (w_doc w) g n = Some sourceCode ->
  _GenMaterialXShaderCode env searchPath shaderName mxNodeName
                          mxNodeGraphName w = (Done sourceCode, w).
Proof.
  intros Hfound Hsrc. unfold _GenMaterialXShaderCode, bind, get_doc.
  rewrite Hfound. simpl. by rewrite Hsrc.
Qed.

Lemma CompileOslSource_run name oslSource searchPaths w :
  PXR_OSL_SUPPORT_ENABLED env = true ->
  fopen_succeeds env
    (ArchMakeTmpFileName env (w_tmpCalls w) ("MX." +:+ name) ".oso") = true ->
  _CompileOslSource env name oslSource searchPaths w =
  (Done (ArchMakeTmpFileName env (w_tmpCalls w) ("MX." +:+ name) ".oso"),
   with_file
     (with_tmpCalls (with_events w [EvOslc name oslSource])
                    (S (w_tmpCalls w)))
     (ArchMakeTmpFileName env (w_tmpCalls w) ("MX." +:+ name) ".oso")
     (snd (OSLCompiler_compile_buffer env oslSource
             (oslArgs_of env searchPaths)))).
Proof.
  intros Hosl Hopen. unfold _CompileOslSource. rewrite Hosl.
  unfold bind, trace, next_tmp_call. simpl. rewrite Hopen. reflexivity.
Qed.

Lemma GetShaderNodeFromAsset_run assetPath subIdentifier sourceType w content
    sdrNode :
  w_files w !! assetPath = Some content ->
  Ndr_parseAsset env assetPath content subIdentifier sourceType
    = Some sdrNode ->
  GetShaderNodeFromAsset env assetPath subIdentifier sourceType w =
  (Done (Some sdrNode),
   with_registry w (SdrRegistry.register (w_registry w) sdrNode)).
Proof.
  intros Hfile Hparse. unfold GetShaderNodeFromAsset, bind, read_file.
  rewrite Hfile. simpl. rewrite Hparse. reflexivity.
Qed.


(** The network after the tail of the new-node path: the node is retyped,
    the terminal input rewired, the node stripped. *)
Lemma rewire_tail_run T cName conn sdrNode (sets' : RewriteSets) w :
  exists net',
    (modify_net (fun net =>
       SetNodeType net (upstreamNodeName conn) (sdr_identifier sdrNode)) ;;;
     (if SdrRegistry.GetOutput sdrNode (upstreamOutputName conn) then
        let updatedInputName := _GetUpdatedInputToken cName in
        let deletePreviousConnection :=
          negb (bool_decide (updatedInputName = "")) in
        let inputName :=
          if deletePreviousConnection then updatedInputName else cName in
        modify_net (fun net =>
          SetNodeInputConnection net T inputName
            [mkConnection (upstreamNodeName conn) (upstreamOutputName conn)]) ;;;
        if deletePreviousConnection then
          modify_net (fun net => DeleteNodeInputConnection net T cName)
        else ret tt
      else ret tt) ;;;
     _DeleteAllInputConnections (upstreamNodeName conn) ;;;
     _DeleteAllParameters (upstreamNodeName conn) ;;;
     ret sets') w = (Done sets', with_net w net') /\
    nodes net' !! upstreamNodeName conn
      = Some (mkNode (sdr_identifier sdrNode) ∅ ∅) /\
    (forall t, T <> upstreamNodeName conn ->
       nodes (w_net w) !! T = Some t ->
       nodes net' !! T =
         Some (mkNode (nodeTypeId t) (parameters t)
                      (rewired cName conn sdrNode (inputConnections t)))) /\
    (forall k, k <> T -> k <> upstreamNodeName conn ->
               nodes net' !! k = nodes (w_net w) !! k) /\
    terminals net' = terminals (w_net w) /\
    materialPrimPath net' = materialPrimPath (w_net w).
Proof.
  destruct conn as [u out]. cbn [upstreamNodeName upstreamOutputName].
  set (id := sdr_identifier sdrNode).
  set (net1 := SetNodeType (w_net w) u id).
  assert (exists p c, nodes net1 !! u = Some (mkNode id p c)) as (p1 & c1 & Hu1).
  { unfold net1, SetNodeType, putNode. simpl. rewrite lookup_insert_eq. eauto. }
  assert (forall k, k <> u -> nodes net1 !! k = nodes (w_net w) !! k) as Hk1.
  { intros k Hk. unfold net1. by rewrite SetNodeType_lookup_ne. }
  assert (terminals net1 = terminals (w_net w)) as Hterm1 by done.
  assert (materialPrimPath net1 = materialPrimPath (w_net w)) as Hpath1 by done.
  assert (modify_net (fun net => SetNodeType net u id) w
          = (Done tt, with_net w net1)) as Hrun1 by done.
  clearbody net1.
  set (net2 :=
         if SdrRegistry.GetOutput sdrNode out then
           if bool_decide (_GetUpdatedInputToken cName = "") then
             SetNodeInputConnection net1 T cName [mkConnection u out]
           else
             DeleteNodeInputConnection
               (SetNodeInputConnection net1 T (_GetUpdatedInputToken cName)
                  [mkConnection u out]) T cName
         else net1).
  assert ((if SdrRegistry.GetOutput sdrNode out then
             let updatedInputName := _GetUpdatedInputToken cName in
             let deletePreviousConnection :=
               negb (bool_decide (updatedInputName = "")) in
             let inputName :=
               if deletePreviousConnection then updatedInputName else cName in
             modify_net (fun net =>
               SetNodeInputConnection net T inputName [mkConnection u out]) ;;;
             if deletePreviousConnection then
               modify_net (fun net => DeleteNodeInputConnection net T cName)
             else ret tt
           else ret tt) (with_net w net1)
          = (Done tt, with_net w net2)) as Hrun2.
  { unfold net2. destruct (SdrRegistry.GetOutput sdrNode out); [|done].
    cbv zeta. case_bool_decide; reflexivity. }
  assert (forall k, k <> T -> nodes net2 !! k = nodes net1 !! k) as Hk2.
  { intros k Hk. unfold net2.
    destruct (SdrRegistry.GetOutput sdrNode out); [|done].
    case_bool_decide.
    - unfold SetNodeInputConnection, putNode. cbn [nodes].
      by rewrite lookup_insert_ne.
    - unfold DeleteNodeInputConnection, SetNodeInputConnection, putNode.
      cbn [nodes]. rewrite lookup_insert_eq. cbn [nodes].
      rewrite lookup_insert_ne by done. by rewrite lookup_insert_ne. }
  assert (forall t, nodes net1 !! T = Some t ->
            nodes net2 !! T =
            Some (mkNode (nodeTypeId t) (parameters t)
                    (rewired cName (mkConnection u out) sdrNode
                       (inputConnections t)))) as HT2.
  { intros t Ht. unfold net2, rewired. cbn [upstreamOutputName].
    destruct (SdrRegistry.GetOutput sdrNode out) eqn:Hout.
    2:{ rewrite Ht. by destruct t. }
    case_bool_decide.
    - unfold SetNodeInputConnection, putNode, getOrCreate. cbn [nodes].
      rewrite lookup_insert_eq, Ht. done.
    - unfold DeleteNodeInputConnection, SetNodeInputConnection, putNode,
        getOrCreate. cbn [nodes]. rewrite lookup_insert_eq. cbn [nodes].
      rewrite lookup_insert_eq, Ht. done. }
  assert (terminals net2 = terminals (w_net w) /\
          materialPrimPath net2 = materialPrimPath (w_net w)) as [Hterm2 Hpath2].
  { unfold net2. destruct (SdrRegistry.GetOutput sdrNode out); [|done].
    case_bool_decide; [done|].
    unfold DeleteNodeInputConnection.
    destruct (nodes (SetNodeInputConnection net1 T _ _) !! T); done. }
  assert (exists p c, nodes net2 !! u = Some (mkNode id p c)) as (p & c & Hu2).
  { destruct (decide (u = T)) as [<-|Hne].
    - rewrite (HT2 _ Hu1). eauto.
    - rewrite Hk2 by done. eauto. }
  clearbody net2.
  exists (putNode net2 u (mkNode id ∅ ∅)).
  assert (forall k, k <> u ->
            nodes (putNode net2 u (mkNode id ∅ ∅)) !! k = nodes net2 !! k)
    as Hother.
  { intros k Hk. unfold putNode. cbn [nodes]. by rewrite lookup_insert_ne. }
  split; [|split; [|split; [|split; [|split]]]].
  - rewrite (bind_Done _ _ _ _ _ Hrun1).
    rewrite (bind_Done _ _ _ _ _ Hrun2).
    rewrite (bind_Done _ _ _ _ _
               (DeleteAllInputConnections_run u (with_net w net2))).
    cbn [w_net with_net]. rewrite Hu2. cbn [nodeTypeId parameters].
    rewrite (bind_Done _ _ _ _ _ (DeleteAllParameters_run u _)).
    cbn [w_net with_net]. unfold putNode at 2. cbn [nodes].
    rewrite lookup_insert_eq. cbn [nodeTypeId inputConnections].
    rewrite putNode_putNode. reflexivity.
  - unfold putNode. cbn [nodes]. apply lookup_insert_eq.
  - intros t Hne Ht. rewrite Hother by done. apply HT2.
    by rewrite Hk1.
  - intros k HkT Hku. rewrite Hother by done. rewrite Hk2 by done.
    by apply Hk1.
  - done.
  - done.
Qed.

End RewriteOne.

Lemma elem_of_register reg sdrNode :
  sdrNode ∈ SdrRegistry.register reg sdrNode.
Proof.
  unfold SdrRegistry.register. case_bool_decide; [done|].
  apply elem_of_app. right. apply list_elem_of_here.
Qed.

(** X7: what [_UpdateNetwork] does for a connection of the terminal that
    reads a node not visited before, when the generator yields source code
    for the node, the artifact file can be written and the artifact
    parses.  The node is retyped to the generated shader and left without
    parameters and input connections.  When the generated shader declares
    the requested output, the terminal reads it through the same input,
    or, for an input named by a reserved word, through the replacement
    name, the connection under the reserved name being deleted; when it
    does not, the terminal is left as it is.  No other node and no
    terminal of the network changes; the shader is in the registry and the
    artifact in its file. *)
Theorem updateConnection_rewrites (env : Env) (terminalNodeName : string)
    (searchPath : list string) (cName : string) (sets : RewriteSets)
    (conn : HdMaterialConnection2) (w : World) (g n : nat)
    (oslSource : string) (sdrNode : SdrShaderNode) :
  let upstream := upstreamNodeName conn in
  let shaderName := SdfPath_GetName upstream +:+ "Shader" in
  let compiledShaderPath :=
    ArchMakeTmpFileName env (w_tmpCalls w) ("MX." +:+ shaderName) ".oso" in
  let oslCompiledSource :=
    snd (OSLCompiler_compile_buffer env oslSource
           (oslArgs_of env searchPath)) in
  _HasNode (w_net w) upstream = true ->
  upstream ∉ visited sets ->
  _FindGraphAndNodeByName (w_doc w) (SdfPath_GetParentName upstream)
    (SdfPath_GetName upstream) = mkFound (Some g) (Some n) ->
  mx_createShader env shaderName (w_doc w) g n = Some oslSource ->
  oslSource <> "" ->
  PXR_OSL_SUPPORT_ENABLED env = true ->
  fopen_succeeds env compiledShaderPath = true ->
  compiledShaderPath <> "" ->
  Ndr_parseAsset env compiledShaderPath oslCompiledSource tokens.mtlx
    tokens.OSL = Some sdrNode ->
  exists sets' w',
    updateConnection env terminalNodeName searchPath cName sets conn w
      = (Done sets', w') /\
    nodesToKeep sets' = {[upstream]} ∪ nodesToKeep sets /\
    upstream ∈ visited sets' /\
    nodes (w_net w') !! upstream
      = Some (mkNode (sdr_identifier sdrNode) ∅ ∅) /\
    (forall t, terminalNodeName <> upstream ->
       nodes (w_net w) !! terminalNodeName = Some t ->
       nodes (w_net w') !! terminalNodeName =
         Some (mkNode (nodeTypeId t) (parameters t)
                      (rewired cName conn sdrNode (inputConnections t)))) /\
    (forall k, k <> terminalNodeName -> k <> upstream ->
               nodes (w_net w') !! k = nodes (w_net w) !! k) /\
    terminals (w_net w') = terminals (w_net w) /\
    sdrNode ∈ w_registry w' /\
    w_files w' !! compiledShaderPath = Some oslCompiledSource /\
    w_doc w' = w_doc w /\
    w_trace w' =
      (w_trace w ++
       [EvGenerate upstream shaderName; EvCompile upstream shaderName;
        EvOslc shaderName oslSource])%list.
Proof.
  intros upstream shaderName compiledShaderPath oslCompiledSource
    Hhas Hnew Hfound Hsrc Hne Hosl Hopen Hpath Hparse.
  unfold updateConnection. fold upstream. fold shaderName.
  rewrite (bind_Done _ _ _ (w_net w) w) by reflexivity.
  rewrite Hhas. cbn [negb].
  rewrite bool_decide_eq_true_2 by done. cbn [negb].
  destruct (GatherNodeGraphNodes_spec upstream (nodesToRemove sets)
              ({[upstream]} ∪ visited sets) w)
    as (N & msgs & Hgather & _).
  rewrite (bind_Done _ _ _ _ _ Hgather). cbn [fst snd].
  set (sets' := mkSets _ _ _).
  erewrite bind_Done by reflexivity.
  set (w1 := with_events (with_warnings w msgs)
               [EvGenerate upstream shaderName]).
  rewrite (bind_Done _ _ _ _ _
             (GenMaterialXShaderCode_run env searchPath shaderName _ _ w1 g n
                oslSource Hfound Hsrc)).
  rewrite bool_decide_eq_false_2 by done.
  erewrite bind_Done by reflexivity.
  set (w2 := with_events w1 [EvCompile upstream shaderName]).
  rewrite (bind_Done _ _ _ _ _
             (CompileOslSource_run env shaderName oslSource searchPath w2
                Hosl Hopen)).
  change (w_tmpCalls w2) with (w_tmpCalls w).
  fold compiledShaderPath. fold oslCompiledSource.
  rewrite bool_decide_eq_false_2 by done.
  set (w3 := with_file _ _ _).
  assert (w_files w3 !! compiledShaderPath = Some oslCompiledSource) as Hfile.
  { unfold w3. cbn [w_files with_file]. apply lookup_insert_eq. }
  rewrite (bind_Done _ _ _ _ _
             (GetShaderNodeFromAsset_run env compiledShaderPath _ _ w3 _ _
                Hfile Hparse)).
  set (w4 := with_registry w3 _).
  destruct (rewire_tail_run terminalNodeName cName conn sdrNode sets' w4)
    as (net' & Hrun & Hup & HT & Hother & Hterm & _).
  fold upstream in Hrun, Hup, HT, Hother.
  exists sets', (with_net w4 net').
  split; [exact Hrun|].
  split; [done|].
  split; [unfold sets'; cbn [visited]; set_solver|].
  split; [done|]. split; [done|]. split; [done|]. split; [done|].
  split; [apply elem_of_register|].
  split; [done|]. split; [done|].
  cbn. by rewrite <- !app_assoc.
Qed.

Lemma updateConnection_rewrites_witness :
  exists sets' w',
    updateConnection (demo_env (fun _ _ _ => (twice_doc, []))) "/Mat/Surf"
      ["/mtlx"] "normal" (mkSets ∅ ∅ ∅) (mkConnection "/Mat/NG/Tex" "out")
      (world_of normal_net twice_doc demo_registry) = (Done sets', w') /\
    nodes (w_net w') !! "/Mat/NG/Tex"
      = Some (mkNode "/tmp/MX.TexShader.0.oso" ∅ ∅) /\
    GetNodeInputConnection (w_net w') "/Mat/Surf" "input_normal"
      = [mkConnection "/Mat/NG/Tex" "out"] /\
    GetNodeInputConnection (w_net w') "/Mat/Surf" "normal" = [].
Proof.
  destruct (updateConnection_rewrites
              (demo_env (fun _ _ _ => (twice_doc, []))) "/Mat/Surf"
              ["/mtlx"] "normal" (mkSets ∅ ∅ ∅)
              (mkConnection "/Mat/NG/Tex" "out")
              (world_of normal_net twice_doc demo_registry) 0 0
              "shader TexShader"
              (mkSdr "/tmp/MX.TexShader.0.oso" "OSL" [] ["out"] ""))
    as (sets' & w' & Hrun & _ & _ & Hup & HT & _).
  - vm_compute. reflexivity.
  - apply not_elem_of_empty.
  - vm_compute. reflexivity.
  - vm_compute. reflexivity.
  - discriminate.
  - reflexivity.
  - reflexivity.
  - vm_compute. discriminate.
  - vm_compute. reflexivity.
  - exists sets', w'. split; [exact Hrun|]. split; [exact Hup|].
    assert (nodes (w_net (world_of normal_net twice_doc demo_registry))
              !! "/Mat/Surf"
            = Some (node_of tokens.ND_standard_surface_surfaceshader []
                      [ ("normal", [mkConnection "/Mat/NG/Tex" "out"]) ]))
      as Ht by (vm_compute; reflexivity).
    specialize (HT _ ltac:(discriminate) Ht).
    unfold GetNodeInputConnection. rewrite HT. cbn [inputConnections].
    split; vm_compute; reflexivity.
Defined.

(** *** Footprints of the passes *)

#[global] Instance continues_preorder {A} : PreOrder (@continues A).
Proof.
  split.
  - intros l. exists []. by rewrite app_nil_r.
  - intros a b c [m1 ->] [m2 ->]. exists (m1 ++ m2)%list. by rewrite app_assoc.
Qed.

Lemma continues_app {A} (l more : list A) : continues l (l ++ more).
Proof. by exists more. Qed.

#[global] Instance filter_footprint_preorder : PreOrder filter_footprint.
Proof.
  split.
  - intros w. repeat split; try reflexivity.
  - intros a b c (R1 & W1 & T1 & C1 & P1 & S1) (R2 & W2 & T2 & C2 & P2 & S2).
    split; [by etrans|]. split; [by etrans|]. split; [by etrans|].
    split; [lia|]. split; [congruence|].
    intros t Ht. rewrite S2, S1; done.
Qed.

#[global] Instance rewrite_footprint_preorder : PreOrder rewrite_footprint.
Proof.
  split.
  - intros w. repeat split; try reflexivity.
  - intros a b c (D1 & S1 & P1 & R1 & W1 & T1 & C1)
                 (D2 & S2 & P2 & R2 & W2 & T2 & C2).
    split; [congruence|]. split; [congruence|]. split; [congruence|].
    split; [by etrans|]. split; [by etrans|]. split; [by etrans|]. lia.
Qed.

#[global] Instance texture_footprint_preorder : PreOrder texture_footprint.
Proof.
  split.
  - intros w. repeat split; try reflexivity.
  - intros a b c (N1 & R1 & T1 & C1 & F1 & W1) (N2 & R2 & T2 & C2 & F2 & W2).
    repeat split; try congruence. by etrans.
Qed.

#[global] Instance transform_footprint_preorder : PreOrder transform_footprint.
Proof.
  split.
  - intros w. repeat split; try reflexivity.
  - intros a b c (D1 & R1 & T1 & C1 & F1 & W1 & P1 & S1)
                 (D2 & R2 & T2 & C2 & F2 & W2 & P2 & S2).
    repeat split; try congruence; [by etrans|].
    intros t Ht. rewrite S2, S1; done.
Qed.

(** A primitive step stays within a footprint. *)
Ltac footprint_prim :=
  intros ?; split; [|done];
  repeat split; cbn;
  try reflexivity; try apply continues_app; try lia;
  try (intros; unfold DeleteNodeInputConnection, DeleteNodeParameter;
       repeat case_match; cbn; try done;
       rewrite ?lookup_insert_ne by done; done).

Ltac footprint_struct prims :=
  first
    [ solve [apply hoare_ret; [apply _|done]]
    | solve [apply hoare_fault; apply _]
    | solve [apply hoare_get_net; apply _]
    | solve [apply hoare_get_doc; apply _]
    | solve [apply hoare_get_registry; apply _]
    | solve [apply hoare_read_file; apply _]
    | solve [prims]
    | apply hoare_for_each; [apply _|intros]
    | apply (hoare_for_each_with _ (fun _ => True)); [intros ? ? _|done]
    | apply (hoare_bind _ (fun _ => True)); [|intros ? _]
    | match goal with
      | |- hoare _ _ (match ?x with _ => _ end) => destruct x
      | |- hoare _ _ (if ?b then _ else _) => destruct b
      | |- hoare _ _ (let _ := _ in _) => cbv zeta
      end
    | solve [footprint_prim] ].

Ltac footprint_tac prims := repeat footprint_struct prims.

Section Footprints.
Context (env : Env).

Lemma texture_updateTextureNode texturePath :
  hoare texture_footprint (fun _ => True) (updateTextureNode env texturePath).
Proof.
  unfold updateTextureNode, _GetWrapModes, _GetHdWrapString,
    UncheckedGet_string, update_node, add_node, read_node, read_graph.
  footprint_tac fail.
Qed.

Lemma continues_register reg n : continues reg (SdrRegistry.register reg n).
Proof.
  unfold SdrRegistry.register. case_bool_decide; [reflexivity|].
  apply continues_app.
Qed.

Lemma rewrite_GetShaderNodeFromAsset a b c :
  hoare rewrite_footprint (fun _ => True) (GetShaderNodeFromAsset env a b c).
Proof.
  intros w. split; [|done].
  unfold GetShaderNodeFromAsset, bind, read_file, get_registry, set_registry.
  cbn. destruct (Ndr_parseAsset env a _ b c); cbn.
  - repeat split; try reflexivity. apply continues_register.
  - reflexivity.
Qed.

Lemma rewrite_updateConnection terminalNodeName searchPath cName sets conn :
  hoare rewrite_footprint (fun _ => True)
    (updateConnection env terminalNodeName searchPath cName sets conn).
Proof.
  unfold updateConnection, _GatherNodeGraphNodes, _GenMaterialXShaderCode,
    _CompileOslSource, _DeleteAllInputConnections, _DeleteAllParameters.
  footprint_tac ltac:(apply rewrite_GetShaderNodeFromAsset).
Qed.

Lemma rewrite_UpdateNetwork terminalNodeName searchPath :
  hoare rewrite_footprint (fun _ => True)
    (_UpdateNetwork env terminalNodeName searchPath).
Proof.
  unfold _UpdateNetwork.
  footprint_tac ltac:(apply rewrite_updateConnection).
Qed.

Lemma transform_TransformTerminalNode terminalNodeName :
  hoare transform_footprint (fun _ => True)
    (_TransformTerminalNode terminalNodeName).
Proof.
  unfold _TransformTerminalNode, _GetAdapterNodeType.
  footprint_tac fail.
Qed.

Lemma texture_filter w w' : texture_footprint w w' -> filter_footprint w w'.
Proof.
  intros (N & R & T & C & F & W).
  split; [rewrite R; reflexivity|]. split; [done|].
  split; [rewrite T; reflexivity|]. split; [lia|].
  split; [by rewrite N|]. intros t _. by rewrite N.
Qed.

Lemma rewrite_filter w w' : rewrite_footprint w w' -> filter_footprint w w'.
Proof.
  intros (D & S & P & R & W & T & C).
  do 5 (split; [done|]). intros t _. by rewrite S.
Qed.

Lemma transform_filter w w' : transform_footprint w w' -> filter_footprint w w'.
Proof.
  intros (D & R & T & C & F & W & P & S).
  split; [rewrite R; reflexivity|]. split; [done|].
  split; [rewrite T; reflexivity|]. split; [lia|]. done.
Qed.

Lemma hoare_sub {A} (R R' : World -> World -> Prop) (Q : A -> Prop) (m : M A) :
  (forall w w', R w w' -> R' w w') -> hoare R Q m -> hoare R' Q m.
Proof. intros Hsub H w. destruct (H w) as [HR HQ]. split; [by apply Hsub|done]. Qed.

Lemma filter_MatfiltMaterialX interface :
  hoare filter_footprint (fun _ => True) (MatfiltMaterialX env interface).
Proof.
  unfold MatfiltMaterialX, _UpdateTextureNodes.
  footprint_tac
    ltac:(first
            [ apply (hoare_sub texture_footprint); [apply texture_filter|];
              apply texture_updateTextureNode
            | apply (hoare_sub rewrite_footprint); [apply rewrite_filter|];
              apply rewrite_UpdateNetwork
            | apply (hoare_sub transform_footprint); [apply transform_filter|];
              apply transform_TransformTerminalNode ]).
Qed.

End Footprints.

(** X8: whatever the texture node paths, the document and the network,
    [_UpdateTextureNodes] changes nothing but the MaterialX document and
    the diagnostics, to which it only adds: the Hydra network, the
    registry and the files are as before, and neither the generator nor
    the compiler is run.  This holds for the state in which the pass
    stops at a fault as well. *)
Theorem UpdateTextureNodes_footprint (env : Env)
    (hdTextureNodePaths : list string) (w : World) :
  let w' := snd (_UpdateTextureNodes env hdTextureNodePaths w) in
  w_net w' = w_net w /\ w_registry w' = w_registry w /\
  w_trace w' = w_trace w /\ w_tmpCalls w' = w_tmpCalls w /\
  w_files w' = w_files w /\
  exists msgs, w_warnings w' = (w_warnings w ++ msgs)%list.
Proof.
  cbv zeta.
  destruct (hoare_for_each texture_footprint hdTextureNodePaths
              (updateTextureNode env) (texture_updateTextureNode env) w)
    as [H _].
  exact H.
Qed.

(** X9: [_UpdateNetwork] leaves the MaterialX document, the terminals of
    the network and the material path as they are; registry entries,
    diagnostics and trace events are only added, none is removed or
    replaced. *)
Theorem UpdateNetwork_footprint (env : Env) (terminalNodeName : string)
    (searchPath : list string) (w : World) :
  let w' := snd (_UpdateNetwork env terminalNodeName searchPath w) in
  w_doc w' = w_doc w /\
  terminals (w_net w') = terminals (w_net w) /\
  materialPrimPath (w_net w') = materialPrimPath (w_net w) /\
  (exists entries, w_registry w' = (w_registry w ++ entries)%list) /\
  (exists msgs, w_warnings w' = (w_warnings w ++ msgs)%list) /\
  (exists events, w_trace w' = (w_trace w ++ events)%list).
Proof.
  cbv zeta.
  destruct (rewrite_UpdateNetwork env terminalNodeName searchPath w)
    as [(D & S & P & R & W & T & _) _].
  done.
Qed.

(** X10: [_TransformTerminalNode] changes the network and the diagnostics
    only; in the network the material path and every terminal other than
    the surface terminal are kept. *)
Theorem TransformTerminalNode_footprint (terminalNodeName : string)
    (w : World) :
  let w' := snd (_TransformTerminalNode terminalNodeName w) in
  w_doc w' = w_doc w /\ w_registry w' = w_registry w /\
  w_trace w' = w_trace w /\ w_tmpCalls w' = w_tmpCalls w /\
  w_files w' = w_files w /\
  (exists msgs, w_warnings w' = (w_warnings w ++ msgs)%list) /\
  materialPrimPath (w_net w') = materialPrimPath (w_net w) /\
  (forall t, t <> "surface" ->
             terminals (w_net w') !! t = terminals (w_net w) !! t).
Proof.
  cbv zeta.
  destruct (transform_TransformTerminalNode terminalNodeName w) as [H _].
  exact H.
Qed.

(** X11: over a whole run of [MatfiltMaterialX], completed or stopped at a
    fault, no registry entry, diagnostic or trace event that was there
    before is removed or replaced, the material path is kept, and the
    only terminal of the network that may change is the surface
    terminal. *)
Theorem MatfiltMaterialX_footprint (env : Env) (interface : NetInterfacePtr)
    (w : World) :
  let w' := snd (MatfiltMaterialX env interface w) in
  (exists entries, w_registry w' = (w_registry w ++ entries)%list) /\
  (exists msgs, w_warnings w' = (w_warnings w ++ msgs)%list) /\
  (exists events, w_trace w' = (w_trace w ++ events)%list) /\
  materialPrimPath (w_net w') = materialPrimPath (w_net w) /\
  (forall t, t <> "surface" ->
             terminals (w_net w') !! t = terminals (w_net w) !! t).
Proof.
  cbv zeta.
  destruct (filter_MatfiltMaterialX env interface w)
    as [(R & W & T & _ & P & S) _].
  done.
Qed.

(** *** Pruning: which nodes can go *)

#[global] Instance keeps_nodes_preorder T u : PreOrder (keeps_nodes T u).
Proof.
  split.
  - intros w. split; set_solver.
  - intros a b c [A1 B1] [A2 B2]. split; set_solver.
Qed.

#[global] Instance keeps_reads_preorder T u : PreOrder (keeps_reads T u).
Proof.
  split.
  - intros w a b H. by left.
  - intros x y z H1 H2 a b H. destruct (H2 a b H) as [H'|H']; [|by right].
    by apply H1.
Qed.

Lemma dom_SetNodeType net k t :
  dom (nodes (SetNodeType net k t)) = {[k]} ∪ dom (nodes net).
Proof. unfold SetNodeType, putNode. cbn. by rewrite dom_insert_L. Qed.

Lemma dom_SetNodeInputConnection net k i c :
  dom (nodes (SetNodeInputConnection net k i c)) = {[k]} ∪ dom (nodes net).
Proof. unfold SetNodeInputConnection, putNode. cbn. by rewrite dom_insert_L. Qed.

Lemma dom_DeleteNodeInputConnection net k i :
  dom (nodes (DeleteNodeInputConnection net k i)) = dom (nodes net).
Proof.
  unfold DeleteNodeInputConnection, putNode.
  destruct (nodes net !! k) eqn:Hk; [|done]. cbn.
  apply dom_insert_lookup_L. eauto.
Qed.

Lemma dom_DeleteNodeParameter net k p :
  dom (nodes (DeleteNodeParameter net k p)) = dom (nodes net).
Proof.
  unfold DeleteNodeParameter, putNode.
  destruct (nodes net !! k) eqn:Hk; [|done]. cbn.
  apply dom_insert_lookup_L. eauto.
Qed.

Lemma GetNodeInputConnection_SetNodeType net k t a c :
  GetNodeInputConnection (SetNodeType net k t) a c
  = GetNodeInputConnection net a c.
Proof.
  unfold GetNodeInputConnection, SetNodeType, putNode, getOrCreate. cbn.
  destruct (decide (a = k)) as [->|Hne].
  - rewrite lookup_insert_eq. by destruct (nodes net !! k).
  - by rewrite lookup_insert_ne.
Qed.

Lemma GetNodeInputConnection_Set net k i conns a c :
  GetNodeInputConnection (SetNodeInputConnection net k i conns) a c
  = if bool_decide (a = k /\ c = i) then conns
    else GetNodeInputConnection net a c.
Proof.
  unfold GetNodeInputConnection, SetNodeInputConnection, putNode, getOrCreate.
  cbn. destruct (decide (a = k)) as [->|Hne].
  - rewrite lookup_insert_eq. cbn.
    destruct (decide (c = i)) as [->|Hc].
    + rewrite bool_decide_eq_true_2 by done. by rewrite lookup_insert_eq.
    + rewrite bool_decide_eq_false_2 by (intros [_ ?]; done).
      rewrite lookup_insert_ne by done. by destruct (nodes net !! k).
  - rewrite bool_decide_eq_false_2 by (intros [? _]; done).
    by rewrite lookup_insert_ne.
Qed.

Lemma GetNodeInputConnection_Delete net k i a c :
  GetNodeInputConnection (DeleteNodeInputConnection net k i) a c
  = if bool_decide (a = k /\ c = i) then []
    else GetNodeInputConnection net a c.
Proof.
  unfold GetNodeInputConnection, DeleteNodeInputConnection, putNode.
  destruct (nodes net !! k) as [n|] eqn:Hk.
  - cbn. destruct (decide (a = k)) as [->|Hne].
    + rewrite lookup_insert_eq, Hk. cbn.
      destruct (decide (c = i)) as [->|Hc].
      * rewrite bool_decide_eq_true_2 by done. by rewrite lookup_delete_eq.
      * rewrite bool_decide_eq_false_2 by (intros [_ ?]; done).
        by rewrite lookup_delete_ne.
    + rewrite bool_decide_eq_false_2 by (intros [? _]; done).
      by rewrite lookup_insert_ne.
  - case_bool_decide as H; [|done]. destruct H as [-> ->]. by rewrite Hk.
Qed.

Lemma GetNodeInputConnection_DeleteNodeParameter net k p a c :
  GetNodeInputConnection (DeleteNodeParameter net k p) a c
  = GetNodeInputConnection net a c.
Proof.
  unfold GetNodeInputConnection, DeleteNodeParameter, putNode.
  destruct (nodes net !! k) as [n|] eqn:Hk; [|done]. cbn.
  destruct (decide (a = k)) as [->|Hne].
  - by rewrite lookup_insert_eq, Hk.
  - by rewrite lookup_insert_ne.
Qed.

Lemma reads_SetNodeType net k t a b :
  reads (SetNodeType net k t) a b -> reads net a b.
Proof.
  intros (c & x & Hx & Hb). rewrite GetNodeInputConnection_SetNodeType in Hx.
  by exists c, x.
Qed.

Lemma reads_SetNodeInputConnection net k i u out a b :
  reads (SetNodeInputConnection net k i [mkConnection u out]) a b ->
  reads net a b \/ (a = k /\ b = u).
Proof.
  intros (c & x & Hx & Hb). rewrite GetNodeInputConnection_Set in Hx.
  case_bool_decide as H.
  - destruct H as [-> ->]. apply list_elem_of_singleton in Hx. subst x.
    by right.
  - left. by exists c, x.
Qed.

Lemma reads_DeleteNodeInputConnection net k i a b :
  reads (DeleteNodeInputConnection net k i) a b -> reads net a b.
Proof.
  intros (c & x & Hx & Hb). rewrite GetNodeInputConnection_Delete in Hx.
  case_bool_decide as H; [by apply elem_of_nil in Hx|]. by exists c, x.
Qed.

Lemma reads_DeleteNodeParameter net k p a b :
  reads (DeleteNodeParameter net k p) a b -> reads net a b.
Proof.
  intros (c & x & Hx & Hb).
  rewrite GetNodeInputConnection_DeleteNodeParameter in Hx. by exists c, x.
Qed.

Ltac nodes_prim :=
  intros ?; split; [|done]; unfold keeps_nodes; cbn;
  rewrite ?dom_DeleteNodeInputConnection, ?dom_DeleteNodeParameter,
    ?dom_SetNodeInputConnection, ?dom_SetNodeType;
  set_solver.

Ltac reads_prim :=
  intros ?; split; [|done]; unfold keeps_reads; cbn; intros ? ? Hreads;
  first
    [ by left
    | left; by eapply reads_SetNodeType
    | left; by eapply reads_DeleteNodeInputConnection
    | left; by eapply reads_DeleteNodeParameter
    | apply reads_SetNodeInputConnection in Hreads; exact Hreads ].

Section Prune.
Context (env : Env).

Lemma nodes_updateConnection T searchPath cName sets conn :
  hoare (keeps_nodes T (upstreamNodeName conn)) (fun _ => True)
    (updateConnection env T searchPath cName sets conn).
Proof.
  unfold updateConnection, _GatherNodeGraphNodes, _GenMaterialXShaderCode,
    _CompileOslSource, GetShaderNodeFromAsset, _DeleteAllInputConnections,
    _DeleteAllParameters.
  footprint_tac nodes_prim.
Qed.

Lemma reads_updateConnection T searchPath cName sets conn :
  hoare (keeps_reads T (upstreamNodeName conn)) (fun _ => True)
    (updateConnection env T searchPath cName sets conn).
Proof.
  unfold updateConnection, _GatherNodeGraphNodes, _GenMaterialXShaderCode,
    _CompileOslSource, GetShaderNodeFromAsset, _DeleteAllInputConnections,
    _DeleteAllParameters.
  footprint_tac reads_prim.
Qed.


Lemma reads_fresh_reads net V a b :
  tc (reads_fresh net V) a b -> tc (reads net) a b.
Proof.
  induction 1 as [a b [H _]|a b c [H _] _ IH]; [by apply tc_once|].
  by eapply tc_l.
Qed.

Lemma reads_tc_mono (net net' : HdMaterialNetwork2) a b :
  (forall x y, reads net x y -> reads net' x y) ->
  tc (reads net) a b -> tc (reads net') a b.
Proof.
  intros Hsub. induction 1 as [a b H|a b c H _ IH]; [by apply tc_once, Hsub|].
  eapply tc_l; [by apply Hsub|done].
Qed.

(** The sets one connection leaves: those it found, or those with what
    the traversal from the upstream node gathered. *)
Lemma updateConnection_result T searchPath cName sets conn w s' :
  fst (updateConnection env T searchPath cName sets conn w) = Done s' ->
  s' = sets \/
  exists N : gset string,
    (forall n, n ∈ N -> tc (reads (w_net w)) (upstreamNodeName conn) n) /\
    nodesToRemove s' = nodesToRemove sets ∪ N.
Proof.
  unfold updateConnection. set (upstream := upstreamNodeName conn).
  rewrite (bind_Done _ _ _ (w_net w) w) by reflexivity.
  destruct (_HasNode (w_net w) upstream) eqn:Hhas; cbn [negb].
  2:{ intros [= <-]. by left. }
  case_bool_decide as Hvis; cbn [negb].
  2:{ rewrite (bind_Done _ _ _ (w_registry w) w) by reflexivity.
      destruct (SdrRegistry.GetShaderNodeByIdentifier _ _ _) as [sdrNode|].
      - destruct (SdrRegistry.GetOutput sdrNode _); intros [= <-]; by left.
      - intros [= <-]. by left. }
  destruct (GatherNodeGraphNodes_spec upstream (nodesToRemove sets)
              ({[upstream]} ∪ visited sets) w)
    as (N & msgs & Hgather & _ & HN & _).
  rewrite (bind_Done _ _ _ _ _ Hgather). cbn [fst snd].
  set (sets' := mkSets _ _ _).
  assert (s' = sets' ->
          s' = sets \/
          exists N : gset string,
            (forall n, n ∈ N -> tc (reads (w_net w)) upstream n) /\
            nodesToRemove s' = nodesToRemove sets ∪ N) as Hok.
  { intros ->. right. exists N. split; [|done].
    intros n Hn. apply HN in Hn. by eapply reads_fresh_reads. }
  set (shaderName := SdfPath_GetName upstream +:+ "Shader").
  erewrite bind_Done by reflexivity.
  match goal with
  | |- context [ bind (_GenMaterialXShaderCode env ?sp ?sn ?a ?b) ?k ?w1 ] =>
      destruct (_GenMaterialXShaderCode env sp sn a b w1)
        as [[oslSource|f] w2] eqn:Hgen
  end.
  2:{ rewrite (bind_Fault _ _ _ _ _ Hgen). done. }
  rewrite (bind_Done _ _ _ _ _ Hgen).
  case_bool_decide as Hsrc.
  { intros [= <-]. by apply Hok. }
  erewrite bind_Done by reflexivity.
  match goal with
  | |- context [ bind (_CompileOslSource env shaderName oslSource searchPath) ?k ?w3 ] =>
      destruct (quiet_after_generate env T searchPath cName upstream
                  (upstreamOutputName conn) shaderName oslSource sets' w3)
        as [_ Hres]
  end.
  intros Hs'. apply Hres in Hs'. by apply Hok.
Qed.

Lemma for_each_with_inv_in {A S} (P : S -> World -> Prop) (Q : World -> Prop)
    (l : list A) (body : S -> A -> M S) s w :
  (forall s x w, x ∈ l -> P s w ->
     match body s x w with
     | (Done s', w') => P s' w'
     | (Fault _, w') => Q w'
     end) ->
  P s w ->
  match for_each_with l body s w with
  | (Done s', w') => P s' w'
  | (Fault _, w') => Q w'
  end.
Proof.
  revert s w. induction l as [|x l IH]; intros s w Hbody HP; [done|].
  cbn [for_each_with]. unfold bind.
  specialize (Hbody s x w (list_elem_of_here _ _) HP) as Hx.
  destruct (body s x w) as [[s1|f] w1]; [|done].
  apply IH; [|done]. intros s2 y w2 Hy. apply Hbody. by right.
Qed.

Lemma prune_inv_updateConnection net0 T searchPath cName s conn w :
  T ∈ dom (nodes net0) ->
  reads net0 T (upstreamNodeName conn) ->
  prune_inv net0 T s w ->
  match updateConnection env T searchPath cName s conn w with
  | (Done s', w') => prune_inv net0 T s' w'
  | (Fault _, w') => dom (nodes (w_net w')) = dom (nodes net0)
  end.
Proof.
  intros HT Hedge (Hreads & Hdom & Hrem).
  destruct (_HasNode (w_net w) (upstreamNodeName conn)) eqn:Hhas.
  2:{ unfold updateConnection.
      rewrite (bind_Done _ _ _ (w_net w) w) by reflexivity.
      rewrite Hhas. cbn. done. }
  destruct (nodes_updateConnection T searchPath cName s conn w)
    as [[Hd1 Hd2] _].
  destruct (reads_updateConnection T searchPath cName s conn w) as [Hr _].
  pose proof (updateConnection_result T searchPath cName s conn w) as Hres.
  apply HasNode_in_network in Hhas.
  destruct (updateConnection env T searchPath cName s conn w)
    as [[s'|f] w'] eqn:Hrun; cbn [fst snd] in *.
  - split; [|split].
    + intros a b Hab. destruct (Hr a b Hab) as [H|[-> ->]]; [by apply Hreads|].
      done.
    + rewrite <- Hdom. apply set_eq. intros k. split; [|by apply Hd1].
      intros Hk. apply Hd2 in Hk. rewrite <- Hdom in HT. set_solver.
    + intros k Hk. destruct (Hres s' eq_refl) as [->|(N & HN & Heq)];
        [by apply Hrem|].
      rewrite Heq in Hk. apply elem_of_union in Hk as [Hk|Hk];
        [by apply Hrem|].
      exists (upstreamNodeName conn). split; [done|].
      apply (reads_tc_mono (w_net w)); [done|]. by apply HN.
  - rewrite <- Hdom. apply set_eq. intros k. split; [|by apply Hd1].
    intros Hk. apply Hd2 in Hk. rewrite <- Hdom in HT. set_solver.
Qed.

Lemma prune_inv_loops net0 T searchPath cNames s w :
  prune_inv net0 T s w ->
  match for_each_with cNames
          (fun sets cName =>
             let* net := get_net in
             let inputConnections := GetNodeInputConnection net T cName in
             for_each_with inputConnections
               (updateConnection env T searchPath cName) sets)
          s w with
  | (Done s', w') => prune_inv net0 T s' w'
  | (Fault _, w') => dom (nodes (w_net w')) = dom (nodes net0)
  end.
Proof.
  apply for_each_with_inv_in. clear s w.
  intros s cName w _ Hinv.
  rewrite (bind_Done _ _ _ (w_net w) w) by reflexivity. cbv zeta.
  apply for_each_with_inv_in; [|done].
  intros s1 conn w1 Hconn Hinv1.
  assert (reads (w_net w) T (upstreamNodeName conn)) as Hedge
    by by exists cName, conn.
  destruct Hinv as (Hreads & Hdom & _).
  apply prune_inv_updateConnection; [| by apply Hreads | done].
  rewrite <- Hdom. apply elem_of_dom.
  unfold GetNodeInputConnection in Hconn.
  destruct (nodes (w_net w) !! T); [eauto|by apply elem_of_nil in Hconn].
Qed.

(** [_UpdateNetwork] as its two loops followed by the pruning. *)
Lemma UpdateNetwork_run T searchPath w :
  _UpdateNetwork env T searchPath w =
  match for_each_with (GetNodeInputConnectionNames (w_net w) T)
          (fun sets cName =>
             let* net := get_net in
             let inputConnections := GetNodeInputConnection net T cName in
             for_each_with inputConnections
               (updateConnection env T searchPath cName) sets)
          (mkSets ∅ ∅ ∅) w with
  | (Done s', w') =>
      (Done tt,
       with_net w'
         (foldl (fun net nodeName =>
                   if bool_decide (nodeName ∉ nodesToKeep s')
                   then DeleteNode net nodeName else net)
            (w_net w') (sorted_elements (nodesToRemove s'))))
  | (Fault f, w') => (Fault f, w')
  end.
Proof.
  unfold _UpdateNetwork.
  rewrite (bind_Done _ _ _ (w_net w) w) by reflexivity.
  unfold bind at 1.
  destruct (for_each_with _ _ _ w) as [[s'|f] w']; [|done].
  apply prune_loop.
Qed.

End Prune.

(** The nodes after [_UpdateNetwork], against the nodes before. *)
Lemma UpdateNetwork_nodes (env : Env) T searchPath w :
  let net' := w_net (snd (_UpdateNetwork env T searchPath w)) in
  dom (nodes net') ⊆ dom (nodes (w_net w)) /\
  (forall k, k ∈ dom (nodes (w_net w)) -> k ∉ dom (nodes net') ->
             strictly_upstream (w_net w) T k).
Proof.
  cbv zeta. rewrite UpdateNetwork_run.
  pose proof (prune_inv_loops env (w_net w) T searchPath
                (GetNodeInputConnectionNames (w_net w) T)
                (mkSets ∅ ∅ ∅) w) as Hloops.
  destruct (for_each_with _ _ _ w) as [[s'|f] w'] eqn:Hrun.
  - destruct Hloops as (_ & Hdom & Hrem).
    { split; [done|]. split; [done|]. intros k Hk. set_solver. }
    cbn [snd w_net with_net].
    assert (forall k,
              k ∈ dom (nodes
                (foldl (fun net nodeName =>
                          if bool_decide (nodeName ∉ nodesToKeep s')
                          then DeleteNode net nodeName else net)
                   (w_net w') (sorted_elements (nodesToRemove s')))) <->
              k ∈ dom (nodes (w_net w)) /\
              ~ (k ∈ nodesToRemove s' /\ k ∉ nodesToKeep s')) as Hchar.
    { intros k.
      assert (is_Some (nodes (w_net w') !! k)
              <-> k ∈ dom (nodes (w_net w))) as Hsame.
      { rewrite <- Hdom. by rewrite elem_of_dom. }
      rewrite elem_of_dom, prune_loop_nodes, <- Hsame.
      case_bool_decide as Hk.
      - rewrite elem_of_sorted_elements in Hk.
        split; [by intros [? ?]|]. intros [_ Hn]. done.
      - rewrite elem_of_sorted_elements in Hk.
        split; [intros ?; by split|by intros [? _]]. }
    split.
    + intros k Hk. by apply Hchar in Hk as [? _].
    + intros k Hk Hgone. apply Hrem.
      destruct (decide (k ∈ nodesToRemove s')) as [?|Hn]; [done|].
      exfalso. apply Hgone. apply Hchar. split; [done|]. by intros [? _].
  - cbn [snd]. rewrite Hloops.
    + split; [done|]. intros k Hk Hn. done.
    + split; [done|]. split; [done|]. intros k Hk. set_solver.
Qed.

(** X12: [_UpdateNetwork] adds no node to the network, and every node it
    removes is strictly upstream of the terminal in the network it
    started from: a node that the terminal reads reads it, directly or
    through other nodes.  In particular a node that cannot be reached
    from the terminal is never deleted. *)
Theorem UpdateNetwork_prunes_upstream_only (env : Env)
    (terminalNodeName : string) (searchPath : list string) (w : World) :
  let net := w_net w in
  let net' := w_net (snd (_UpdateNetwork env terminalNodeName searchPath w)) in
  dom (nodes net') ⊆ dom (nodes net) /\
  (forall k, k ∈ dom (nodes net) -> k ∉ dom (nodes net') ->
     exists u, reads net terminalNodeName u /\ tc (reads net) u k) /\
  (forall k, k ∈ dom (nodes net) ->
             ~ tc (reads net) terminalNodeName k -> k ∈ dom (nodes net')).
Proof.
  cbv zeta.
  destruct (UpdateNetwork_nodes env terminalNodeName searchPath w)
    as [Hsub Hdel].
  split; [done|]. split; [exact Hdel|].
  intros k Hk Hunreach.
  destruct (decide (k ∈ dom (nodes (w_net (snd (_UpdateNetwork env
              terminalNodeName searchPath w)))))) as [?|Hgone]; [done|].
  exfalso. apply Hunreach.
  destruct (Hdel k Hk Hgone) as (u & Hu & Htc). by eapply tc_l.
Qed.

(** *** The terminal adapter: errors, wiring, what is kept *)

Lemma TransformTerminalNode_no_adapter T w adapterType msgs :
  _GetAdapterNodeType (GetNodeType (w_net w) T) w
    = (Done adapterType, with_warnings w msgs) ->
  SdrRegistry.GetShaderNodeByIdentifier (w_registry w) adapterType
    [tokens.OSL] = None ->
  _TransformTerminalNode T w =
  (Done tt,
   with_warnings w
     (msgs ++ ["No sdrAdater node of type '" +:+ adapterType +:+ "'"])).
Proof.
  intros Hty Hnone. unfold _TransformTerminalNode.
  rewrite (bind_Done _ _ _ (w_net w) w) by reflexivity.
  rewrite (bind_Done _ _ _ _ _ Hty).
  erewrite bind_Done by reflexivity.
  cbn [w_registry with_warnings]. rewrite Hnone.
  unfold TF_WARN, with_warnings. cbn. by rewrite <- app_assoc.
Qed.

(** X13: [_TransformTerminalNode] without a registry entry for the
    adapter node.  The network is left as it was, the terminal node
    included, and the diagnostics say which adapter is missing; for a
    terminal that is neither a standard surface nor a UsdPreviewSurface
    (a node the network lacks included), the adapter type is the empty
    token and the unsupported type is reported first. *)
Theorem TransformTerminalNode_without_adapter (terminalNodeName : string)
    (w : World) :
  let nodeType := GetNodeType (w_net w) terminalNodeName in
  (nodeType = "ND_standard_surface_surfaceshader" ->
   SdrRegistry.GetShaderNodeByIdentifier (w_registry w)
     "StandardSurfaceParameters" ["OSL"] = None ->
   _TransformTerminalNode terminalNodeName w =
   (Done tt,
    with_warnings w
      ["No sdrAdater node of type 'StandardSurfaceParameters'"])) /\
  (nodeType = "ND_UsdPreviewSurface_surfaceshader" ->
   SdrRegistry.GetShaderNodeByIdentifier (w_registry w)
     "UsdPreviewSurfaceParameters" ["OSL"] = None ->
   _TransformTerminalNode terminalNodeName w =
   (Done tt,
    with_warnings w
      ["No sdrAdater node of type 'UsdPreviewSurfaceParameters'"])) /\
  (nodeType <> "ND_standard_surface_surfaceshader" ->
   nodeType <> "ND_UsdPreviewSurface_surfaceshader" ->
   SdrRegistry.GetShaderNodeByIdentifier (w_registry w) "" ["OSL"] = None ->
   _TransformTerminalNode terminalNodeName w =
   (Done tt,
    with_warnings w
      ["Unsupported Node Type '" +:+ nodeType +:+ "'";
       "No sdrAdater node of type ''"])).
Proof.
  cbv zeta. split; [|split].
  - intros Hty Hnone.
    rewrite (TransformTerminalNode_no_adapter _ _ tokens.SS_Adapter []);
      [done| |done].
    rewrite Hty. unfold _GetAdapterNodeType.
    rewrite bool_decide_eq_true_2 by done. by rewrite with_warnings_nil.
  - intros Hty Hnone.
    rewrite (TransformTerminalNode_no_adapter _ _ tokens.USD_Adapter []);
      [done| |done].
    rewrite Hty. unfold _GetAdapterNodeType.
    rewrite bool_decide_eq_false_2 by done.
    rewrite bool_decide_eq_true_2 by done. by rewrite with_warnings_nil.
  - intros Hss Husd Hnone.
    rewrite (TransformTerminalNode_no_adapter _ _ ""
               ["Unsupported Node Type '" +:+
                GetNodeType (w_net w) terminalNodeName +:+ "'"]);
      [done| |done].
    unfold _GetAdapterNodeType.
    rewrite bool_decide_eq_false_2 by done.
    rewrite bool_decide_eq_false_2 by done. reflexivity.
Qed.

Lemma TransformTerminalNode_without_adapter_witness :
  _TransformTerminalNode "/Mat/NG/Tex"
     (world_of texture_net_tex empty_doc demo_registry) =
  (Done tt,
   with_warnings (world_of texture_net_tex empty_doc demo_registry)
     ["Unsupported Node Type 'ND_image_color3'";
      "No sdrAdater node of type ''"]).
Proof.
  destruct (TransformTerminalNode_without_adapter "/Mat/NG/Tex"
              (world_of texture_net_tex empty_doc demo_registry))
    as (_ & _ & Hother).
  apply Hother.
  - vm_compute. discriminate.
  - vm_compute. discriminate.
  - vm_compute. reflexivity.
Defined.

Lemma GetNodeType_SetNodeInputConnection net k i c a :
  GetNodeType (SetNodeInputConnection net k i c) a = GetNodeType net a.
Proof.
  unfold GetNodeType, SetNodeInputConnection, putNode, getOrCreate. cbn.
  destruct (decide (a = k)) as [->|Hne].
  - rewrite lookup_insert_eq. by destruct (nodes net !! k).
  - by rewrite lookup_insert_ne.
Qed.

Lemma connect_step_type pxr T a b l : forall net k,
  GetNodeType (foldl (connect_step pxr T a b) net l) k = GetNodeType net k.
Proof.
  induction l as [|p l IH]; intros net k; simpl; [done|].
  rewrite IH. unfold connect_step.
  repeat case_match; try done. apply GetNodeType_SetNodeInputConnection.
Qed.

Lemma connect_step_lookup_other pxr T a b l : forall net k,
  k <> pxr ->
  nodes (foldl (connect_step pxr T a b) net l) !! k = nodes net !! k.
Proof.
  induction l as [|p l IH]; intros net k H; simpl; [done|].
  rewrite IH by done. unfold connect_step.
  repeat case_match; try done. by apply SetNodeInputConnection_lookup_ne.
Qed.

Lemma connect_step_connection pxr T a b l : forall net p,
  GetNodeInputConnection (foldl (connect_step pxr T a b) net l) pxr p
  = if bool_decide (p ∈ l /\ SdrRegistry.GetShaderInput a p = true /\
                    SdrRegistry.GetOutput b (p +:+ "Out") = true)
    then [mkConnection T (p +:+ "Out")]
    else GetNodeInputConnection net pxr p.
Proof.
  induction l as [|x l IH]; intros net p; cbn [foldl].
  - case_bool_decide as H; [|done]. destruct H as [H _].
    by apply elem_of_nil in H.
  - rewrite IH.
    assert (GetNodeInputConnection (connect_step pxr T a b net x) pxr p
            = if bool_decide (p = x /\ SdrRegistry.GetShaderInput a p = true /\
                              SdrRegistry.GetOutput b (p +:+ "Out") = true)
              then [mkConnection T (p +:+ "Out")]
              else GetNodeInputConnection net pxr p) as Hx.
    { unfold connect_step.
      destruct (SdrRegistry.GetShaderInput a x) eqn:Hin.
      - destruct (SdrRegistry.GetOutput b (x +:+ "Out")) eqn:Hout.
        + rewrite GetNodeInputConnection_Set.
          destruct (decide (p = x)) as [->|Hne].
          * rewrite !bool_decide_eq_true_2 by done. done.
          * rewrite !bool_decide_eq_false_2 by (intros [? ?]; done). done.
        + rewrite bool_decide_eq_false_2; [done|].
          intros (-> & _ & ?). congruence.
      - rewrite bool_decide_eq_false_2; [done|].
        intros (-> & ? & _). congruence. }
    rewrite Hx.
    repeat case_bool_decide; try done; exfalso;
      rewrite elem_of_cons in *; naive_solver.
Qed.

Lemma rename_step_lookup_ne T l : forall net k,
  k <> T -> nodes (foldl (rename_step T) net l) !! k = nodes net !! k.
Proof.
  induction l as [|p l IH]; intros net k H; simpl; [done|].
  rewrite IH by done. unfold rename_step.
  case_bool_decide; simpl; [done|].
  unfold DeleteNodeParameter, SetNodeParameterValue, putNode. cbn.
  rewrite lookup_insert_eq. cbn. rewrite lookup_insert_ne by done.
  by rewrite lookup_insert_ne.
Qed.

Lemma rename_params_other l p : forall ps,
  _GetUpdatedInputToken p = "" ->
  (forall q, q ∈ l -> _GetUpdatedInputToken q <> p) ->
  foldl rename_params ps l !! p = ps !! p.
Proof.
  induction l as [|x l IH]; intros ps Hp Hl; simpl; [done|].
  rewrite IH; [|done|intros q Hq; apply Hl; by right].
  unfold rename_params. case_bool_decide as Hx; simpl; [done|].
  rewrite lookup_delete_ne by (intros ->; done).
  rewrite lookup_insert_ne; [done|]. apply Hl. apply list_elem_of_here.
Qed.

(** The network [_TransformTerminalNode] leaves when the registry has
    the adapter and the PxrSurface entries. *)
Lemma TransformTerminalNode_run T w t adapterType sdrAdapter sdrPxrSurface :
  nodes (w_net w) !! T = Some t ->
  (nodeTypeId t = tokens.ND_standard_surface_surfaceshader /\
   adapterType = tokens.SS_Adapter) \/
  (nodeTypeId t = tokens.ND_UsdPreviewSurface_surfaceshader /\
   adapterType = tokens.USD_Adapter) ->
  SdrRegistry.GetShaderNodeByIdentifier (w_registry w) adapterType
    [tokens.OSL] = Some sdrAdapter ->
  SdrRegistry.GetShaderNodeByIdentifier (w_registry w) tokens.PxrSurface
    [tokens.RmanCpp] = Some sdrPxrSurface ->
  let pxr := T +:+ "_PxrSurface" in
  let retyped := SetNodeType (w_net w) T adapterType in
  let renamed :=
    if bool_decide (adapterType = tokens.USD_Adapter) then retyped
    else foldl (rename_step T) retyped
           (GetAuthoredNodeParameterNames retyped T) in
  _TransformTerminalNode T w =
  (Done tt,
   with_net w
     (SetTerminalConnection
        (foldl (connect_step pxr T sdrPxrSurface sdrAdapter)
           (SetNodeType renamed pxr tokens.PxrSurface)
           (sdr_inputNames sdrPxrSurface))
        tokens.surface (mkConnection pxr ""))).
Proof.
  intros HT Hty Had Hpxr. cbv zeta.
  unfold _TransformTerminalNode, bind, get_net, get_registry. cbv beta iota.
  unfold GetNodeType at 1. rewrite HT.
  destruct Hty as [[Hty ->]|[Hty ->]]; rewrite Hty.
  - unfold _GetAdapterNodeType.
    rewrite bool_decide_eq_true_2 by done. unfold ret at 1. cbv beta iota.
    rewrite Had, Hpxr. unfold modify_net at 1. cbv beta iota.
    rewrite !bool_decide_eq_false_2 by done. cbn [negb].
    cbv beta iota. cbn [w_net with_net].
    rewrite (for_each_net (rename_step T)).
    2:{ intros p w0. unfold rename_step.
        case_bool_decide; simpl; [by rewrite with_net_id|].
        reflexivity. }
    unfold modify_net at 1. cbv beta iota.
    rewrite (for_each_net (connect_step (T +:+ "_PxrSurface") T
                             sdrPxrSurface sdrAdapter)).
    2:{ intros p w0. unfold connect_step.
        repeat case_match; try reflexivity; by rewrite with_net_id. }
    unfold modify_net. cbn [w_net with_net]. reflexivity.
  - unfold _GetAdapterNodeType.
    rewrite bool_decide_eq_false_2 by done.
    rewrite bool_decide_eq_true_2 by done. unfold ret at 1. cbv beta iota.
    rewrite Had, Hpxr. unfold modify_net at 1. cbv beta iota.
    rewrite !bool_decide_eq_true_2 by done. cbn [negb].
    unfold ret at 1. cbv beta iota.
    unfold modify_net at 1. cbv beta iota.
    rewrite (for_each_net (connect_step (T +:+ "_PxrSurface") T
                             sdrPxrSurface sdrAdapter)).
    2:{ intros p w0. unfold connect_step.
        repeat case_match; try reflexivity; by rewrite with_net_id. }
    unfold modify_net. cbn [w_net with_net]. reflexivity.
Qed.

(** The PxrSurface node and the terminal after the transformation. *)
Lemma TransformTerminalNode_wired (terminalNodeName : string)
    (w : World) (terminal : HdMaterialNode2) (adapterType : string)
    (sdrAdapter sdrPxrSurface : SdrShaderNode) :
  nodes (w_net w) !! terminalNodeName = Some terminal ->
  (nodeTypeId terminal = "ND_standard_surface_surfaceshader" /\
   adapterType = "StandardSurfaceParameters") \/
  (nodeTypeId terminal = "ND_UsdPreviewSurface_surfaceshader" /\
   adapterType = "UsdPreviewSurfaceParameters") ->
  SdrRegistry.GetShaderNodeByIdentifier (w_registry w) adapterType ["OSL"]
    = Some sdrAdapter ->
  SdrRegistry.GetShaderNodeByIdentifier (w_registry w) "PxrSurface"
    ["RmanCpp"] = Some sdrPxrSurface ->
  let pxr := terminalNodeName +:+ "_PxrSurface" in
  exists net',
    _TransformTerminalNode terminalNodeName w = (Done tt, with_net w net') /\
    GetTerminalConnection net' "surface" = (true, mkConnection pxr "") /\
    GetNodeType net' pxr = "PxrSurface" /\
    GetNodeType net' terminalNodeName = adapterType /\
    (forall p,
       GetNodeInputConnection net' pxr p =
       if bool_decide (p ∈ sdr_inputNames sdrPxrSurface /\
                       (p +:+ "Out") ∈ sdr_outputNames sdrAdapter)
       then [mkConnection terminalNodeName (p +:+ "Out")]
       else GetNodeInputConnection (w_net w) pxr p) /\
    (forall k, k <> terminalNodeName -> k <> pxr ->
               nodes net' !! k = nodes (w_net w) !! k).
Proof.
  intros HT Hty Had Hpxr pxr.
  assert (pxr <> terminalNodeName) as Hne by (by apply append_ne_self).
  eexists. split; [by apply (TransformTerminalNode_run _ _ terminal adapterType)|].
  fold pxr.
  set (retyped := SetNodeType (w_net w) terminalNodeName adapterType).
  set (renamed := if bool_decide (adapterType = tokens.USD_Adapter) then retyped
                  else foldl (rename_step terminalNodeName) retyped
                         (GetAuthoredNodeParameterNames retyped terminalNodeName)).
  assert (forall k, k <> terminalNodeName ->
            nodes renamed !! k = nodes (w_net w) !! k) as Hren.
  { intros k Hk. unfold renamed. case_bool_decide.
    - by apply SetNodeType_lookup_ne.
    - rewrite rename_step_lookup_ne by done. by apply SetNodeType_lookup_ne. }
  assert (exists ps, nodes renamed !! terminalNodeName
                     = Some (mkNode adapterType ps (inputConnections terminal)))
    as [ps HrenT].
  { unfold renamed. case_bool_decide.
    - eexists. by apply SetNodeType_lookup.
    - eexists. erewrite rename_step_lookup by (by apply SetNodeType_lookup).
      reflexivity. }
  split.
  { unfold GetTerminalConnection, SetTerminalConnection. cbn.
    by rewrite lookup_insert_eq. }
  split.
  { unfold GetNodeType at 1. cbn [SetTerminalConnection nodes].
    fold (GetNodeType
            (foldl (connect_step pxr terminalNodeName sdrPxrSurface sdrAdapter)
               (SetNodeType renamed pxr tokens.PxrSurface)
               (sdr_inputNames sdrPxrSurface)) pxr).
    rewrite connect_step_type. unfold GetNodeType, SetNodeType, putNode. cbn.
    by rewrite lookup_insert_eq. }
  split.
  { unfold GetNodeType at 1. cbn [SetTerminalConnection nodes].
    rewrite connect_step_lookup_other by done.
    rewrite SetNodeType_lookup_ne by done. by rewrite HrenT. }
  split.
  { intros p.
    transitivity
      (GetNodeInputConnection
         (foldl (connect_step pxr terminalNodeName sdrPxrSurface sdrAdapter)
            (SetNodeType renamed pxr tokens.PxrSurface)
            (sdr_inputNames sdrPxrSurface)) pxr p); [done|].
    rewrite connect_step_connection, GetNodeInputConnection_SetNodeType.
    assert (GetNodeInputConnection renamed pxr p
            = GetNodeInputConnection (w_net w) pxr p) as ->.
    { unfold GetNodeInputConnection. by rewrite Hren. }
    unfold SdrRegistry.GetShaderInput, SdrRegistry.GetOutput.
    repeat case_bool_decide; try done; exfalso;
      rewrite ?bool_decide_eq_true in *; naive_solver. }
  intros k HkT Hkp. cbn [SetTerminalConnection nodes].
  rewrite connect_step_lookup_other by done.
  rewrite SetNodeType_lookup_ne by done. by apply Hren.
Qed.

(** X14: the PxrSurface node made by [_TransformTerminalNode].  For a
    standard-surface or UsdPreviewSurface terminal whose adapter and the
    PxrSurface node are in the registry, the surface terminal of the
    network becomes the node named after the terminal node with the
    suffix [_PxrSurface], with an empty output name; that node has the
    type PxrSurface; each of its inputs that PxrSurface declares and for
    which the adapter declares the output of the same name followed by
    [Out] reads that output of the former terminal node, and its other
    inputs are as they were (unconnected for a new node); no diagnostic
    is issued. *)
Theorem TransformTerminalNode_wires_PxrSurface (terminalNodeName : string)
    (w : World) (terminal : HdMaterialNode2) (adapterType : string)
    (sdrAdapter sdrPxrSurface : SdrShaderNode) :
  nodes (w_net w) !! terminalNodeName = Some terminal ->
  (nodeTypeId terminal = "ND_standard_surface_surfaceshader" /\
   adapterType = "StandardSurfaceParameters") \/
  (nodeTypeId terminal = "ND_UsdPreviewSurface_surfaceshader" /\
   adapterType = "UsdPreviewSurfaceParameters") ->
  SdrRegistry.GetShaderNodeByIdentifier (w_registry w) adapterType ["OSL"]
    = Some sdrAdapter ->
  SdrRegistry.GetShaderNodeByIdentifier (w_registry w) "PxrSurface"
    ["RmanCpp"] = Some sdrPxrSurface ->
  let pxr := terminalNodeName +:+ "_PxrSurface" in
  exists net',
    _TransformTerminalNode terminalNodeName w = (Done tt, with_net w net') /\
    GetTerminalConnection net' "surface" = (true, mkConnection pxr "") /\
    GetNodeType net' pxr = "PxrSurface" /\
    GetNodeType net' terminalNodeName = adapterType /\
    (forall p,
       GetNodeInputConnection net' pxr p =
       if bool_decide (p ∈ sdr_inputNames sdrPxrSurface /\
                       (p +:+ "Out") ∈ sdr_outputNames sdrAdapter)
       then [mkConnection terminalNodeName (p +:+ "Out")]
       else GetNodeInputConnection (w_net w) pxr p) /\
    (forall k, k <> terminalNodeName -> k <> pxr ->
               nodes net' !! k = nodes (w_net w) !! k).
Proof.
  intros HT Hty Had Hpxr.
  by apply (TransformTerminalNode_wired terminalNodeName w terminal adapterType
              sdrAdapter sdrPxrSurface).
Qed.

Lemma TransformTerminalNode_wires_PxrSurface_witness :
  exists net',
    _TransformTerminalNode "/Mat/Surf"
       (world_of params_net empty_doc demo_registry)
      = (Done tt, with_net (world_of params_net empty_doc demo_registry) net') /\
    GetTerminalConnection net' "surface"
      = (true, mkConnection "/Mat/Surf_PxrSurface" "") /\
    GetNodeType net' "/Mat/Surf_PxrSurface" = "PxrSurface" /\
    GetNodeInputConnection net' "/Mat/Surf_PxrSurface" "diffuseColor"
      = [mkConnection "/Mat/Surf" "diffuseColorOut"] /\
    GetNodeInputConnection net' "/Mat/Surf_PxrSurface" "bumpNormal" = [].
Proof.
  destruct (TransformTerminalNode_wires_PxrSurface "/Mat/Surf"
              (world_of params_net empty_doc demo_registry)
              (node_of tokens.ND_standard_surface_surfaceshader
                 [ ("base", VtOther "float" "0.8");
                   ("normal", VtOther "GfVec3f" "(0, 0, 1)") ] [])
              "StandardSurfaceParameters"
              (mkSdr tokens.SS_Adapter tokens.OSL []
                 ["diffuseColorOut"; "specularFaceColorOut"] "")
              (mkSdr tokens.PxrSurface tokens.RmanCpp
                 ["diffuseColor"; "specularFaceColor"; "bumpNormal"]
                 ["out"] ""))
    as (net' & Hrun & Hterm & Hty & _ & Hconn & _).
  - vm_compute. reflexivity.
  - left. split; reflexivity.
  - vm_compute. reflexivity.
  - vm_compute. reflexivity.
  - exists net'. split; [exact Hrun|]. split; [exact Hterm|].
    split; [exact Hty|]. split.
    + rewrite Hconn. vm_compute. reflexivity.
    + rewrite Hconn. vm_compute. reflexivity.
Defined.

(** X15: what [_TransformTerminalNode] keeps of the terminal node.  Under
    the conditions of the previous property the input connections of the
    former terminal node are as they were; so is every authored parameter
    whose name is not a reserved word, unless it bears the replacement
    name of a reserved word that is authored too. *)
Theorem TransformTerminalNode_keeps (terminalNodeName : string)
    (w : World) (terminal : HdMaterialNode2) (adapterType : string)
    (sdrAdapter sdrPxrSurface : SdrShaderNode) :
  nodes (w_net w) !! terminalNodeName = Some terminal ->
  (nodeTypeId terminal = "ND_standard_surface_surfaceshader" /\
   adapterType = "StandardSurfaceParameters") \/
  (nodeTypeId terminal = "ND_UsdPreviewSurface_surfaceshader" /\
   adapterType = "UsdPreviewSurfaceParameters") ->
  SdrRegistry.GetShaderNodeByIdentifier (w_registry w) adapterType ["OSL"]
    = Some sdrAdapter ->
  SdrRegistry.GetShaderNodeByIdentifier (w_registry w) "PxrSurface"
    ["RmanCpp"] = Some sdrPxrSurface ->
  exists net' terminal',
    _TransformTerminalNode terminalNodeName w = (Done tt, with_net w net') /\
    nodes net' !! terminalNodeName = Some terminal' /\
    inputConnections terminal' = inputConnections terminal /\
    (forall p,
       _GetUpdatedInputToken p = "" ->
       (forall q, _GetUpdatedInputToken q = p ->
                  parameters terminal !! q = None) ->
       parameters terminal' !! p = parameters terminal !! p).
Proof.
  intros HT Hty Had Hpxr.
  assert (terminalNodeName +:+ "_PxrSurface" <> terminalNodeName) as Hne
    by (by apply append_ne_self).
  pose proof (TransformTerminalNode_run _ _ terminal adapterType sdrAdapter
                sdrPxrSurface HT Hty Had Hpxr) as Hrun.
  cbv zeta in Hrun.
  destruct (decide (adapterType = tokens.USD_Adapter)) as [Husd|Husd].
  - rewrite bool_decide_eq_true_2 in Hrun by done.
    eexists _, _. split; [exact Hrun|].
    cbn [SetTerminalConnection nodes].
    rewrite connect_step_lookup_ne by done.
    rewrite SetNodeType_lookup_ne by done.
    split; [by apply SetNodeType_lookup|]. done.
  - rewrite bool_decide_eq_false_2 in Hrun by done.
    eexists _, _. split; [exact Hrun|].
    cbn [SetTerminalConnection nodes].
    rewrite connect_step_lookup_ne by done.
    rewrite SetNodeType_lookup_ne by done.
    split.
    { erewrite rename_step_lookup by (by apply SetNodeType_lookup).
      reflexivity. }
    split; [done|].
    intros p Hp Hfree. cbn [parameters].
    unfold GetAuthoredNodeParameterNames.
    erewrite SetNodeType_lookup by done. cbn [parameters].
    apply rename_params_other; [done|].
    intros q Hq Heq. apply elem_of_sorted_keys in Hq as [v Hv].
    rewrite (Hfree q Heq) in Hv. done.
Qed.

Lemma TransformTerminalNode_keeps_witness :
  exists net' terminal',
    _TransformTerminalNode "/Mat/Surf"
       (world_of params_net empty_doc demo_registry)
      = (Done tt, with_net (world_of params_net empty_doc demo_registry) net') /\
    nodes net' !! "/Mat/Surf" = Some terminal' /\
    parameters terminal' !! "base" = Some (VtOther "float" "0.8").
Proof.
  destruct (TransformTerminalNode_keeps "/Mat/Surf"
              (world_of params_net empty_doc demo_registry)
              (node_of tokens.ND_standard_surface_surfaceshader
                 [ ("base", VtOther "float" "0.8");
                   ("normal", VtOther "GfVec3f" "(0, 0, 1)") ] [])
              "StandardSurfaceParameters"
              (mkSdr tokens.SS_Adapter tokens.OSL []
                 ["diffuseColorOut"; "specularFaceColorOut"] "")
              (mkSdr tokens.PxrSurface tokens.RmanCpp
                 ["diffuseColor"; "specularFaceColor"; "bumpNormal"]
                 ["out"] ""))
    as (net' & terminal' & Hrun & Hnode & _ & Hparams).
  - vm_compute. reflexivity.
  - left. split; reflexivity.
  - vm_compute. reflexivity.
  - vm_compute. reflexivity.
  - exists net', terminal'. split; [exact Hrun|]. split; [exact Hnode|].
    rewrite (Hparams "base").
    + vm_compute. reflexivity.
    + reflexivity.
    + intros q Hq. unfold _GetUpdatedInputToken in Hq. cbn in Hq.
      repeat case_bool_decide; simpl in Hq; discriminate Hq.
Defined.

(** *** Wrap modes: both axes *)

Lemma GetHdWrapString_range tex s w :
  exists mode msgs,
    _GetHdWrapString tex s w = (Done mode, with_warnings w msgs) /\
    mode ∈ plugin_wrap_modes /\ length msgs <= 1.
Proof.
  unfold _GetHdWrapString, plugin_wrap_modes.
  repeat case_bool_decide.
  - eexists _, [_]. split; [reflexivity|]. split; [set_solver|done].
  - eexists _, []. rewrite with_warnings_nil.
    split; [reflexivity|]. split; [set_solver|simpl; lia].
  - eexists _, [_]. split; [reflexivity|]. split; [set_solver|done].
  - eexists _, []. rewrite with_warnings_nil.
    split; [reflexivity|]. split; [set_solver|simpl; lia].
Qed.

(** X16: whatever strings the two address-mode parameters of a texture
    node hold, and also when one or both are unset, [_GetWrapModes]
    returns, for each axis, one of the wrap modes black, clamp and repeat;
    it changes nothing but the diagnostics, to which it adds at most one
    message per axis. *)
Theorem GetWrapModes_range (hdTextureNodeName : string) (w : World) :
  (GetNodeParameterValue (w_net w) hdTextureNodeName "uaddressmode" = VtEmpty \/
   exists s, GetNodeParameterValue (w_net w) hdTextureNodeName "uaddressmode"
             = VtString s) ->
  (GetNodeParameterValue (w_net w) hdTextureNodeName "vaddressmode" = VtEmpty \/
   exists s, GetNodeParameterValue (w_net w) hdTextureNodeName "vaddressmode"
             = VtString s) ->
  exists uWrap vWrap msgs,
    _GetWrapModes hdTextureNodeName w
      = (Done (uWrap, vWrap), with_warnings w msgs) /\
    uWrap ∈ ["black"; "clamp"; "repeat"] /\
    vWrap ∈ ["black"; "clamp"; "repeat"] /\
    length msgs <= 2.
Proof.
  intros Hu Hv. unfold _GetWrapModes.
  rewrite (bind_Done _ _ _ (w_net w) w) by reflexivity. cbv zeta.
  unfold tokens.uaddressmode, tokens.vaddressmode.
  assert (exists uWrap m1,
            (if negb (VtValue_IsEmpty
                        (GetNodeParameterValue (w_net w) hdTextureNodeName
                           "uaddressmode"))
             then let* s := UncheckedGet_string
                              (GetNodeParameterValue (w_net w)
                                 hdTextureNodeName "uaddressmode") in
                  _GetHdWrapString hdTextureNodeName s
             else ret tokens.repeat) w = (Done uWrap, with_warnings w m1) /\
            uWrap ∈ plugin_wrap_modes /\ length m1 <= 1)
    as (uWrap & m1 & Hurun & Huin & Hm1).
  { destruct Hu as [->|[s ->]]; cbn [VtValue_IsEmpty negb].
    - exists "repeat", []. rewrite with_warnings_nil.
      split; [done|]. split; [unfold plugin_wrap_modes; set_solver|simpl; lia].
    - unfold UncheckedGet_string. rewrite bind_ret.
      apply GetHdWrapString_range. }
  rewrite (bind_Done _ _ _ _ _ Hurun).
  set (w1 := with_warnings w m1).
  assert (exists vWrap m2,
            (if negb (VtValue_IsEmpty
                        (GetNodeParameterValue (w_net w) hdTextureNodeName
                           "vaddressmode"))
             then let* s := UncheckedGet_string
                              (GetNodeParameterValue (w_net w)
                                 hdTextureNodeName "vaddressmode") in
                  _GetHdWrapString hdTextureNodeName s
             else ret tokens.repeat) w1 = (Done vWrap, with_warnings w1 m2) /\
            vWrap ∈ plugin_wrap_modes /\ length m2 <= 1)
    as (vWrap & m2 & Hvrun & Hvin & Hm2).
  { destruct Hv as [->|[s ->]]; cbn [VtValue_IsEmpty negb].
    - exists "repeat", []. rewrite with_warnings_nil.
      split; [done|]. split; [unfold plugin_wrap_modes; set_solver|simpl; lia].
    - unfold UncheckedGet_string. rewrite bind_ret.
      apply GetHdWrapString_range. }
  rewrite (bind_Done _ _ _ _ _ Hvrun).
  exists uWrap, vWrap, (m1 ++ m2)%list.
  split.
  { unfold ret, w1, with_warnings. cbn. by rewrite <- app_assoc. }
  split; [done|]. split; [done|]. rewrite length_app. lia.
Qed.

Lemma GetWrapModes_range_witness :
  exists uWrap vWrap msgs,
    _GetWrapModes "/Mat/NG/Tex"
       (world_of wrapped_texture_net empty_doc demo_registry)
      = (Done (uWrap, vWrap),
         with_warnings (world_of wrapped_texture_net empty_doc demo_registry)
           msgs) /\
    uWrap ∈ ["black"; "clamp"; "repeat"] /\
    vWrap ∈ ["black"; "clamp"; "repeat"] /\
    length msgs <= 2.
Proof.
  apply (GetWrapModes_range "/Mat/NG/Tex"
           (world_of wrapped_texture_net empty_doc demo_registry)).
  - right. exists "constant". vm_compute. reflexivity.
  - right. exists "mirror". vm_compute. reflexivity.
Defined.

(** Both axes set: the diagnostic for the horizontal axis comes first. *)
Example wrapped_texture_run :
  _GetWrapModes "/Mat/NG/Tex"
     (world_of wrapped_texture_net empty_doc demo_registry) =
  (Done ("black", "repeat"),
   with_warnings (world_of wrapped_texture_net empty_doc demo_registry)
     ["RtxHioImagePlugin: Texture '/Mat/NG/Tex' has unsupported wrap mode " +:+
      "'constant' using 'black' instead.";
      "RtxHioImagePlugin: Texture '/Mat/NG/Tex' has unsupported wrap mode " +:+
      "'mirror' using 'repeat' instead."]).
Proof. vm_compute. reflexivity. Qed.

(** *** Texture nodes: the paths that are skipped *)

Section TextureSkips.
Context (env : Env).

(** X17: the texture node paths that [_UpdateTextureNodes] passes over.
    A path that names no node of the network, and a node without file
    parameter, each give one diagnostic; a file parameter that holds
    something else than an asset path, and a node that no node graph of
    the document holds under its name, are skipped silently.  In all four
    cases the document stays as it is. *)
Theorem updateTextureNode_skips (texturePath : string) (w : World) :
  (GetNodeType (w_net w) texturePath = "" ->
   updateTextureNode env texturePath w =
   (Done tt,
    with_warnings w
      ["Connot find texture node '" +:+ texturePath +:+
       "' in material network."])) /\
  (GetNodeType (w_net w) texturePath <> "" ->
   GetNodeParameterValue (w_net w) texturePath "file" = VtEmpty ->
   updateTextureNode env texturePath w =
   (Done tt,
    with_warnings w
      ["File path missing for texture node '" +:+ texturePath +:+ "'."])) /\
  (GetNodeType (w_net w) texturePath <> "" ->
   (forall authored resolved,
      GetNodeParameterValue (w_net w) texturePath "file"
      <> VtAssetPath authored resolved) ->
   GetNodeParameterValue (w_net w) texturePath "file" <> VtEmpty ->
   updateTextureNode env texturePath w = (Done tt, w)) /\
  (forall authored resolved,
     GetNodeType (w_net w) texturePath <> "" ->
     GetNodeParameterValue (w_net w) texturePath "file"
       = VtAssetPath authored resolved ->
     ~ document_holds (w_doc w) (SdfPath_GetName texturePath) ->
     updateTextureNode env texturePath w = (Done tt, w)).
Proof.
  split; [|split; [|split]].
  - intros Hty. unfold updateTextureNode.
    rewrite (bind_Done _ _ _ (w_net w) w) by reflexivity.
    by rewrite bool_decide_eq_true_2.
  - intros Hty Hfile. unfold updateTextureNode.
    rewrite (bind_Done _ _ _ (w_net w) w) by reflexivity.
    rewrite bool_decide_eq_false_2 by done.
    unfold tokens.file. by rewrite Hfile.
  - intros Hty Hasset Hfile. unfold updateTextureNode.
    rewrite (bind_Done _ _ _ (w_net w) w) by reflexivity.
    rewrite bool_decide_eq_false_2 by done.
    unfold tokens.file.
    destruct (GetNodeParameterValue (w_net w) texturePath "file")
      as [|s|a r|t p]; try done.
    exfalso. by apply (Hasset a r).
  - intros authored resolved Hty Hfile Hnone. unfold updateTextureNode.
    rewrite (bind_Done _ _ _ (w_net w) w) by reflexivity.
    rewrite bool_decide_eq_false_2 by done.
    unfold tokens.file. rewrite Hfile. cbn [VtValue_IsEmpty].
    rewrite (bind_Done _ _ _ (w_doc w) w) by reflexivity.
    by rewrite (FindGraphAndNodeByName_missing _ _ _ Hnone).
Qed.

End TextureSkips.

Lemma updateTextureNode_skips_witness :
  updateTextureNode demo_env0 "/Mat/NG/Gone"
     (world_of texture_net_tex texture_doc demo_registry) =
  (Done tt,
   with_warnings (world_of texture_net_tex texture_doc demo_registry)
     ["Connot find texture node '/Mat/NG/Gone' in material network."]) /\
  updateTextureNode demo_env0 "/Mat/Surf"
     (world_of texture_net_tex texture_doc demo_registry) =
  (Done tt,
   with_warnings (world_of texture_net_tex texture_doc demo_registry)
     ["File path missing for texture node '/Mat/Surf'."]) /\
  updateTextureNode demo_env0 "/Mat/NG/Tex"
     (world_of texture_net_tex empty_doc demo_registry) =
  (Done tt, world_of texture_net_tex empty_doc demo_registry).
Proof.
  split; [|split].
  - destruct (updateTextureNode_skips demo_env0 "/Mat/NG/Gone"
                (world_of texture_net_tex texture_doc demo_registry))
      as (H & _).
    apply H. vm_compute. reflexivity.
  - destruct (updateTextureNode_skips demo_env0 "/Mat/Surf"
                (world_of texture_net_tex texture_doc demo_registry))
      as (_ & H & _).
    apply H; [vm_compute; discriminate|vm_compute; reflexivity].
  - destruct (updateTextureNode_skips demo_env0 "/Mat/NG/Tex"
                (world_of texture_net_tex empty_doc demo_registry))
      as (_ & _ & _ & H).
    apply (H "wood" "/assets/wood.tex").
    + vm_compute. discriminate.
    + vm_compute. reflexivity.
    + intros (gr & node & Hgr & _). by apply elem_of_nil in Hgr.
Defined.

(** *** Texture nodes: the document only grows *)

#[global] Instance node_extends_preorder : PreOrder node_extends.
Proof.
  split.
  - intros n. by repeat split.
  - intros a b c (N1 & C1 & T1 & I1) (N2 & C2 & T2 & I2).
    split; [congruence|]. split; [congruence|]. split; [congruence|].
    by etrans.
Qed.

#[global] Instance graph_extends_preorder : PreOrder graph_extends.
Proof.
  split.
  - intros gr. split; [done|]. intros i n Hn. by exists n.
  - intros a b c [N1 H1] [N2 H2]. split; [congruence|].
    intros i n Hn. destruct (H1 i n Hn) as (n1 & Hn1 & E1).
    destruct (H2 i n1 Hn1) as (n2 & Hn2 & E2).
    exists n2. split; [done|]. by etrans.
Qed.

#[global] Instance doc_extends_preorder : PreOrder doc_extends.
Proof.
  split.
  - intros d. split; [done|]. split; [done|]. intros g gr Hg. by exists gr.
  - intros a b c (T1 & L1 & H1) (T2 & L2 & H2).
    split; [congruence|]. split; [congruence|].
    intros g gr Hg. destruct (H1 g gr Hg) as (gr1 & Hg1 & E1).
    destruct (H2 g gr1 Hg1) as (gr2 & Hg2 & E2).
    exists gr2. split; [done|]. by etrans.
Qed.

#[global] Instance extends_doc_preorder : PreOrder extends_doc.
Proof.
  split.
  - intros w. unfold extends_doc. reflexivity.
  - intros a b c. unfold extends_doc. intros. by etrans.
Qed.

Lemma doc_extends_setGraph d g gr gr' :
  doc_graphs d !! g = Some gr -> graph_extends gr gr' ->
  doc_extends d (mx.setGraph d g gr').
Proof.
  intros Hg Hext. split; [done|]. split; [apply length_insert|].
  intros g0 gr0 Hg0. cbn. destruct (decide (g0 = g)) as [->|Hne].
  - exists gr'. rewrite list_lookup_insert_eq by (by eapply lookup_lt_Some).
    split; [done|]. congruence.
  - exists gr0. rewrite list_lookup_insert_ne by done. done.
Qed.

Lemma graph_extends_setNode gr n nd nd' :
  ng_nodes gr !! n = Some nd -> node_extends nd nd' ->
  graph_extends gr (mx.setNode gr n nd').
Proof.
  intros Hn Hext. split; [done|].
  intros i n0 Hi. cbn. destruct (decide (i = n)) as [->|Hne].
  - exists nd'. rewrite list_lookup_insert_eq by (by eapply lookup_lt_Some).
    split; [done|]. congruence.
  - exists n0. rewrite list_lookup_insert_ne by done. done.
Qed.

Lemma extends_update_node g n f :
  (forall nd, node_extends nd (f nd)) ->
  hoare extends_doc (fun _ => True) (update_node g n f).
Proof.
  intros Hf w. split; [|done]. unfold extends_doc.
  destruct (doc_graphs (w_doc w) !! g) as [gr|] eqn:Hg.
  - destruct (ng_nodes gr !! n) as [nd|] eqn:Hn.
    + rewrite (update_node_run g n gr nd f w Hg Hn). cbn.
      apply (doc_extends_setGraph _ _ gr); [done|].
      by apply (graph_extends_setNode _ _ nd).
    + pose proof (read_graph_run g gr w Hg) as Hrg.
      unfold update_node, read_node, bind. rewrite Hrg. cbn.
      rewrite Hg. cbn. rewrite Hn. cbn. reflexivity.
  - unfold update_node, read_graph, bind, get_doc. cbn.
    rewrite Hg. cbn. reflexivity.
Qed.

Lemma extends_add_node g category name type :
  hoare extends_doc (fun _ => True) (add_node g category name type).
Proof.
  intros w. split; [|done]. unfold extends_doc.
  destruct (doc_graphs (w_doc w) !! g) as [gr|] eqn:Hg.
  - destruct (mx.getNode gr name) as [i|] eqn:Hname.
    + pose proof (read_graph_run g gr w Hg) as Hrg.
      unfold add_node, bind. rewrite Hrg. cbn.
      unfold mx.addNode. rewrite Hname. cbn. reflexivity.
    + rewrite (add_node_run g gr category name type w Hg Hname). cbn.
      apply (doc_extends_setGraph _ _ gr); [done|].
      split; [done|]. intros i n Hi. exists n. cbn.
      split; [by apply lookup_app_l_Some|reflexivity].
  - unfold add_node, read_graph, bind, get_doc. cbn.
    rewrite Hg. cbn. reflexivity.
Qed.

Lemma fmap_alter_same {A B} (f : A -> B) (g : A -> A) i (l : list A) :
  (forall x, f (g x) = f x) -> f <$> alter g i l = f <$> l.
Proof.
  intros H. apply list_eq. intros j. rewrite !list_lookup_fmap.
  destruct (decide (i = j)) as [->|Hne].
  - rewrite list_lookup_alter_eq. destruct (l !! j); simpl; [|done].
    by rewrite H.
  - by rewrite list_lookup_alter_ne.
Qed.

Lemma node_extends_setInputValue nd name v type :
  node_extends nd (mx.setInputValue nd name v type).
Proof.
  unfold mx.setInputValue. destruct (mx.getInput nd name) as [i|].
  - repeat split; cbn. by rewrite fmap_alter_same.
  - repeat split; cbn. rewrite fmap_app. by apply prefix_app_r.
Qed.

Lemma node_extends_addInput nd name type :
  node_extends nd (mx.addInput nd name type).
Proof. repeat split; cbn. rewrite fmap_app. by apply prefix_app_r. Qed.

Lemma node_extends_setConnectedNode nd i target :
  node_extends nd (mx.setConnectedNode nd i target).
Proof. repeat split; cbn. by rewrite fmap_alter_same. Qed.

Lemma node_extends_setNodeDefString nd s :
  node_extends nd (mx.setNodeDefString nd s).
Proof. by repeat split. Qed.

Ltac extends_doc_prim :=
  first
    [ apply extends_update_node; intros;
      first [ apply node_extends_setInputValue | apply node_extends_addInput
            | apply node_extends_setConnectedNode
            | apply node_extends_setNodeDefString ]
    | apply extends_add_node
    | intros ?; split; [|done]; unfold extends_doc; cbn; reflexivity ].

Section TextureDocument.
Context (env : Env).

Lemma extends_updateTextureNode texturePath :
  hoare extends_doc (fun _ => True) (updateTextureNode env texturePath).
Proof.
  unfold updateTextureNode, _GetWrapModes, _GetHdWrapString,
    UncheckedGet_string, read_node, read_graph.
  footprint_tac extends_doc_prim.
Qed.

End TextureDocument.

(** X18: [_UpdateTextureNodes] only adds to the MaterialX document.  The
    top-level nodes and the number and names of the node graphs stay as
    they are; every node of a graph is still there afterwards, at the
    same place, with its name, category and type, and with all the inputs
    it had, in the same order.  New nodes come behind the old ones, new
    inputs behind the old inputs. *)
Theorem UpdateTextureNodes_extends_document (env : Env)
    (hdTextureNodePaths : list string) (w : World) :
  let d := w_doc w in
  let d' := w_doc (snd (_UpdateTextureNodes env hdTextureNodePaths w)) in
  doc_nodes d' = doc_nodes d /\
  length (doc_graphs d') = length (doc_graphs d) /\
  forall g gr i n,
    doc_graphs d !! g = Some gr -> ng_nodes gr !! i = Some n ->
    exists gr' n',
      doc_graphs d' !! g = Some gr' /\ ng_name gr' = ng_name gr /\
      ng_nodes gr' !! i = Some n' /\
      nd_name n' = nd_name n /\ nd_category n' = nd_category n /\
      nd_type n' = nd_type n /\
      (in_name <$> nd_inputs n) `prefix_of` (in_name <$> nd_inputs n').
Proof.
  cbv zeta.
  destruct (hoare_for_each extends_doc hdTextureNodePaths
              (updateTextureNode env) (extends_updateTextureNode env) w)
    as [(Htop & Hlen & Hgraphs) _].
  split; [done|]. split; [done|].
  intros g gr i n Hg Hn.
  destruct (Hgraphs g gr Hg) as (gr' & Hg' & Hname & Hnodes).
  destruct (Hnodes i n Hn) as (n' & Hn' & HN & HC & HT & HI).
  by exists gr', n'.
Qed.

(** *** The entry point on a terminal without inputs *)

(** X19: a MaterialX surface terminal without input connections.
    [MatfiltMaterialX] builds no MaterialX document and generates nothing:
    the run is that of [_TransformTerminalNode] on the terminal node. *)
Theorem MatfiltMaterialX_without_inputs (env : Env) (w : World)
    (terminal : HdMaterialConnection2) (mtlxSdrNode : SdrShaderNode) :
  terminals (w_net w) !! "surface" = Some terminal ->
  SdrRegistry.GetShaderNodeByIdentifierAndType (w_registry w)
    (GetNodeType (w_net w) (upstreamNodeName terminal)) "mtlx"
    = Some mtlxSdrNode ->
  GetNodeInputConnectionNames (w_net w) (upstreamNodeName terminal) = [] ->
  MatfiltMaterialX env netInterface w
    = _TransformTerminalNode (upstreamNodeName terminal) w.
Proof.
  intros Hterm Hsdr Hnames. unfold MatfiltMaterialX.
  rewrite (bind_Done _ _ _ (w_net w) w) by reflexivity.
  unfold GetTerminalConnection, tokens.surface. rewrite Hterm.
  cbn [fst snd negb].
  rewrite (bind_Done _ _ _ (w_registry w) w) by reflexivity.
  unfold tokens.mtlx. rewrite Hsdr, Hnames.
  by rewrite bind_ret.
Qed.

Lemma MatfiltMaterialX_without_inputs_witness :
  MatfiltMaterialX demo_env0 netInterface
     (world_of params_net empty_doc demo_registry)
  = _TransformTerminalNode "/Mat/Surf"
      (world_of params_net empty_doc demo_registry).
Proof.
  apply (MatfiltMaterialX_without_inputs demo_env0
           (world_of params_net empty_doc demo_registry)
           (mkConnection "/Mat/Surf" "")
           (mkSdr tokens.ND_standard_surface_surfaceshader tokens.mtlx
              ["base_color"; "specular_color"; "normal"] ["out"] "")).
  - vm_compute. reflexivity.
  - vm_compute. reflexivity.
  - vm_compute. reflexivity.
Defined.

(** *** The compiler wrapper: when no artifact is produced *)

(** X20: the two ways in which [_CompileOslSource] returns the empty
    path.  Without OSL support it issues one diagnostic and does nothing
    else: the compiler is not run and no temporary name is drawn.  With
    OSL support, when the artifact file cannot be opened, the compiler
    has been run and a temporary name drawn, one diagnostic names the
    file, and no file is written.  In both cases the network, the
    document and the registry are as before. *)
Theorem CompileOslSource_no_artifact (env : Env) (name oslSource : string)
    (searchPaths : list string) (w : World) :
  (PXR_OSL_SUPPORT_ENABLED env = false ->
   _CompileOslSource env name oslSource searchPaths w =
   (Done "",
    with_warnings w
      ["Unable to compile MaterialX generated Osl shader, enable OSL " +:+
       "support for full MaterialX support in HdPrman." +:+ line_feed])) /\
  (PXR_OSL_SUPPORT_ENABLED env = true ->
   fopen_succeeds env
     (ArchMakeTmpFileName env (w_tmpCalls w) ("MX." +:+ name) ".oso")
     = false ->
   _CompileOslSource env name oslSource searchPaths w =
   (Done "",
    mkWorld (w_net w) (w_doc w) (w_registry w)
      (w_warnings w ++
       ["Unable to save compiled MaterialX Osl shader at '" +:+
        ArchMakeTmpFileName env (w_tmpCalls w) ("MX." +:+ name) ".oso" +:+
        "'" +:+ line_feed])
      (w_trace w ++ [EvOslc name oslSource])
      (S (w_tmpCalls w)) (w_files w))).
Proof.
  split.
  - intros Hosl. unfold _CompileOslSource. by rewrite Hosl.
  - intros Hosl Hopen. unfold _CompileOslSource. rewrite Hosl.
    unfold bind, trace, next_tmp_call. simpl. rewrite Hopen. reflexivity.
Qed.

Lemma CompileOslSource_no_artifact_witness :
  _CompileOslSource no_osl_env "MulShader" "shader MulShader" ["/mtlx"]
     (world_of shared_net shared_doc demo_registry) =
  (Done "",
   with_warnings (world_of shared_net shared_doc demo_registry)
     ["Unable to compile MaterialX generated Osl shader, enable OSL " +:+
      "support for full MaterialX support in HdPrman." +:+ line_feed]).
Proof.
  destruct (CompileOslSource_no_artifact no_osl_env "MulShader"
              "shader MulShader" ["/mtlx"]
              (world_of shared_net shared_doc demo_registry)) as [H _].
  apply H. reflexivity.
Defined.

(** *** The table of reserved words *)

(** X21: the renaming of reserved input names.  A replacement name is
    never the name it replaces and is not reserved itself, so that
    renaming twice changes nothing more; two reserved names never get the
    same replacement; and only emission, subsurface and normal are
    renamed. *)
Theorem GetUpdatedInputToken_renaming (p : string) :
  (_GetUpdatedInputToken p <> "" ->
   _GetUpdatedInputToken p <> p /\
   _GetUpdatedInputToken (_GetUpdatedInputToken p) = "" /\
   (forall q, _GetUpdatedInputToken q = _GetUpdatedInputToken p -> q = p)) /\
  (_GetUpdatedInputToken p <> "" <->
   p = "emission" \/ p = "subsurface" \/ p = "normal").
Proof.
  split.
  - intros Hp. pose proof (updated_token_spec p Hp) as Hin.
    destruct (conflicts_updated _ _ Hin) as (_ & _ & Hnot).
    split; [|split].
    + intros Heq. rewrite Heq in Hnot. congruence.
    + done.
    + intros q Hq. symmetry. apply updated_token_inj; [done|]. by symmetry.
  - split.
    + intros Hp. apply updated_token_spec in Hp. unfold conflicts in Hp.
      rewrite !elem_of_cons in Hp.
      destruct Hp as [Hp|[Hp|[Hp|Hp]]]; [| | |by apply elem_of_nil in Hp];
        injection Hp as Hp _; subst p; auto.
    + intros [-> | [-> | ->]]; discriminate.
Qed.

Lemma GetUpdatedInputToken_renaming_witness :
  _GetUpdatedInputToken "normal" <> "normal" /\
  _GetUpdatedInputToken (_GetUpdatedInputToken "normal") = "".
Proof.
  destruct (GetUpdatedInputToken_renaming "normal") as [H _].
  destruct H as (Hne & Hidem & _); [discriminate|]. by split.
Defined.

(** *** The rewrite without OSL support *)

#[global] Instance no_osl_footprint_preorder : PreOrder no_osl_footprint.
Proof.
  split.
  - intros w. repeat split. intros k. by left.
  - intros a b c (R1 & F1 & C1 & T1) (R2 & F2 & C2 & T2).
    split; [congruence|]. split; [congruence|]. split; [congruence|].
    intros k. destruct (T2 k) as [H2|H2]; [|by right].
    rewrite H2. apply T1.
Qed.

Lemma GetNodeType_DeleteNodeInputConnection net k i a :
  GetNodeType (DeleteNodeInputConnection net k i) a = GetNodeType net a.
Proof.
  unfold GetNodeType, DeleteNodeInputConnection, putNode.
  destruct (nodes net !! k) as [n|] eqn:Hk; [|done]. cbn.
  destruct (decide (a = k)) as [->|Hne].
  - by rewrite lookup_insert_eq, Hk.
  - by rewrite lookup_insert_ne.
Qed.

Lemma GetNodeType_DeleteNodeParameter net k p a :
  GetNodeType (DeleteNodeParameter net k p) a = GetNodeType net a.
Proof.
  unfold GetNodeType, DeleteNodeParameter, putNode.
  destruct (nodes net !! k) as [n|] eqn:Hk; [|done]. cbn.
  destruct (decide (a = k)) as [->|Hne].
  - by rewrite lookup_insert_eq, Hk.
  - by rewrite lookup_insert_ne.
Qed.

Lemma GetNodeType_DeleteNode net k a :
  GetNodeType (DeleteNode net k) a = GetNodeType net a \/
  GetNodeType (DeleteNode net k) a = "".
Proof.
  unfold GetNodeType, DeleteNode. cbn.
  destruct (decide (a = k)) as [->|Hne].
  - right. by rewrite lookup_delete_eq.
  - left. by rewrite lookup_delete_ne.
Qed.

Ltac no_osl_prim :=
  intros ?; split; [|done]; unfold no_osl_footprint; cbn;
  split; [done|]; split; [done|]; split; [done|]; intros ?;
  first
    [ by left
    | left; apply GetNodeType_SetNodeInputConnection
    | left; apply GetNodeType_DeleteNodeInputConnection
    | left; apply GetNodeType_DeleteNodeParameter
    | apply GetNodeType_DeleteNode ].

Section NoOsl.
Context (env : Env).
Hypothesis no_osl : PXR_OSL_SUPPORT_ENABLED env = false.

Lemma no_osl_compile {A} name oslSource searchPath (a : A) (rest : string -> M A) :
  hoare no_osl_footprint (fun _ => True)
    (let* compiledShaderPath :=
       _CompileOslSource env name oslSource searchPath in
     if bool_decide (compiledShaderPath = "") then ret a
     else rest compiledShaderPath).
Proof.
  intros w. split; [|done].
  rewrite (bind_Done _ _ _ _ _
             (CompileOslSource_without_osl env name oslSource searchPath w
                no_osl)).
  cbn. repeat split. intros k. by left.
Qed.

Lemma no_osl_updateConnection T searchPath cName sets conn :
  hoare no_osl_footprint (fun _ => True)
    (updateConnection env T searchPath cName sets conn).
Proof.
  unfold updateConnection, _GatherNodeGraphNodes, _GenMaterialXShaderCode.
  footprint_tac ltac:(first [apply no_osl_compile | no_osl_prim]).
Qed.

Lemma no_osl_UpdateNetwork T searchPath :
  hoare no_osl_footprint (fun _ => True) (_UpdateNetwork env T searchPath).
Proof.
  unfold _UpdateNetwork.
  footprint_tac ltac:(first [apply no_osl_updateConnection | no_osl_prim]).
Qed.

End NoOsl.

(** X22: in a build without OSL support [_UpdateNetwork] compiles
    nothing: it registers no shader, writes no file and draws no
    temporary name, and no node of the network gets another type, a node
    either keeping its type or being deleted.  The connections of the
    terminal may still be rewritten and the upstream nodes pruned. *)
Theorem UpdateNetwork_without_osl (env : Env) (terminalNodeName : string)
    (searchPath : list string) (w : World) :
  PXR_OSL_SUPPORT_ENABLED env = false ->
  let w' := snd (_UpdateNetwork env terminalNodeName searchPath w) in
  w_registry w' = w_registry w /\ w_files w' = w_files w /\
  w_tmpCalls w' = w_tmpCalls w /\
  forall k, GetNodeType (w_net w') k = GetNodeType (w_net w) k \/
            GetNodeType (w_net w') k = "".
Proof.
  intros Hosl. cbv zeta.
  destruct (no_osl_UpdateNetwork env Hosl terminalNodeName searchPath w)
    as [H _].
  exact H.
Qed.

Lemma UpdateNetwork_without_osl_witness :
  let w := world_of shared_net shared_doc demo_registry in
  let w' := snd (_UpdateNetwork no_osl_env "/Mat/Surf" ["/mtlx"] w) in
  w_registry w' = w_registry w /\ w_files w' = w_files w /\
  w_tmpCalls w' = w_tmpCalls w /\
  forall k, GetNodeType (w_net w') k = GetNodeType (w_net w) k \/
            GetNodeType (w_net w') k = "".
Proof.
  apply (UpdateNetwork_without_osl no_osl_env "/Mat/Surf" ["/mtlx"]
           (world_of shared_net shared_doc demo_registry)).
  reflexivity.
Defined.

(** The same run: each generated node gives the diagnostic of the
    compiler wrapper, the node read directly by the terminal keeps its
    MaterialX type, and the pruning still takes place. *)
Example no_osl_run :
  let w := world_of shared_net shared_doc demo_registry in
  let r := _UpdateNetwork no_osl_env "/Mat/Surf" ["/mtlx"] w in
  fst r = Done tt /\
  w_warnings (snd r) =
    ["Unable to compile MaterialX generated Osl shader, enable OSL " +:+
     "support for full MaterialX support in HdPrman." +:+ line_feed] /\
  GetNodeType (w_net (snd r)) "/Mat/NG/Mul" = "ND_multiply_color3" /\
  nodes (w_net (snd r)) !! "/Mat/NG/Tex" = None.
Proof. vm_compute. repeat split; reflexivity. Qed.

(** *** Reserved parameter names on the terminal *)

(** C5 (amended): for a standard-surface terminal carrying an authored
    parameter named emission, subsurface or normal with value V, when the
    registry holds the StandardSurfaceParameters adapter entry and the
    PxrSurface entry, the terminal adapter retypes the node to the adapter
    and renames the parameter per the table (emission to emission_value,
    subsurface to subsurface_value, normal to input_normal): afterwards
    the new name holds V and the old name is no parameter of the node.
    Without the adapter entry the transform issues one diagnostic and
    returns before retyping or renaming: the network is left as it was.
    With the adapter entry but without the PxrSurface entry the transform
    stops at the null entry it dereferences.  For a UsdPreviewSurface
    terminal (with both entries) the node is retyped and its parameters
    are left as they are. *)
Theorem C5_reserved_parameters_renamed (terminalNodeName : string) (w : World)
    (terminal : HdMaterialNode2) :
  nodes (w_net w) !! terminalNodeName = Some terminal ->
  (nodeTypeId terminal = tokens.ND_standard_surface_surfaceshader ->
   (forall sdrPxrSurface,
      SdrRegistry.GetShaderNodeByIdentifier (w_registry w) tokens.PxrSurface
        [tokens.RmanCpp] = Some sdrPxrSurface ->
      is_Some (SdrRegistry.GetShaderNodeByIdentifier (w_registry w)
                 tokens.SS_Adapter [tokens.OSL]) ->
      exists w' terminal',
        _TransformTerminalNode terminalNodeName w = (Done tt, w') /\
        nodes (w_net w') !! terminalNodeName = Some terminal' /\
        nodeTypeId terminal' = "StandardSurfaceParameters" /\
        forall old new V,
          (old, new) ∈ [("emission", "emission_value");
                        ("subsurface", "subsurface_value");
                        ("normal", "input_normal")] ->
          parameters terminal !! old = Some V ->
          parameters terminal' !! new = Some V /\
          parameters terminal' !! old = None) /\
   (SdrRegistry.GetShaderNodeByIdentifier (w_registry w)
      tokens.SS_Adapter [tokens.OSL] = None ->
    _TransformTerminalNode terminalNodeName w =
      (Done tt,
       with_warnings w
         ["No sdrAdater node of type 'StandardSurfaceParameters'"])) /\
   (is_Some (SdrRegistry.GetShaderNodeByIdentifier (w_registry w)
               tokens.SS_Adapter [tokens.OSL]) ->
    SdrRegistry.GetShaderNodeByIdentifier (w_registry w) tokens.PxrSurface
      [tokens.RmanCpp] = None ->
    fst (_TransformTerminalNode terminalNodeName w)
      = Fault "null sdrPxrSurface dereferenced")) /\
  (nodeTypeId terminal = tokens.ND_UsdPreviewSurface_surfaceshader ->
   forall sdrPxrSurface,
     SdrRegistry.GetShaderNodeByIdentifier (w_registry w) tokens.PxrSurface
       [tokens.RmanCpp] = Some sdrPxrSurface ->
     is_Some (SdrRegistry.GetShaderNodeByIdentifier (w_registry w)
                tokens.USD_Adapter [tokens.OSL]) ->
     exists w' terminal',
       _TransformTerminalNode terminalNodeName w = (Done tt, w') /\
       nodes (w_net w') !! terminalNodeName = Some terminal' /\
       nodeTypeId terminal' = "UsdPreviewSurfaceParameters" /\
       parameters terminal' = parameters terminal).
Proof.
  intros HT.
  assert (terminalNodeName +:+ "_PxrSurface" <> terminalNodeName) as Hne
    by (by apply append_ne_self).
  split; [intros Hty; split; [|split]|].
  - intros sdrPxrSurface Hpxr [sdrAdapter Had].
    unfold _TransformTerminalNode, bind, get_net, get_registry. cbv beta iota.
    unfold GetNodeType at 1. rewrite HT, Hty. cbn [_GetAdapterNodeType].
    unfold _GetAdapterNodeType.
    rewrite bool_decide_eq_true_2 by done. unfold ret at 1. cbv beta iota.
    rewrite Had, Hpxr. unfold modify_net at 1. cbv beta iota.
    rewrite bool_decide_eq_false_2 by done. cbn [negb].
    cbv beta iota. cbn [w_net with_net].
    rewrite (for_each_net (rename_step terminalNodeName)).
    2:{ intros p w0. unfold rename_step.
        case_bool_decide; simpl; [by rewrite with_net_id|].
        reflexivity. }
    unfold modify_net at 1. cbv beta iota.
    rewrite (for_each_net (connect_step (terminalNodeName +:+ "_PxrSurface")
                             terminalNodeName sdrPxrSurface sdrAdapter)).
    2:{ intros p w0. unfold connect_step.
        repeat case_match; try reflexivity; by rewrite with_net_id. }
    unfold modify_net. cbn [w_net with_net].
    eexists _, _. split; [reflexivity|].
    cbn [w_net with_net SetTerminalConnection nodes].
    rewrite connect_step_lookup_ne by done.
    rewrite SetNodeType_lookup_ne by done.
    erewrite rename_step_lookup by (by apply SetNodeType_lookup).
    split; [reflexivity|]. split; [reflexivity|].
    intros old new V Hc Hold. cbn [parameters].
    unfold GetAuthoredNodeParameterNames.
    erewrite SetNodeType_lookup by done. cbn [parameters].
    apply rename_params_renames; try done.
    + apply NoDup_sorted_keys.
    + apply elem_of_sorted_keys. eauto.
  - intros Hnone.
    rewrite (TransformTerminalNode_no_adapter _ _ tokens.SS_Adapter []);
      [done| |done].
    unfold GetNodeType. rewrite HT, Hty. unfold _GetAdapterNodeType.
    rewrite bool_decide_eq_true_2 by done. by rewrite with_warnings_nil.
  - intros [sdrAdapter Had] Hpxr.
    unfold _TransformTerminalNode, bind, get_net, get_registry. cbv beta iota.
    unfold GetNodeType at 1. rewrite HT, Hty. cbn [_GetAdapterNodeType].
    unfold _GetAdapterNodeType.
    rewrite bool_decide_eq_true_2 by done. unfold ret at 1. cbv beta iota.
    rewrite Had, Hpxr. unfold modify_net at 1. cbv beta iota.
    rewrite bool_decide_eq_false_2 by done. cbn [negb].
    cbv beta iota. cbn [w_net with_net].
    rewrite (for_each_net (rename_step terminalNodeName)).
    2:{ intros p w0. unfold rename_step.
        case_bool_decide; simpl; [by rewrite with_net_id|].
        reflexivity. }
    reflexivity.
  - intros Hty sdrPxrSurface Hpxr [sdrAdapter Had].
    unfold _TransformTerminalNode, bind, get_net, get_registry. cbv beta iota.
    unfold GetNodeType at 1. rewrite HT, Hty.
    unfold _GetAdapterNodeType.
    rewrite bool_decide_eq_false_2 by done.
    rewrite bool_decide_eq_true_2 by done. unfold ret at 1. cbv beta iota.
    rewrite Had, Hpxr. unfold modify_net at 1. cbv beta iota.
    rewrite bool_decide_eq_true_2 by done. cbn [negb].
    unfold ret at 1. cbv beta iota.
    unfold modify_net at 1. cbv beta iota.
    rewrite (for_each_net (connect_step (terminalNodeName +:+ "_PxrSurface")
                             terminalNodeName sdrPxrSurface sdrAdapter)).
    2:{ intros p w0. unfold connect_step.
        repeat case_match; try reflexivity; by rewrite with_net_id. }
    unfold modify_net. cbn [w_net with_net].
    eexists _, _. split; [reflexivity|].
    cbn [w_net with_net SetTerminalConnection nodes].
    rewrite connect_step_lookup_ne by done.
    rewrite SetNodeType_lookup_ne by done.
    erewrite SetNodeType_lookup by done. done.
Qed.

Lemma C5_reserved_parameters_renamed_witness :
  (exists w' terminal',
     _TransformTerminalNode "/Mat/Surf"
        (world_of params_net empty_doc demo_registry) = (Done tt, w') /\
     nodes (w_net w') !! "/Mat/Surf" = Some terminal' /\
     nodeTypeId terminal' = "StandardSurfaceParameters" /\
     parameters terminal' !! "input_normal"
       = Some (VtOther "GfVec3f" "(0, 0, 1)") /\
     parameters terminal' !! "normal" = None) /\
  (exists w' terminal',
     _TransformTerminalNode "/Mat/Surf"
        (world_of preview_net empty_doc demo_registry) = (Done tt, w') /\
     nodes (w_net w') !! "/Mat/Surf" = Some terminal' /\
     nodeTypeId terminal' = "UsdPreviewSurfaceParameters" /\
     parameters terminal' !! "normal"
       = Some (VtOther "GfVec3f" "(0, 0, 1)")).
Proof.
  assert (forall net,
            SdrRegistry.GetShaderNodeByIdentifier
              (w_registry (world_of net empty_doc demo_registry))
              tokens.PxrSurface [tokens.RmanCpp]
            = Some (mkSdr tokens.PxrSurface tokens.RmanCpp
                      ["diffuseColor"; "specularFaceColor"; "bumpNormal"]
                      ["out"] "")) as Hpxr
    by (intros net; vm_compute; reflexivity).
  split.
  - assert (nodes (w_net (world_of params_net empty_doc demo_registry))
              !! "/Mat/Surf"
            = Some (node_of tokens.ND_standard_surface_surfaceshader
                      [ ("base", VtOther "float" "0.8");
                        ("normal", VtOther "GfVec3f" "(0, 0, 1)") ] []))
      as Hnode by (vm_compute; reflexivity).
    destruct (C5_reserved_parameters_renamed _ _ _ Hnode) as [Hss _].
    destruct (Hss eq_refl) as (Hren & _ & _).
    destruct (Hren _ (Hpxr params_net))
      as (w' & terminal' & Hrun & Hnode' & Hty & Hren').
    { vm_compute. eauto. }
    exists w', terminal'. split; [done|]. split; [done|]. split; [done|].
    apply (Hren' "normal" "input_normal" (VtOther "GfVec3f" "(0, 0, 1)")).
    + rewrite !elem_of_cons. right; right; left; reflexivity.
    + vm_compute; reflexivity.
  - assert (nodes (w_net (world_of preview_net empty_doc demo_registry))
              !! "/Mat/Surf"
            = Some (node_of tokens.ND_UsdPreviewSurface_surfaceshader
                      [ ("normal", VtOther "GfVec3f" "(0, 0, 1)") ] []))
      as Hnode by (vm_compute; reflexivity).
    destruct (C5_reserved_parameters_renamed _ _ _ Hnode) as [_ Hpv].
    destruct (Hpv eq_refl _ (Hpxr preview_net))
      as (w' & terminal' & Hrun & Hnode' & Hty & Hpar).
    { vm_compute. eauto. }
    exists w', terminal'. split; [done|]. split; [done|]. split; [done|].
    rewrite Hpar. vm_compute; reflexivity.
Defined.

(** C5 as stated fails where the registry lacks an entry the transform
    needs.  The standard-surface terminal of [params_net] carries the
    parameter normal.  Without the adapter entry the transform returns
    after one diagnostic: the node keeps its type, normal is still a
    parameter and input_normal is none.  Without the PxrSurface entry the
    transform stops at the null entry. *)
Lemma C5_counterexample :
  (let w := world_of params_net empty_doc registry_without_adapters in
   let r := _TransformTerminalNode "/Mat/Surf" w in
   GetNodeType (w_net w) "/Mat/Surf" = "ND_standard_surface_surfaceshader" /\
   GetNodeParameterValue (w_net w) "/Mat/Surf" "normal"
     = VtOther "GfVec3f" "(0, 0, 1)" /\
   fst r = Done tt /\
   w_net (snd r) = w_net w /\
   GetNodeType (w_net (snd r)) "/Mat/Surf"
     = "ND_standard_surface_surfaceshader" /\
   GetNodeParameterValue (w_net (snd r)) "/Mat/Surf" "normal"
     = VtOther "GfVec3f" "(0, 0, 1)" /\
   GetNodeParameterValue (w_net (snd r)) "/Mat/Surf" "input_normal" = VtEmpty /\
   w_warnings (snd r)
     = ["No sdrAdater node of type 'StandardSurfaceParameters'"]) /\
  (let w := world_of params_net empty_doc registry_without_PxrSurface in
   fst (_TransformTerminalNode "/Mat/Surf" w)
     = Fault "null sdrPxrSurface dereferenced").
Proof. vm_compute. repeat split; reflexivity. Qed.

(** *** Strings *)









(** *** Documents that grow *)








Lemma find_index_fmap {A B} (f : A -> B) (p : B -> bool) (l : list A) :
  find_index p (f <$> l) = find_index (fun x => p (f x)) l.
Proof. induction l as [|x l IH]; csimpl; [done|]. by rewrite IH. Qed.

Lemma getNode_names gr name :
  mx.getNode gr name =
  find_index (fun x => bool_decide (x = name)) (node_names gr).
Proof. unfold mx.getNode, node_names. by rewrite find_index_fmap. Qed.



(** A name that was found is found at the same place. *)
Lemma getNode_grows_Some (E : string -> Prop) gr gr' name i :
  graph_grows E gr gr' -> mx.getNode gr name = Some i ->
  mx.getNode gr' name = Some i.
Proof.
  intros [_ (extra & Hn & HE)]. rewrite !getNode_names, Hn, find_index_app.
  by intros ->.
Qed.





(** *** Invariants of a computation *)

Lemma maintains_ret {A} J (Q : A -> Prop) a : Q a -> maintains J Q (ret a).
Proof. intros HQ w b w' HJ [= <- <-]. done. Qed.


Lemma maintains_bind {A B} J (QA : A -> Prop) (QB : B -> Prop) (m : M A)
    (k : A -> M B) :
  maintains J QA m -> (forall a, QA a -> maintains J QB (k a)) ->
  maintains J QB (bind m k).
Proof.
  intros Hm Hk w b w' HJ. unfold bind.
  destruct (m w) as [[a|s] w1] eqn:Hmw; [|done].
  destruct (Hm w a w1 HJ Hmw) as [HJ1 Ha]. by apply Hk.
Qed.


Lemma maintains_for_each {A} J (l : list A) (body : A -> M unit) :
  (forall x, x ∈ l -> maintains J (fun _ => True) (body x)) ->
  maintains J (fun _ => True) (for_each l body).
Proof.
  induction l as [|x l IH]; intros Hb; simpl.
  - by apply maintains_ret.
  - eapply maintains_bind; [apply Hb; apply list_elem_of_here|].
    intros _ _. apply IH. intros y Hy. apply Hb. by apply list_elem_of_further.
Qed.

#[global] Instance same_doc_preorder : PreOrder same_doc.
Proof.
  split.
  - by intros w.
  - intros a b c. unfold same_doc. congruence.
Qed.



(** *** One iteration of the texture pass leaves the other nodes alone *)



Section TextureFrame.
Context (d0 : MxDocument) (p : string) (found : FoundNode).




End TextureFrame.



Section TextureStep.
Context (env : Env).


End TextureStep.

(** *** The native branch, whatever the texcoord input names *)

Section Texture.
Context (env : Env).



End Texture.

(** *** Loops *)








(** *** The whole texture pass leaves the other nodes alone *)

Section TexturePass.
Context (env : Env).



End TexturePass.

(** *** The pass around one texture path *)


Section TexturePass.
Context (env : Env).



End TexturePass.

Section TexturePass.
Context (env : Env).


End TexturePass.





Section TexturePass.
Context (env : Env).



End TexturePass.

(** *** The texture node after its iteration *)



Lemma plugin_texture_node_file env node path tex wraps :
  has_input_value (plugin_texture_node env node path tex wraps) tokens.file
    (MxString (plugin_file_value env path wraps)) tokens.filename.
Proof.
  unfold plugin_texture_node. cbv zeta.
  set (node1 := mx.setInputValue node tokens.file
                  (MxString (plugin_file_value env path wraps)) tokens.filename).
  pose proof (has_input_value_setInputValue node tokens.file
                (MxString (plugin_file_value env path wraps)) tokens.filename)
    as Hfile1. fold node1 in Hfile1.
  destruct (mx.getInput node tokens.texcoord) as [ti|] eqn:Hti; [done|].
  apply has_input_value_setConnectedNode.
  { by apply has_input_value_addInput. }
  intros i Hi ->.
  destruct Hfile1 as (j & inp & Hj & _). clearbody node1.
  assert (mx.getInput (mx.addInput node1 tokens.texcoord tokens.vector2)
              tokens.file
          = Some j) as Hj'.
  { unfold mx.getInput, mx.addInput in *. simpl.
    by rewrite find_index_app, Hj. }
  rewrite Hj' in Hi. injection Hi as ->.
  apply getInput_lt in Hj. lia.
Qed.


(** *** Texture nodes: the remap node *)




(** *** Texture nodes: a resolved path without extension *)



